(** * JWM event handling (src/event.c)

    A shallow embedding of the event dispatcher of the window manager:
    [WaitForEvent], [ProcessEvent] and the typed handlers they call.

    - C [int]s that hold X11 coordinates, sizes, flags and return codes are
      [Z]; X11 coordinates and sizes are 16-bit quantities, so the sums the
      handlers form never leave the range of [int].  The one place where the
      code converts between integer types of different width, the
      double-click time test, has its wrap-around written out.
    - [ClientNode] pointers are the content window id of the node: the
      registry is the list of live nodes and a store through [np] replaces
      the node of that id.
    - Handlers are state transformers over [World] (a small state monad).
      Every call that leaves event.c is recorded, in order, in the world's
      trace together with the registry as the callee finds it.  Operations of
      other modules whose outcome a handler reads back (lookups, removal,
      desktop and sticky assignment, shading, shutdown) also carry their
      effect.
    - The optional shape extension is a build option: the parts of the
      code under [#ifdef USE_SHAPE] are guarded by the flag [USE_SHAPE] of
      the environment. *)

From Stdlib Require Import ZArith List Bool Lia.
From Stdlib Require String.
Import ListNotations.
Local Open Scope Z_scope.

(** ** X11 vocabulary (X.h, Xlib.h, Xatom.h, Xutil.h) *)

Definition Window := Z.
Definition Atom := Z.
Definition Colormap := Z.
Definition Cursor := Z.
Definition Time := Z.

Definition Button1 : Z := 1.
Definition Button2 : Z := 2.
Definition Button3 : Z := 3.

Definition CWX : Z := 1.
Definition CWY : Z := 2.
Definition CWWidth : Z := 4.
Definition CWHeight : Z := 8.
Definition CWBorderWidth : Z := 16.
Definition CWSibling : Z := 32.
Definition CWStackMode : Z := 64.

Definition Above : Z := 0.
Definition True_ : Z := 1.
Definition False_ : Z := 0.

Definition XA_WM_CLIENT_MACHINE : Atom := 36.
Definition XA_WM_HINTS : Atom := 35.
Definition XA_WM_ICON_NAME : Atom := 37.
Definition XA_WM_NAME : Atom := 39.
Definition XA_WM_NORMAL_HINTS : Atom := 40.

Definition WithdrawnState : Z := 0.
Definition NormalState : Z := 1.
Definition IconicState : Z := 3.

(** The C truth test of an integer. *)
Definition nonzero (v : Z) : bool := negb (v =? 0).

(** [a & b] used as a condition. *)
Definition has (v mask : Z) : bool := nonzero (Z.land v mask).

(** [v |= f] and [v &= ~f] on an unsigned word: for [0 <= v < 2^32] the
    complement taken in [Z] clears the same bits as the 32-bit one. *)
Definition set_bits (v f : Z) : Z := Z.lor v f.
Definition clear_bits (v f : Z) : Z := Z.land v (Z.lnot f).

Record XWindowChanges := mkXWindowChanges {
  wc_x : Z; wc_y : Z; wc_width : Z; wc_height : Z;
  wc_border_width : Z; wc_sibling : Window; wc_stack_mode : Z
}.

Module XConfigureRequestEvent.
Record t := mk {
  window : Window; x : Z; y : Z; width : Z; height : Z;
  border_width : Z; above : Window; detail : Z; value_mask : Z
}.
End XConfigureRequestEvent.

Module XMapEvent.
Record t := mk { window : Window }.
End XMapEvent.

Module XPropertyEvent.
Record t := mk { window : Window; atom : Atom }.
End XPropertyEvent.

Module XClientMessageEvent.
(** [l0], [l1], [l2] are [data.l[0]], [data.l[1]], [data.l[2]]. *)
Record t := mk { window : Window; message_type : Atom; l0 : Z; l1 : Z; l2 : Z }.
End XClientMessageEvent.

Module XUnmapEvent.
Record t := mk { window : Window }.
End XUnmapEvent.

Module XExposeEvent.
Record t := mk { window : Window; count : Z }.
End XExposeEvent.

Module XColormapEvent.
Record t := mk { window : Window; colormap : Colormap; new : Z }.
End XColormapEvent.

Module XDestroyWindowEvent.
Record t := mk { window : Window }.
End XDestroyWindowEvent.

Module XConfigureEvent.
Record t := mk { window : Window }.
End XConfigureEvent.

Inductive ButtonEventType := ButtonPress | ButtonRelease.

Module XButtonEvent.
Record t := mk {
  type : ButtonEventType; window : Window; x : Z; y : Z; button : Z; time : Time
}.
End XButtonEvent.

Module XKeyEvent.
Record t := mk { window : Window; subwindow : Window; state : Z; keycode : Z }.
End XKeyEvent.

Inductive CrossingEventType := EnterNotify | LeaveNotify.

Module XCrossingEvent.
Record t := mk { type : CrossingEventType; window : Window; x : Z; y : Z }.
End XCrossingEvent.

Module XMotionEvent.
Record t := mk { window : Window; x : Z; y : Z; is_hint : Z }.
End XMotionEvent.

(** The shape extension's event (extensions/shape.h): the window is the
    only field event.c reads. *)
Module XShapeEvent.
Record t := mk { window : Window }.
End XShapeEvent.

(** The type codes (X.h) that the switches of [WaitForEvent] and
    [ProcessEvent] name: KeyPress 2, KeyRelease 3, ButtonPress 4,
    ButtonRelease 5, MotionNotify 6, EnterNotify 7, LeaveNotify 8, Expose 12,
    GraphicsExpose 13, NoExpose 14, CreateNotify 16, DestroyNotify 17,
    UnmapNotify 18, MapNotify 19, MapRequest 20, ReparentNotify 21,
    ConfigureNotify 22, ConfigureRequest 23, PropertyNotify 28,
    ColormapNotify 32, ClientMessage 33. *)
Definition named_type (t : Z) : bool :=
  existsb (Z.eqb t)
    [2; 3; 4; 5; 6; 7; 8; 12; 13; 14; 16; 17; 18; 19; 20; 21; 22; 23; 28; 32; 33].

(** Event types that event.c names but that carry nothing it reads, and the
    events of every other type: [OtherEvent t] is an event whose type code
    [t] is none of the codes the switches name. *)
Inductive PlainEventType :=
| CreateNotify | MapNotify | NoExpose | ReparentNotify | GraphicsExpose
| KeyRelease
| OtherEvent (type : Z) (unnamed : named_type type = false).

(** The [XEvent] union, tagged by the member that [event->type] selects. *)
Inductive XEvent :=
| xconfigurerequest (e : XConfigureRequestEvent.t)
| xmaprequest (e : XMapEvent.t)
| xproperty (e : XPropertyEvent.t)
| xclient (e : XClientMessageEvent.t)
| xunmap (e : XUnmapEvent.t)
| xexpose (e : XExposeEvent.t)
| xcolormap (e : XColormapEvent.t)
| xdestroywindow (e : XDestroyWindowEvent.t)
| xconfigure (e : XConfigureEvent.t)
| xbutton (e : XButtonEvent.t)
| xkey (e : XKeyEvent.t)
| xcrossing (e : XCrossingEvent.t)
| xmotion (e : XMotionEvent.t)
| xany (type : PlainEventType).

(** ** Client data (hint.h, client.h) *)

(** [ClientState] as hint.h declares it. *)
Record ClientState := mkClientState {
  status : Z;        (* unsigned int: status bit mask *)
  border : Z;        (* unsigned short: border bit mask *)
  layer : Z;
  defaultLayer : Z;
  desktop : Z;       (* unsigned int *)
  opacity : Z
}.

(** Identity of a controller callback (a function of one [int]). *)
Definition Controller := Z.

(** The fields of [ClientNode] that event.c reads and writes. *)
Record ClientNode := mkClientNode {
  window : Window;
  parent : Window;
  x : Z; y : Z; width : Z; height : Z;
  state : ClientState;
  borderAction : Z;
  cmap : Colormap;
  controller : option Controller
}.

Definition with_status (s : Z) (st : ClientState) : ClientState :=
  mkClientState s (border st) (layer st) (defaultLayer st) (desktop st) (opacity st).

Definition with_desktop (d : Z) (st : ClientState) : ClientState :=
  mkClientState (status st) (border st) (layer st) (defaultLayer st) d (opacity st).

Definition with_state (st : ClientState) (np : ClientNode) : ClientNode :=
  mkClientNode (window np) (parent np) (x np) (y np) (width np) (height np)
    st (borderAction np) (cmap np) (controller np).

Definition with_geometry (nx ny nw nh : Z) (np : ClientNode) : ClientNode :=
  mkClientNode (window np) (parent np) nx ny nw nh
    (state np) (borderAction np) (cmap np) (controller np).

Definition with_borderAction (a : Z) (np : ClientNode) : ClientNode :=
  mkClientNode (window np) (parent np) (x np) (y np) (width np) (height np)
    (state np) a (cmap np) (controller np).

Definition with_cmap (c : Colormap) (np : ClientNode) : ClientNode :=
  mkClientNode (window np) (parent np) (x np) (y np) (width np) (height np)
    (state np) (borderAction np) c (controller np).

(** [np->state.status |= f] and [np->state.status &= ~f]. *)
Definition status_or (f : Z) (np : ClientNode) : ClientNode :=
  with_state (with_status (set_bits (status (state np)) f) (state np)) np.

Definition status_andnot (f : Z) (np : ClientNode) : ClientNode :=
  with_state (with_status (clear_bits (status (state np)) f) (state np)) np.

(** Modelled from the spec: client.h is not among the sources.  The status
    flags are independent bits of the status word (mapped, minimized,
    withdrawn, shaded, sticky, maximized, active, excluded from lists,
    dialog, uses a shape mask); only their being distinct single bits is
    used. *)
Definition STAT_ACTIVE : Z := 1.
Definition STAT_MAPPED : Z := 2.
Definition STAT_MAXIMIZED : Z := 4.
Definition STAT_WITHDRAWN : Z := 8.
Definition STAT_STICKY : Z := 16.
Definition STAT_NOLIST : Z := 32.
Definition STAT_MINIMIZED : Z := 64.
Definition STAT_SHADED : Z := 128.
Definition STAT_WMDIALOG : Z := 256.
Definition STAT_USESHAPE : Z := 512.

(** Modelled from the spec: the border flags hasOutline and hasTitleBar. *)
Definition BORDER_OUTLINE : Z := 1.
Definition BORDER_TITLE : Z := 2.

(** Modelled from the spec: border.h is not among the sources.  An action
    zone is a class in its low four bits (none, resize, move/titlebar, close,
    maximize, minimize) with the resize direction in the bits above. *)
Definition BA_NONE : Z := 0.
Definition BA_RESIZE : Z := 1.
Definition BA_MOVE : Z := 2.
Definition BA_CLOSE : Z := 3.
Definition BA_MAXIMIZE : Z := 4.
Definition BA_MINIMIZE : Z := 5.

(** Modelled from the spec: key.h is not among the sources.  A resolved
    binding is a command code in its low eight bits with an optional numeric
    argument above them. *)
Definition KEY_NEXT : Z := 7.
Definition KEY_CLOSE : Z := 9.
Definition KEY_MIN : Z := 10.
Definition KEY_MAX : Z := 11.
Definition KEY_SHADE : Z := 12.
Definition KEY_MOVE : Z := 13.
Definition KEY_RESIZE : Z := 14.
Definition KEY_ROOT : Z := 15.
Definition KEY_WIN : Z := 16.
Definition KEY_DESKTOP : Z := 17.
Definition KEY_EXEC : Z := 18.
Definition KEY_RESTART : Z := 19.
Definition KEY_EXIT : Z := 20.

(** The legacy state hints of a client message ([WIN_STATE_*]). *)
Definition WIN_STATE_STICKY : Z := 1.
Definition WIN_STATE_HIDDEN : Z := 16.

(** Focus policy (main.h). *)
Inductive FocusModelType := FOCUS_SLOPPY | FOCUS_CLICK.

Definition focus_eqb (a b : FocusModelType) : bool :=
  match a, b with
  | FOCUS_SLOPPY, FOCUS_SLOPPY | FOCUS_CLICK, FOCUS_CLICK => true
  | _, _ => false
  end.

(** Indices into the [atoms] table that event.c uses (hint.h). *)
Inductive AtomType :=
| ATOM_WM_CHANGE_STATE
| ATOM_WM_COLORMAP_WINDOWS
| ATOM_NET_ACTIVE_WINDOW
| ATOM_NET_WM_DESKTOP
| ATOM_NET_WM_STATE
| ATOM_NET_WM_STATE_STICKY
| ATOM_NET_WM_STATE_MAXIMIZED_VERT
| ATOM_NET_WM_STATE_MAXIMIZED_HORZ
| ATOM_NET_WM_STATE_SHADED
| ATOM_NET_CLOSE_WINDOW
| ATOM_NET_WM_NAME
| ATOM_NET_WM_ICON
| ATOM_WIN_STATE
| ATOM_WIN_LAYER
| ATOM_JWM_RESTART
| ATOM_JWM_EXIT.

(** ** Calls that leave event.c *)

Module Call.
Inductive t :=
| SignalTaskbar
| controller (np : Window) (c : Controller) (arg : Z)
| JXConfigureWindow (w : Window) (value_mask : Z) (wc : XWindowChanges)
| JXMapWindow (w : Window)
| JXUnmapWindow (w : Window)
| JXDefineCursor (w : Window) (c : Cursor)
| JXAllowEvents
| JXSync
| JXGrabServer
| JXUngrabServer
| SetDefaultCursor (w : Window)
| RaiseClient (np : Window)
| FocusClient (np : Window)
| FocusNext
| MoveClient (np : Window) (px py : Z)
| MoveClientKeyboard (np : Window)
| ResizeClient (np : Window) (action px py : Z)
| ResizeClientKeyboard (np : Window)
| ShowWindowMenu (np : Window) (px py : Z)
| ShowRootMenu (px py : Z)
| UpdatePager
| UpdateTaskBar
| DrawBorder (np : Window)
| RunKeyCommand (e : XKeyEvent.t)
| ChangeDesktop (d : Z)
| NextDesktop
| DeleteClient (np : Window)
| ShadeClient (np : Window)
| UnshadeClient (np : Window)
| MinimizeClient (np : Window)
| MaximizeClient (np : Window)
| RestoreClient (np : Window)
| SetClientSticky (np : Window) (isSticky : Z)
| SetClientLayer (np : Window) (l : Z)
| SetClientWithdrawn (np : Window) (isWithdrawn : Z)
| SetClientDesktop (np : Window) (d : Z)
| ReadWMName (np : Window)
| ReadWMNormalHints (np : Window)
| ReadWMColormaps (np : Window)
| UpdateClientColormap (np : Window)
| LoadIcon (np : Window)
| AddClientWindow (w : Window) (alreadyMapped notOwner : Z)
| RemoveClient (np : Window)
| RestackClients
| Restart
| Exit
| Debug (v : Z)
| SetShape (np : Window)
| JXGetAtomName (a : Atom)
| DebugString (s : String.string)
| JXFree (s : String.string).
End Call.

(** One recorded call: what was called and the registry the callee saw. *)
Record Entry := mkEntry { call : Call.t; seen : list ClientNode }.

(** ** The state the handlers run in *)

Record World := mkWorld {
  clients : list ClientNode;   (* the client registry *)
  shouldExit : bool;           (* main.h: the shutdown flag *)
  showMenuOnRoot : Z;          (* static int showMenuOnRoot = 1 *)
  lastClickTime : Time;        (* statics of DispatchBorderButtonEvent *)
  lastX : Z;
  lastY : Z;
  doubleClickActive : bool;
  trace : list Entry
}.

Definition with_clients (cs : list ClientNode) (w : World) : World :=
  mkWorld cs (shouldExit w) (showMenuOnRoot w) (lastClickTime w) (lastX w)
    (lastY w) (doubleClickActive w) (trace w).

Definition with_shouldExit (b : bool) (w : World) : World :=
  mkWorld (clients w) b (showMenuOnRoot w) (lastClickTime w) (lastX w)
    (lastY w) (doubleClickActive w) (trace w).

Definition with_showMenuOnRoot (v : Z) (w : World) : World :=
  mkWorld (clients w) (shouldExit w) v (lastClickTime w) (lastX w)
    (lastY w) (doubleClickActive w) (trace w).

Definition with_click (t px py : Z) (armed : bool) (w : World) : World :=
  mkWorld (clients w) (shouldExit w) (showMenuOnRoot w) t px py armed (trace w).

Definition with_trace (tr : list Entry) (w : World) : World :=
  mkWorld (clients w) (shouldExit w) (showMenuOnRoot w) (lastClickTime w) (lastX w)
    (lastY w) (doubleClickActive w) tr.

(** Globals of other modules and the answers of operations that event.c
    only consumes. *)
Record Env := mkEnv {
  borderWidth : Z;
  titleSize : Z;
  desktopCount : Z;
  doubleClickSpeed : Z;
  doubleClickDelta : Z;
  focusModel : FocusModelType;
  rootWindow : Window;
  atoms : AtomType -> Atom;
  (* key.h: the binding table *)
  GetKey : XKeyEvent.t -> Z;
  (* border.h: the hit test and the cursor of a zone *)
  GetBorderActionType : ClientNode -> Z -> Z -> Z;
  GetFrameCursor : Z -> Cursor;
  (* move.h: whether the interactive move moved the client *)
  MoveClient_result : World -> ClientNode -> Z -> Z -> Z;
  (* client.h: the node built for a new window, if it can be managed *)
  AddClientWindow_result : World -> Window -> option ClientNode;
  (* tray.h, confirm.h, swallow.h, popup.h: the collaborators *)
  ProcessTrayEvent : XEvent -> World -> Z * World;
  ProcessDialogEvent : XEvent -> World -> Z * World;
  ProcessSwallowEvent : XEvent -> World -> Z * World;
  ProcessPopupEvent : XEvent -> World -> Z * World;
  (* the build option USE_SHAPE, and main.h: whether the display has the
     shape extension and the type code of its event *)
  USE_SHAPE : bool;
  haveShape : bool;
  shapeEvent : Z;
  (* WaitForEvent hands HandleShapeEvent the address of its own pointer
     parameter, [&event], cast to an XShapeEvent pointer: what the handler
     reads through it is not the event that arrived *)
  shape_event_read : XEvent -> World -> XShapeEvent.t;
  (* Xlib: the name of an atom *)
  JXGetAtomName_result : Atom -> String.string
}.

(** ** A state monad over [World] *)

Definition M (A : Type) : Type := World -> A * World.

Definition ret {A} (a : A) : M A := fun w => (a, w).

Definition bind {A B} (m : M A) (k : A -> M B) : M B :=
  fun w => k (fst (m w)) (snd (m w)).

Declare Scope wm_scope.
Delimit Scope wm_scope with wm.
Notation "v <- m ;; k" := (bind m (fun v => k))
  (at level 61, m at next level, right associativity) : wm_scope.
Notation "m ;; k" := (bind m (fun _ => k))
  (at level 61, right associativity) : wm_scope.
Local Open Scope wm_scope.

Definition skip : M unit := ret tt.

(** Record a call in the trace. *)
Definition log (c : Call.t) : M unit :=
  fun w => (tt, with_trace (trace w ++ [mkEntry c (clients w)]) w).

(** The calls of a trace, without the registries. *)
Definition calls (w : World) : list Call.t := map call (trace w).

(** ** The client registry *)

(** [*np = n]: the node of [n]'s content window id is replaced. *)
Definition store (n : ClientNode) : M unit :=
  fun w => (tt, with_clients
    (map (fun c => if window c =? window n then n else c) (clients w)) w).

(** Modelled from the spec: client.c is not among the sources.  Lookup by
    decoration window id; total, none if the id is not registered. *)
Definition FindClientByParent (p : Window) : M (option ClientNode) :=
  fun w => (find (fun c => parent c =? p) (clients w), w).

(** Modelled from the spec: lookup by window id.  The handlers compare the
    node found with the id they looked up ([np->window == event->window],
    [event->window == np->parent]), so an id resolves through the content
    window first and through the decoration window otherwise. *)
Definition FindClientByWindow (id : Window) : M (option ClientNode) :=
  fun w => (match find (fun c => window c =? id) (clients w) with
            | Some c => Some c
            | None => find (fun c => parent c =? id) (clients w)
            end, w).

(** Modelled from the spec: the focused client is the registered client
    whose status has the active flag. *)
Definition GetActiveClient : M (option ClientNode) :=
  fun w => (find (fun c => has (status (state c)) STAT_ACTIVE) (clients w), w).

(** Modelled from the spec: Remove(clientRef) deregisters both ids. *)
Definition RemoveClient (np : ClientNode) : M unit :=
  log (Call.RemoveClient (window np)) ;;
  fun w => (tt, with_clients
    (filter (fun c => negb (window c =? window np)) (clients w)) w).

(** [np->field = v]: a write through the pointer [np]. *)
Definition update (np : ClientNode) (f : ClientNode -> ClientNode) : M unit :=
  fun w => (tt, with_clients
    (map (fun c => if window c =? window np then f c else c) (clients w)) w).

(** [np->field] read again after a call that may have written the node. *)
Definition reload (np : ClientNode) : M ClientNode :=
  fun w => (match find (fun c => window c =? window np) (clients w) with
            | Some c => c
            | None => np
            end, w).

(** [if(np->controller) (np->controller)(arg);] *)
Definition call_controller (np : ClientNode) (arg : Z) : M unit :=
  match controller np with
  | Some c => log (Call.controller (window np) c arg)
  | None => skip
  end.

(** Modelled from the spec: Stick/Unstick sets or clears the sticky flag. *)
Definition SetClientSticky (np : ClientNode) (isSticky : Z) : M unit :=
  log (Call.SetClientSticky (window np) isSticky) ;;
  update np (if nonzero isSticky then status_or STAT_STICKY
             else status_andnot STAT_STICKY).

(** Modelled from the spec: Change desktop assigns the desktop index. *)
Definition SetClientDesktop (np : ClientNode) (d : Z) : M unit :=
  log (Call.SetClientDesktop (window np) d) ;;
  update np (fun c => with_state (with_desktop d (state c)) c).

(** Modelled from the spec: Shade/Unshade toggles the shaded flag and
    leaves the stored geometry alone. *)
Definition ShadeClient (np : ClientNode) : M unit :=
  log (Call.ShadeClient (window np)) ;; update np (status_or STAT_SHADED).

Definition UnshadeClient (np : ClientNode) : M unit :=
  log (Call.UnshadeClient (window np)) ;; update np (status_andnot STAT_SHADED).

(** Modelled from the spec: Restart and Exit are the process-ending
    commands; both request shutdown. *)
Definition Exit : M unit :=
  log Call.Exit ;; fun w => (tt, with_shouldExit true w).

Definition Restart : M unit :=
  log Call.Restart ;; fun w => (tt, with_shouldExit true w).

(** Operations of other modules that event.c calls for their effect on the
    display or on widgets: recorded, nothing read back. *)
Definition SignalTaskbar : M unit := log Call.SignalTaskbar.
Definition JXConfigureWindow (id : Window) (mask : Z) (wc : XWindowChanges) : M unit :=
  log (Call.JXConfigureWindow id mask wc).
Definition JXMapWindow (id : Window) : M unit := log (Call.JXMapWindow id).
Definition JXUnmapWindow (id : Window) : M unit := log (Call.JXUnmapWindow id).
Definition JXDefineCursor (id : Window) (c : Cursor) : M unit :=
  log (Call.JXDefineCursor id c).
Definition JXAllowEvents : M unit := log Call.JXAllowEvents.
Definition JXSync : M unit := log Call.JXSync.
Definition JXGrabServer : M unit := log Call.JXGrabServer.
Definition JXUngrabServer : M unit := log Call.JXUngrabServer.
Definition SetDefaultCursor (id : Window) : M unit := log (Call.SetDefaultCursor id).
Definition RaiseClient (np : ClientNode) : M unit := log (Call.RaiseClient (window np)).
Definition FocusClient (np : ClientNode) : M unit := log (Call.FocusClient (window np)).
Definition FocusNext : M unit := log Call.FocusNext.
Definition MoveClientKeyboard (np : ClientNode) : M unit :=
  log (Call.MoveClientKeyboard (window np)).
Definition ResizeClient (np : ClientNode) (action px py : Z) : M unit :=
  log (Call.ResizeClient (window np) action px py).
Definition ResizeClientKeyboard (np : ClientNode) : M unit :=
  log (Call.ResizeClientKeyboard (window np)).
Definition ShowWindowMenu (np : ClientNode) (px py : Z) : M unit :=
  log (Call.ShowWindowMenu (window np) px py).
Definition ShowRootMenu (px py : Z) : M unit := log (Call.ShowRootMenu px py).
Definition UpdatePager : M unit := log Call.UpdatePager.
Definition UpdateTaskBar : M unit := log Call.UpdateTaskBar.
Definition DrawBorder (np : ClientNode) : M unit := log (Call.DrawBorder (window np)).
Definition RunKeyCommand (e : XKeyEvent.t) : M unit := log (Call.RunKeyCommand e).
Definition ChangeDesktop (d : Z) : M unit := log (Call.ChangeDesktop d).
Definition NextDesktop : M unit := log Call.NextDesktop.
Definition DeleteClient (np : ClientNode) : M unit := log (Call.DeleteClient (window np)).
Definition MinimizeClient (np : ClientNode) : M unit :=
  log (Call.MinimizeClient (window np)).
Definition MaximizeClient (np : ClientNode) : M unit :=
  log (Call.MaximizeClient (window np)).
Definition RestoreClient (np : ClientNode) : M unit :=
  log (Call.RestoreClient (window np)).
Definition SetClientLayer (np : ClientNode) (l : Z) : M unit :=
  log (Call.SetClientLayer (window np) l).
Definition SetClientWithdrawn (np : ClientNode) (isWithdrawn : Z) : M unit :=
  log (Call.SetClientWithdrawn (window np) isWithdrawn).
Definition ReadWMName (np : ClientNode) : M unit := log (Call.ReadWMName (window np)).
Definition ReadWMNormalHints (np : ClientNode) : M unit :=
  log (Call.ReadWMNormalHints (window np)).
Definition ReadWMColormaps (np : ClientNode) : M unit :=
  log (Call.ReadWMColormaps (window np)).
Definition UpdateClientColormap (np : ClientNode) : M unit :=
  log (Call.UpdateClientColormap (window np)).
Definition LoadIcon (np : ClientNode) : M unit := log (Call.LoadIcon (window np)).
Definition RestackClients : M unit := log Call.RestackClients.
Definition Debug (v : Z) : M unit := log (Call.Debug v).
Definition DebugString (s : String.string) : M unit := log (Call.DebugString s).
Definition JXFree (s : String.string) : M unit := log (Call.JXFree s).
Definition SetShape (np : ClientNode) : M unit := log (Call.SetShape (window np)).

(** ** Integer conversions of the double-click test *)

(** [unsigned long] subtraction (64 bits; the result below is the same for
    32). *)
Definition ulong_sub (a b : Z) : Z := (a - b) mod 2 ^ 64.

(** Conversion of an [unsigned long] to the [int] parameter of [abs]. *)
Definition int_of_ulong (v : Z) : Z :=
  let m := v mod 2 ^ 32 in if m <? 2 ^ 31 then m else m - 2 ^ 32.

(** [abs] of stdlib.h on 32-bit [int]; at [INT_MIN], where C leaves the
    result undefined, the two's complement result (the argument itself) is
    taken. *)
Definition abs (i : Z) : Z := if i =? - 2 ^ 31 then i else Z.abs i.

(** ** Server-side geometry

    What [XConfigureWindow] does to a window's geometry: each field whose
    bit is in the value mask is replaced. *)

Record Geometry := mkGeometry { g_x : Z; g_y : Z; g_width : Z; g_height : Z }.

Definition configure (mask : Z) (wc : XWindowChanges) (g : Geometry) : Geometry :=
  mkGeometry
    (if has mask CWX then wc_x wc else g_x g)
    (if has mask CWY then wc_y wc else g_y g)
    (if has mask CWWidth then wc_width wc else g_width g)
    (if has mask CWHeight then wc_height wc else g_height g).

(** The display server's view of the windows. *)
Definition Server := Window -> Geometry.

Definition apply_call (c : Call.t) (s : Server) : Server :=
  match c with
  | Call.JXConfigureWindow id mask wc =>
      fun i => if i =? id then configure mask wc (s i) else s i
  | _ => s
  end.

(** The server after the first [n] calls of a list of calls. *)
Definition server_after (n : nat) (cs : list Call.t) (s : Server) : Server :=
  fold_left (fun s c => apply_call c s) (firstn n cs) s.

(** The content window is not larger than the decoration window. *)
Definition within_frame (s : Server) (np : ClientNode) : Prop :=
  g_width (s (window np)) <= g_width (s (parent np)) /\
  g_height (s (window np)) <= g_height (s (parent np)).

Definition with_x (v : Z) (np : ClientNode) : ClientNode :=
  with_geometry v (y np) (width np) (height np) np.
Definition with_y (v : Z) (np : ClientNode) : ClientNode :=
  with_geometry (x np) v (width np) (height np) np.
Definition with_width (v : Z) (np : ClientNode) : ClientNode :=
  with_geometry (x np) (y np) v (height np) np.
Definition with_height (v : Z) (np : ClientNode) : ClientNode :=
  with_geometry (x np) (y np) (width np) v np.

(** The value of [event->type] (X.h). *)
Definition event_type (event : XEvent) : Z :=
  match event with
  | xkey _ => 2
  | xbutton e =>
      match XButtonEvent.type e with ButtonPress => 4 | ButtonRelease => 5 end
  | xmotion _ => 6
  | xcrossing e =>
      match XCrossingEvent.type e with EnterNotify => 7 | LeaveNotify => 8 end
  | xexpose _ => 12
  | xdestroywindow _ => 17
  | xunmap _ => 18
  | xmaprequest _ => 20
  | xconfigure _ => 22
  | xconfigurerequest _ => 23
  | xproperty _ => 28
  | xcolormap _ => 32
  | xclient _ => 33
  | xany KeyRelease => 3
  | xany GraphicsExpose => 13
  | xany NoExpose => 14
  | xany CreateNotify => 16
  | xany MapNotify => 19
  | xany ReparentNotify => 21
  | xany (OtherEvent t _) => t
  end.

(** The four conditional assignments at the head of
    [HandleConfigureRequest]: the node they leave and the [changed] flag. *)
Definition assign_requested (event : XConfigureRequestEvent.t) (np : ClientNode)
  : ClientNode * bool :=
  let mask := XConfigureRequestEvent.value_mask event in
  let cw := has mask CWWidth
            && negb (XConfigureRequestEvent.width event =? width np) in
  let np1 := if cw then with_width (XConfigureRequestEvent.width event) np
             else np in
  let ch := has mask CWHeight
            && negb (XConfigureRequestEvent.height event =? height np1) in
  let np2 := if ch then with_height (XConfigureRequestEvent.height event) np1
             else np1 in
  let cx := has mask CWX && negb (XConfigureRequestEvent.x event =? x np2) in
  let np3 := if cx then with_x (XConfigureRequestEvent.x event) np2 else np2 in
  let cy := has mask CWY && negb (XConfigureRequestEvent.y event =? y np3) in
  let np4 := if cy then with_y (XConfigureRequestEvent.y event) np3 else np3 in
  (np4, cw || ch || cx || cy).

(** What [WaitForEvent] leaves behind: the event it hands back in [*event],
    the world and the events still to come; or, when the connection delivers
    nothing more, the world in which it keeps waiting in [select]. *)
Inductive Outcome :=
| Returned (event : XEvent) (w : World) (pending : list XEvent)
| Waiting (w : World).

(** ** The handlers of event.c *)

Section Handlers.

Variable E : Env.

(** move.h: the interactive move; its result says whether the client was
    moved. *)
Definition MoveClient (np : ClientNode) (px py : Z) : M Z :=
  log (Call.MoveClient (window np) px py) ;;
  fun w => (MoveClient_result E w np px py, w).

(** Modelled from the spec: Add constructs the node from the hint readback
    and registers it; none if the window cannot be managed. *)
Definition AddClientWindow (id : Window) (alreadyMapped notOwner : Z)
  : M (option ClientNode) :=
  log (Call.AddClientWindow id alreadyMapped notOwner) ;;
  fun w => match AddClientWindow_result E w id with
           | Some n => (Some n, with_clients (n :: clients w) w)
           | None => (None, w)
           end.

(** The border insets [north, south, east, west] of a client. *)
Definition insets (np : ClientNode) : Z * Z * Z * Z :=
  if has (border (state np)) BORDER_OUTLINE then
    (if has (border (state np)) BORDER_TITLE then titleSize E else borderWidth E,
     borderWidth E, borderWidth E, borderWidth E)
  else (0, 0, 0, 0).

Definition HandleConfigureRequest (event : XConfigureRequestEvent.t) : M unit :=
  let mask := XConfigureRequestEvent.value_mask event in
  let passthrough :=
    JXConfigureWindow (XConfigureRequestEvent.window event) mask
      (mkXWindowChanges
         (XConfigureRequestEvent.x event) (XConfigureRequestEvent.y event)
         (XConfigureRequestEvent.width event) (XConfigureRequestEvent.height event)
         (XConfigureRequestEvent.border_width event)
         (XConfigureRequestEvent.above event)
         (XConfigureRequestEvent.detail event)) in
  found <- FindClientByWindow (XConfigureRequestEvent.window event) ;;
  match found with
  | Some np =>
    if window np =? XConfigureRequestEvent.window event then
      call_controller np 0 ;;
      let '(np', changed) := assign_requested event np in
      update np (fun _ => np') ;;
      if negb changed then skip
      else
        let '(north, south, east, west) := insets np' in
        JXConfigureWindow (parent np') mask
          (mkXWindowChanges (x np') (y np')
             (width np' + east + west) (height np' + north + south)
             0 (parent np') Above) ;;
        JXConfigureWindow (window np') mask
          (mkXWindowChanges west north (width np') (height np')
             0 (parent np') Above)
    else passthrough
  | None => passthrough
  end.

Definition HandleEnterNotify (event : XCrossingEvent.t) : M unit :=
  found <- FindClientByWindow (XCrossingEvent.window event) ;;
  match found with
  | Some np =>
    (if negb (has (status (state np)) STAT_ACTIVE)
        && focus_eqb (focusModel E) FOCUS_SLOPPY
     then FocusClient np else skip) ;;
    if parent np =? XCrossingEvent.window event then
      let action := GetBorderActionType E np (XCrossingEvent.x event)
                      (XCrossingEvent.y event) in
      update np (with_borderAction action) ;;
      JXDefineCursor (parent np) (GetFrameCursor E action)
    else if negb (borderAction np =? BA_NONE) then
      SetDefaultCursor (parent np) ;;
      update np (with_borderAction BA_NONE)
    else skip
  | None => skip
  end.

Definition HandleLeaveNotify (event : XCrossingEvent.t) : M unit :=
  found <- FindClientByParent (XCrossingEvent.window event) ;;
  match found with
  | Some np => SetDefaultCursor (parent np)
  | None => skip
  end.

Definition HandleExpose (event : XExposeEvent.t) : M Z :=
  if nonzero (XExposeEvent.count event) then ret 1
  else
    found <- FindClientByWindow (XExposeEvent.window event) ;;
    match found with
    | Some np =>
      if XExposeEvent.window event =? parent np then
        DrawBorder np ;; ret 1
      else if (XExposeEvent.window event =? window np)
              && has (status (state np)) STAT_WMDIALOG then ret 0
      else ret 1
    | None => ret 0
    end.

Definition HandlePropertyNotify (event : XPropertyEvent.t) : M Z :=
  let a := XPropertyEvent.atom event in
  found <- FindClientByWindow (XPropertyEvent.window event) ;;
  match found with
  | Some np =>
    changed <-
      (if a =? XA_WM_NAME then ReadWMName np ;; ret true
       else if a =? XA_WM_NORMAL_HINTS then ReadWMNormalHints np ;; ret true
       else if (a =? XA_WM_HINTS) || (a =? XA_WM_ICON_NAME)
               || (a =? XA_WM_CLIENT_MACHINE) then ret false
       else if a =? atoms E ATOM_WM_COLORMAP_WINDOWS then
         ReadWMColormaps np ;; UpdateClientColormap np ;; ret false
       else if a =? atoms E ATOM_NET_WM_ICON then LoadIcon np ;; ret true
       else if a =? atoms E ATOM_NET_WM_NAME then ReadWMName np ;; ret true
       else ret false) ;;
    (if changed : bool then DrawBorder np ;; UpdateTaskBar ;; UpdatePager
     else skip) ;;
    if has (status (state np)) STAT_WMDIALOG then ret 0 else ret 1
  | None =>
    (if XPropertyEvent.window event =? rootWindow E then
       if a =? atoms E ATOM_JWM_RESTART then Restart
       else if a =? atoms E ATOM_JWM_EXIT then Exit
       else skip
     else skip) ;;
    ret 1
  end.

(** The body is compiled only with the shape extension. *)
Definition HandleConfigureNotify (event : XConfigureEvent.t) : M unit :=
  if USE_SHAPE E then
    found <- FindClientByWindow (XConfigureEvent.window event) ;;
    match found with
    | Some np =>
      if has (status (state np)) STAT_USESHAPE then SetShape np else skip
    | None => skip
    end
  else skip.

(** Compiled only with the shape extension. *)
Definition HandleShapeEvent (event : XShapeEvent.t) : M unit :=
  found <- FindClientByWindow (XShapeEvent.window event) ;;
  match found with
  | Some np => SetShape np
  | None => skip
  end.

(** Xlib: the name of an atom, in storage the caller frees. *)
Definition JXGetAtomName (a : Atom) : M String.string :=
  log (Call.JXGetAtomName a) ;; ret (JXGetAtomName_result E a).

(** One element of [data.l[1..2]] of a _NET_WM_STATE message. *)
Definition state_action (v : Z) (acc : bool * bool * bool) : bool * bool * bool :=
  let '(actionMaximize, actionStick, actionShade) := acc in
  if v =? atoms E ATOM_NET_WM_STATE_STICKY then (actionMaximize, true, actionShade)
  else if v =? atoms E ATOM_NET_WM_STATE_MAXIMIZED_VERT then (true, actionStick, actionShade)
  else if v =? atoms E ATOM_NET_WM_STATE_MAXIMIZED_HORZ then (true, actionStick, actionShade)
  else if v =? atoms E ATOM_NET_WM_STATE_SHADED then (actionMaximize, actionStick, true)
  else acc.

Definition HandleClientMessage (event : XClientMessageEvent.t) : M unit :=
  let l0 := XClientMessageEvent.l0 event in
  let l1 := XClientMessageEvent.l1 event in
  let l2 := XClientMessageEvent.l2 event in
  let message_type := XClientMessageEvent.message_type event in
  found <- FindClientByWindow (XClientMessageEvent.window event) ;;
  match found with
  | Some np =>
    if message_type =? atoms E ATOM_WIN_STATE then
      let mask := l0 in
      let flags := l1 in
      (if has mask WIN_STATE_STICKY then
         if has flags WIN_STATE_STICKY then SetClientSticky np 1
         else SetClientSticky np 0
       else skip) ;;
      (if has mask WIN_STATE_HIDDEN then
         (if has flags WIN_STATE_HIDDEN then update np (status_or STAT_NOLIST)
          else update np (status_andnot STAT_NOLIST)) ;;
         UpdateTaskBar ;; UpdatePager
       else skip)
    else if message_type =? atoms E ATOM_WIN_LAYER then
      SetClientLayer np l0
    else if message_type =? atoms E ATOM_WM_CHANGE_STATE then
      call_controller np 0 ;;
      if l0 =? WithdrawnState then SetClientWithdrawn np 1
      else if l0 =? IconicState then MinimizeClient np
      else if l0 =? NormalState then RestoreClient np
      else skip
    else if message_type =? atoms E ATOM_NET_ACTIVE_WINDOW then
      RestoreClient np ;; FocusClient np
    else if message_type =? atoms E ATOM_NET_WM_DESKTOP then
      (* data.l[0] == ~0UL: the long compared as unsigned long is all ones *)
      if l0 =? -1 then SetClientSticky np 1
      else
        call_controller np 0 ;;
        if (0 <=? l0) && (l0 <? desktopCount E) then
          update np (status_andnot STAT_STICKY) ;;
          SetClientDesktop np l0
        else skip
    else if message_type =? atoms E ATOM_NET_CLOSE_WINDOW then
      DeleteClient np
    else if message_type =? atoms E ATOM_NET_WM_STATE then
      let '(actionMaximize, actionStick, actionShade) :=
        state_action l2 (state_action l1 (false, false, false)) in
      if l0 =? 0 then
        (if actionStick then SetClientSticky np 0 else skip) ;;
        cur <- reload np ;;
        (if actionMaximize && has (status (state cur)) STAT_MAXIMIZED
         then MaximizeClient np else skip) ;;
        (if actionShade then UnshadeClient np else skip)
      else if l0 =? 1 then
        (if actionStick then SetClientSticky np 1 else skip) ;;
        cur <- reload np ;;
        (if actionMaximize && negb (has (status (state cur)) STAT_MAXIMIZED)
         then MaximizeClient np else skip) ;;
        (if actionShade then ShadeClient np else skip)
      else if l0 =? 2 then
        (if actionStick then
           if has (status (state np)) STAT_STICKY then SetClientSticky np 0
           else SetClientSticky np 1
         else skip) ;;
        (if actionMaximize then MaximizeClient np else skip) ;;
        cur <- reload np ;;
        (if actionShade then
           if has (status (state cur)) STAT_SHADED then UnshadeClient np
           else ShadeClient np
         else skip)
      else Debug l0
    else
      atomName <- JXGetAtomName message_type ;;
      DebugString atomName ;;
      JXFree atomName
  | None => skip
  end.

Definition HandleMotionNotify (event : XMotionEvent.t) : M unit :=
  if nonzero (XMotionEvent.is_hint event) then skip
  else
    found <- FindClientByParent (XMotionEvent.window event) ;;
    match found with
    | Some np =>
      if has (border (state np)) BORDER_OUTLINE then
        let action := GetBorderActionType E np (XMotionEvent.x event)
                        (XMotionEvent.y event) in
        if negb (borderAction np =? action) then
          update np (with_borderAction action) ;;
          JXDefineCursor (parent np) (GetFrameCursor E action)
        else skip
      else skip
    | None => skip
    end.

Definition HandleColormapChange (event : XColormapEvent.t) : M unit :=
  if XColormapEvent.new event =? True_ then
    found <- FindClientByWindow (XColormapEvent.window event) ;;
    match found with
    | Some np =>
      update np (with_cmap (XColormapEvent.colormap event)) ;;
      UpdateClientColormap np
    | None => skip
    end
  else skip.

Definition HandleMapRequest (event : XMapEvent.t) : M unit :=
  found <- FindClientByWindow (XMapEvent.window event) ;;
  match found with
  | None =>
    JXSync ;;
    JXGrabServer ;;
    added <- AddClientWindow (XMapEvent.window event) 0 1 ;;
    match added with
    | Some np =>
      if focus_eqb (focusModel E) FOCUS_CLICK then FocusClient np else skip
    | None => JXMapWindow (XMapEvent.window event)
    end ;;
    JXUngrabServer ;;
    JXSync
  | Some np =>
    if negb (has (status (state np)) STAT_MAPPED) then
      update np (status_or STAT_MAPPED) ;;
      update np (status_andnot STAT_MINIMIZED) ;;
      update np (status_andnot STAT_WITHDRAWN) ;;
      JXMapWindow (window np) ;;
      JXMapWindow (parent np) ;;
      RaiseClient np ;;
      (if focus_eqb (focusModel E) FOCUS_CLICK then FocusClient np else skip) ;;
      UpdateTaskBar ;;
      UpdatePager
    else skip
  end ;;
  RestackClients.

Definition HandleUnmapNotify (event : XUnmapEvent.t) : M unit :=
  found <- FindClientByWindow (XUnmapEvent.window event) ;;
  match found with
  | Some np =>
    if window np =? XUnmapEvent.window event then
      call_controller np 1 ;;
      if has (status (state np)) STAT_MAPPED then
        update np (status_andnot STAT_MAPPED) ;;
        JXUnmapWindow (parent np)
      else skip
    else skip
  | None => skip
  end.

Definition HandleDestroyNotify (event : XDestroyWindowEvent.t) : M Z :=
  found <- FindClientByWindow (XDestroyWindowEvent.window event) ;;
  match found with
  | Some np =>
    if window np =? XDestroyWindowEvent.window event then
      call_controller np 1 ;;
      RemoveClient np ;;
      ret 1
    else ret 0
  | None => ret 0
  end.

(** The double-click test of [DispatchBorderButtonEvent] on its statics. *)
Definition double_click (event : XButtonEvent.t) (w : World) : bool :=
  doubleClickActive w
  && (abs (int_of_ulong (ulong_sub (XButtonEvent.time event) (lastClickTime w)))
      <=? doubleClickSpeed E)
  && (abs (XButtonEvent.x event - lastX w) <=? doubleClickDelta E)
  && (abs (XButtonEvent.y event - lastY w) <=? doubleClickDelta E).

(** [doubleClickActive = v] *)
Definition set_doubleClickActive (v : bool) : M unit :=
  fun w => (tt, with_click (lastClickTime w) (lastX w) (lastY w) v w).

Definition DispatchBorderButtonEvent (event : XButtonEvent.t) (np : ClientNode)
  : M unit :=
  if negb (has (border (state np)) BORDER_OUTLINE) then skip
  else
    let action := GetBorderActionType E np (XButtonEvent.x event)
                    (XButtonEvent.y event) in
    let zone := Z.land action 15 in
    if zone =? BA_RESIZE then
      match XButtonEvent.type event with
      | ButtonPress =>
          ResizeClient np action (XButtonEvent.x event) (XButtonEvent.y event)
      | ButtonRelease => skip
      end
    else if zone =? BA_MOVE then
      match XButtonEvent.type event with
      | ButtonPress =>
        fun w =>
          (if double_click event w then
             (if has (status (state np)) STAT_SHADED then UnshadeClient np
              else ShadeClient np) ;;
             set_doubleClickActive false
           else
             moved <- MoveClient np (XButtonEvent.x event) (XButtonEvent.y event) ;;
             if nonzero moved then set_doubleClickActive false
             else
               fun w' => (tt, with_click (XButtonEvent.time event)
                                (XButtonEvent.x event) (XButtonEvent.y event)
                                true w')) w
      | ButtonRelease => skip
      end
    else if zone =? BA_CLOSE then
      match XButtonEvent.type event with
      | ButtonRelease => DeleteClient np
      | ButtonPress => skip
      end
    else if zone =? BA_MAXIMIZE then
      match XButtonEvent.type event with
      | ButtonRelease => MaximizeClient np
      | ButtonPress => skip
      end
    else if zone =? BA_MINIMIZE then
      match XButtonEvent.type event with
      | ButtonRelease => MinimizeClient np
      | ButtonPress => skip
      end
    else skip.

Definition HandleButtonEvent (event : XButtonEvent.t) : M unit :=
  found <- FindClientByParent (XButtonEvent.window event) ;;
  match found with
  | Some np =>
    RaiseClient np ;;
    (if focus_eqb (focusModel E) FOCUS_CLICK then FocusClient np else skip) ;;
    if XButtonEvent.button event =? Button1 then
      DispatchBorderButtonEvent event np
    else if XButtonEvent.button event =? Button2 then
      _ <- MoveClient np (XButtonEvent.x event) (XButtonEvent.y event) ;; skip
    else if XButtonEvent.button event =? Button3 then
      let px := XButtonEvent.x event + x np in
      let py := XButtonEvent.y event + y np in
      let '(px, py) :=
        if has (border (state np)) BORDER_OUTLINE then
          (px - borderWidth E,
           if has (border (state np)) BORDER_TITLE then py - titleSize E
           else py - borderWidth E)
        else
          (px, if has (border (state np)) BORDER_TITLE then py - titleSize E
               else py) in
      ShowWindowMenu np px py
    else skip
  | None =>
    if XButtonEvent.window event =? rootWindow E then
      fun w =>
        (if nonzero (showMenuOnRoot w) then
           ShowRootMenu (XButtonEvent.x event) (XButtonEvent.y event)
         else skip) w
    else
      found <- FindClientByWindow (XButtonEvent.window event) ;;
      match found with
      | Some np =>
        (if (XButtonEvent.button event =? Button1)
            || (XButtonEvent.button event =? Button2)
            || (XButtonEvent.button event =? Button3) then
           RaiseClient np ;;
           (if focus_eqb (focusModel E) FOCUS_CLICK then FocusClient np else skip)
         else skip) ;;
        JXAllowEvents
      | None => skip
      end
  end ;;
  UpdatePager.

Definition HandleKeyPress (event : XKeyEvent.t) : M unit :=
  let key := GetKey E event in
  found <- (if focus_eqb (focusModel E) FOCUS_CLICK
            then FindClientByWindow (XKeyEvent.subwindow event)
            else GetActiveClient) ;;
  let code := Z.land key 255 in
  let on_client (f : ClientNode -> M unit) : M unit :=
    match found with Some np => f np | None => skip end in
  if code =? KEY_EXEC then RunKeyCommand event
  else if code =? KEY_DESKTOP then
    if nonzero (Z.shiftr key 8) then ChangeDesktop (Z.shiftr key 8 - 1)
    else NextDesktop
  else if code =? KEY_NEXT then FocusNext
  else if code =? KEY_CLOSE then on_client DeleteClient
  else if code =? KEY_SHADE then
    on_client (fun np =>
      if has (status (state np)) STAT_SHADED then UnshadeClient np
      else ShadeClient np)
  else if code =? KEY_MOVE then on_client MoveClientKeyboard
  else if code =? KEY_RESIZE then on_client ResizeClientKeyboard
  else if code =? KEY_MIN then on_client MinimizeClient
  else if code =? KEY_MAX then on_client MaximizeClient
  else if code =? KEY_ROOT then ShowRootMenu 0 0
  else if code =? KEY_WIN then on_client (fun np => ShowWindowMenu np (x np) (y np))
  else if code =? KEY_RESTART then Restart
  else if code =? KEY_EXIT then Exit
  else skip.

(** The [switch] of [WaitForEvent]: the core handlers and what they report.
    Every type the switch does not name reaches the default arm; built with
    USE_SHAPE it compares the type with the shape extension's event type
    and calls [HandleShapeEvent] on [&event], the address of the pointer
    parameter, cast to a shape event pointer. *)
Definition classify (event : XEvent) : M Z :=
  match event with
  | xconfigurerequest e => HandleConfigureRequest e ;; ret 1
  | xmaprequest e => HandleMapRequest e ;; ret 1
  | xproperty e => HandlePropertyNotify e
  | xclient e => HandleClientMessage e ;; ret 1
  | xunmap e => HandleUnmapNotify e ;; ret 1
  | xexpose e => HandleExpose e
  | xcolormap e => HandleColormapChange e ;; ret 1
  | xdestroywindow e => HandleDestroyNotify e
  | xconfigure e => HandleConfigureNotify e ;; ret 1
  | xany CreateNotify | xany MapNotify | xany NoExpose
  | xany ReparentNotify | xany GraphicsExpose => ret 1
  | _ =>
    if USE_SHAPE E then
      if haveShape E && (event_type event =? shapeEvent E) then
        (fun w => HandleShapeEvent (shape_event_read E event w) w) ;;
        ret 1
      else ret 0
    else ret 0
  end.

(** One turn of the [do] loop, from [SignalTaskbar] to the loop test:
    the event goes to the core handlers, then to the tray, the dialogs and
    the swallowed windows while nobody has handled it, and to the popups in
    any case. *)
Definition dispatch (event : XEvent) : M Z :=
  SignalTaskbar ;;
  handled <- classify event ;;
  handled <- (if negb (nonzero handled) then ProcessTrayEvent E event
              else ret handled) ;;
  handled <- (if negb (nonzero handled) then ProcessDialogEvent E event
              else ret handled) ;;
  handled <- (if negb (nonzero handled) then ProcessSwallowEvent E event
              else ret handled) ;;
  popup <- ProcessPopupEvent E event ;;
  ret (Z.lor handled popup).

(** [WaitForEvent] on the events the display connection delivers:
    [do { ... } while(handled && !shouldExit);].  The wait for the next
    event (the [select] loop with its idle ticks) is the step from one
    element of [incoming] to the next; with nothing left to deliver the
    function waits. *)
Fixpoint WaitForEvent (incoming : list XEvent) (w : World) : Outcome :=
  match incoming with
  | [] => Waiting w
  | event :: pending =>
    let r := dispatch event w in
    if nonzero (fst r) && negb (shouldExit (snd r))
    then WaitForEvent pending (snd r)
    else Returned event (snd r) pending
  end.

(** [while(JXCheckTypedEvent(display, MotionNotify, event));] leaves the
    last queued motion sample in [*event]. *)
Definition last_motion (e : XMotionEvent.t) (queued : list XEvent) : XMotionEvent.t :=
  fold_left (fun acc ev => match ev with xmotion m => m | _ => acc end) queued e.

Definition is_motion (ev : XEvent) : bool :=
  match ev with xmotion _ => true | _ => false end.

(** [ProcessEvent] on an event and the events already queued; it returns
    the queue it leaves. *)
Definition ProcessEvent (event : XEvent) (queued : list XEvent)
  : M (list XEvent) :=
  match event with
  | xbutton e => HandleButtonEvent e ;; ret queued
  | xkey e => HandleKeyPress e ;; ret queued
  | xcrossing e =>
    match XCrossingEvent.type e with
    | EnterNotify => HandleEnterNotify e
    | LeaveNotify => HandleLeaveNotify e
    end ;; ret queued
  | xmotion e =>
    HandleMotionNotify (last_motion e queued) ;;
    ret (filter (fun ev => negb (is_motion ev)) queued)
  | xdestroywindow _ | xexpose _ | xany KeyRelease => ret queued
  | _ => Debug (event_type event) ;; ret queued
  end.

Definition SetShowMenuOnRoot (v : Z) : M unit :=
  fun w => (tt, with_showMenuOnRoot v w).

End Handlers.

(** ** Vocabulary of the properties *)

(** The calls a computation adds to the trace of the world it starts in. *)
Definition issued {A} (m : M A) (w : World) : list Call.t :=
  skipn (length (trace w)) (calls (snd (m w))).

(** The same with the registry each callee saw. *)
Definition recorded {A} (m : M A) (w : World) : list Entry :=
  skipn (length (trace w)) (trace (snd (m w))).

Definition is_controller (c : Call.t) : bool :=
  match c with Call.controller _ _ _ => true | _ => false end.

Definition is_configure (c : Call.t) : bool :=
  match c with Call.JXConfigureWindow _ _ _ => true | _ => false end.

(** Ids are never shared across clients: two registered nodes that have an
    id in common are the same node. *)
Definition registry_ok (cs : list ClientNode) : Prop :=
  forall a b, In a cs -> In b cs ->
    window a = window b \/ parent a = parent b \/ window a = parent b -> a = b.

(** The atoms of the table are distinct. *)
Definition atoms_distinct (E : Env) : Prop :=
  forall a b, atoms E a = atoms E b -> a = b.

(** The loop of [WaitForEvent] goes round once for every event of [evs]:
    each one is handled by some layer and leaves the shutdown flag false. *)
Fixpoint goes_round (E : Env) (evs : list XEvent) (w : World) : option World :=
  match evs with
  | [] => Some w
  | ev :: evs' =>
    let r := dispatch E ev w in
    if nonzero (fst r) && negb (shouldExit (snd r))
    then goes_round E evs' (snd r) else None
  end.

(** No layer handles the event: the core handlers, the tray, the dialogs,
    the swallowed windows and the popups all report 0, each in the world the
    one before left. *)
Definition unhandled_by_all (E : Env) (ev : XEvent) (w : World) : Prop :=
  let w0 := snd (SignalTaskbar w) in
  let c := classify E ev w0 in
  let t := ProcessTrayEvent E ev (snd c) in
  let d := ProcessDialogEvent E ev (snd t) in
  let s := ProcessSwallowEvent E ev (snd d) in
  let p := ProcessPopupEvent E ev (snd s) in
  fst c = 0 /\ fst t = 0 /\ fst d = 0 /\ fst s = 0 /\ fst p = 0.

(** The double-click rule in plain integers: armed, within the time delta
    and within the distance delta on both axes of the previous press. *)
Definition is_double_click (E : Env) (event : XButtonEvent.t) (w : World) : Prop :=
  doubleClickActive w = true /\
  Z.abs (XButtonEvent.time event - lastClickTime w) <= doubleClickSpeed E /\
  Z.abs (XButtonEvent.x event - lastX w) <= doubleClickDelta E /\
  Z.abs (XButtonEvent.y event - lastY w) <= doubleClickDelta E.

(** The press is less than [2^31] ms and pixels away from the previous one:
    server timestamps have not wrapped in between and the coordinates are
    X11 coordinates. *)
Definition press_in_range (event : XButtonEvent.t) (w : World) : Prop :=
  Z.abs (XButtonEvent.time event - lastClickTime w) < 2 ^ 31 /\
  Z.abs (XButtonEvent.x event - lastX w) < 2 ^ 31 /\
  Z.abs (XButtonEvent.y event - lastY w) < 2 ^ 31.

(** The zone class of a pointer position on a client's frame. *)
Definition zone_of (E : Env) (np : ClientNode) (event : XButtonEvent.t) : Z :=
  Z.land (GetBorderActionType E np (XButtonEvent.x event) (XButtonEvent.y event)) 15.

(** The commands of a key binding that need a target client. *)
Definition client_command (code : Z) : Prop :=
  code = KEY_CLOSE \/ code = KEY_SHADE \/ code = KEY_MOVE \/ code = KEY_RESIZE \/
  code = KEY_MIN \/ code = KEY_MAX \/ code = KEY_WIN.

(** The trace entry of [if(np->controller) (np->controller)(arg);] *)
Definition controller_entry (np : ClientNode) (arg : Z) (cs : list ClientNode)
  : list Entry :=
  match controller np with
  | Some c => [mkEntry (Call.controller (window np) c arg) cs]
  | None => []
  end.

(** The registry after [np->state.status &= ~STAT_STICKY]. *)
Definition unstuck (np : ClientNode) (cs : list ClientNode) : list ClientNode :=
  map (fun c => if window c =? window np then status_andnot STAT_STICKY c else c) cs.

(** The registry after the desktop of [np] is set to [d]. *)
Definition on_desktop (d : Z) (np : ClientNode) (cs : list ClientNode)
  : list ClientNode :=
  map (fun c => if window c =? window np
                then with_state (with_desktop d (state c)) c else c) cs.

(** The registry after [np->state.status &= ~STAT_MAPPED]. *)
Definition unmapped (np : ClientNode) (cs : list ClientNode) : list ClientNode :=
  map (fun c => if window c =? window np then status_andnot STAT_MAPPED c else c) cs.

(** The registry without the node of [np]. *)
Definition without (np : ClientNode) (cs : list ClientNode) : list ClientNode :=
  filter (fun c => negb (window c =? window np)) cs.

(** The call that toggles the shade of [np]. *)
Definition toggle_call (np : ClientNode) : Call.t :=
  if has (status (state np)) STAT_SHADED then Call.UnshadeClient (window np)
  else Call.ShadeClient (window np).

(** The registry after the shade of [np] has been toggled. *)
Definition shade_toggled (np : ClientNode) (cs : list ClientNode) : list ClientNode :=
  map (fun c => if window c =? window np
                then (if has (status (state np)) STAT_SHADED
                      then status_andnot STAT_SHADED c
                      else status_or STAT_SHADED c)
                else c) cs.

(** The world in which [MoveClient] runs: the call has been recorded. *)
Definition moving (np : ClientNode) (event : XButtonEvent.t) (w : World) : World :=
  with_trace
    (trace w ++ [mkEntry (Call.MoveClient (window np) (XButtonEvent.x event)
                            (XButtonEvent.y event)) (clients w)]) w.

(** What the interactive move started by a press reports. *)
Definition move_result (E : Env) (np : ClientNode) (event : XButtonEvent.t)
  (w : World) : Z :=
  MoveClient_result E (moving np event w) np (XButtonEvent.x event)
    (XButtonEvent.y event).

(** The client with the fields a configure request names replaced by the
    requested values. *)
Definition requested (event : XConfigureRequestEvent.t) (np : ClientNode)
  : ClientNode :=
  let mask := XConfigureRequestEvent.value_mask event in
  with_geometry
    (if has mask CWX then XConfigureRequestEvent.x event else x np)
    (if has mask CWY then XConfigureRequestEvent.y event else y np)
    (if has mask CWWidth then XConfigureRequestEvent.width event else width np)
    (if has mask CWHeight then XConfigureRequestEvent.height event else height np)
    np.

(** The border insets of a client. *)
Definition north (E : Env) (np : ClientNode) : Z := fst (fst (fst (insets E np))).
Definition south (E : Env) (np : ClientNode) : Z := snd (fst (fst (insets E np))).
Definition east (E : Env) (np : ClientNode) : Z := snd (fst (insets E np)).
Definition west (E : Env) (np : ClientNode) : Z := snd (insets E np).

(** The changes sent for the decoration window and for the content window
    of a client whose geometry is [r]. *)
Definition frame_changes (E : Env) (r : ClientNode) : XWindowChanges :=
  mkXWindowChanges (x r) (y r)
    (width r + east E r + west E r) (height r + north E r + south E r)
    0 (parent r) Above.

Definition content_changes (E : Env) (r : ClientNode) : XWindowChanges :=
  mkXWindowChanges (west E r) (north E r) (width r) (height r) 0 (parent r) Above.

(** The registry after the node of [np] has become [r]. *)
Definition replaced (np r : ClientNode) (cs : list ClientNode) : list ClientNode :=
  map (fun c => if window c =? window np then r else c) cs.

(** The events whose case in the [switch] of [WaitForEvent] sets
    [handled = 1] whatever the handler did. *)
Definition core_consumed (ev : XEvent) : bool :=
  match ev with
  | xconfigurerequest _ | xmaprequest _ | xclient _ | xunmap _
  | xcolormap _ | xconfigure _ => true
  | xany CreateNotify | xany MapNotify | xany NoExpose
  | xany ReparentNotify | xany GraphicsExpose => true
  | _ => false
  end.

(** The events that fall to the [default] case of that [switch]. *)
Definition input_event (ev : XEvent) : bool :=
  match ev with
  | xbutton _ | xkey _ | xcrossing _ | xmotion _ => true
  | xany KeyRelease | xany (OtherEvent _ _) => true
  | _ => false
  end.

(** The event is the shape extension's, in a build and on a display that
    have the extension. *)
Definition shape_event (E : Env) (ev : XEvent) : bool :=
  USE_SHAPE E && haveShape E && (event_type ev =? shapeEvent E).

(** The server has the geometry the registry records for a client: the
    frame at the client's position with the content size plus the insets,
    the content window inside it at the inset offset. *)
Definition in_sync (E : Env) (s : Server) (np : ClientNode) : Prop :=
  s (parent np) =
    mkGeometry (x np) (y np)
      (width np + east E np + west E np) (height np + north E np + south E np) /\
  s (window np) = mkGeometry (west E np) (north E np) (width np) (height np).

(** The server after all the calls of a list. *)
Definition server_after_all (cs : list Call.t) (s : Server) : Server :=
  server_after (length cs) cs s.

(** How often a call occurs in a list of calls. *)
Definition occurrences (p : Call.t -> bool) (cs : list Call.t) : nat :=
  length (filter p cs).

Definition is_grab (c : Call.t) : bool :=
  match c with Call.JXGrabServer => true | _ => false end.

Definition is_ungrab (c : Call.t) : bool :=
  match c with Call.JXUngrabServer => true | _ => false end.

(** The status word after the three assignments of [HandleMapRequest]. *)
Definition mapped_status (v : Z) : Z :=
  clear_bits (clear_bits (set_bits v STAT_MAPPED) STAT_MINIMIZED) STAT_WITHDRAWN.

(** Where the window menu of button 3 is anchored. *)
Definition menu_anchor (E : Env) (event : XButtonEvent.t) (np : ClientNode) : Z * Z :=
  (XButtonEvent.x event + x np - west E np,
   XButtonEvent.y event + y np - north E np).

(** The registry after [HandleMapRequest] has marked [np] mapped. *)
Definition remapped (np : ClientNode) (cs : list ClientNode) : list ClientNode :=
  map (fun c => if window c =? window np
                then with_state (with_status (mapped_status (status (state c)))
                                   (state c)) c
                else c) cs.

(** The world in which [AddClientWindow] is asked about a new window: the
    synchronisation, the grab and the call itself have been recorded. *)
Definition registering (id : Window) (w : World) : World :=
  with_trace
    (trace w ++ [mkEntry Call.JXSync (clients w);
                 mkEntry Call.JXGrabServer (clients w);
                 mkEntry (Call.AddClientWindow id 0 1) (clients w)]) w.

(** The registry after the cached action zone of [np] has become [a]. *)
Definition zoned (a : Z) (np : ClientNode) (cs : list ClientNode) : list ClientNode :=
  map (fun c => if window c =? window np then with_borderAction a c else c) cs.

(** The registry after a legacy state message has set or cleared the
    no-list flag of [np]. *)
Definition listed (hidden : bool) (np : ClientNode) (cs : list ClientNode)
  : list ClientNode :=
  map (fun c => if window c =? window np
                then (if hidden then status_or STAT_NOLIST c
                      else status_andnot STAT_NOLIST c)
                else c) cs.

(** The statics of [DispatchBorderButtonEvent]. *)
Definition detector (w : World) : Time * Z * Z * bool :=
  (lastClickTime w, lastX w, lastY w, doubleClickActive w).

(** [v] is one of the two maximize properties of a state message. *)
Definition maximize_property (E : Env) (v : Z) : Prop :=
  v = atoms E ATOM_NET_WM_STATE_MAXIMIZED_VERT \/
  v = atoms E ATOM_NET_WM_STATE_MAXIMIZED_HORZ.

(** [v] is none of the properties a state message can name. *)
Definition no_state_property (E : Env) (v : Z) : Prop :=
  v <> atoms E ATOM_NET_WM_STATE_STICKY /\
  v <> atoms E ATOM_NET_WM_STATE_MAXIMIZED_VERT /\
  v <> atoms E ATOM_NET_WM_STATE_MAXIMIZED_HORZ /\
  v <> atoms E ATOM_NET_WM_STATE_SHADED.

(** The message types [HandleClientMessage] knows. *)
Definition known_message (E : Env) (t : Atom) : Prop :=
  t = atoms E ATOM_WIN_STATE \/ t = atoms E ATOM_WIN_LAYER \/
  t = atoms E ATOM_WM_CHANGE_STATE \/ t = atoms E ATOM_NET_ACTIVE_WINDOW \/
  t = atoms E ATOM_NET_WM_DESKTOP \/ t = atoms E ATOM_NET_CLOSE_WINDOW \/
  t = atoms E ATOM_NET_WM_STATE.

(** Buttons 1 to 3. *)
Definition plain_button (b : Z) : bool :=
  (b =? Button1) || (b =? Button2) || (b =? Button3).

(** ** Sample data *)

Module Sample.

(** A decorated client: content window 10 in frame 11, 100 by 100 at
    (5, 5), mapped, with outline and title bar, [flags] added to its
    status and [ctl] as its controller. *)
Definition client (flags : Z) (ctl : option Controller) : ClientNode :=
  mkClientNode 10 11 5 5 100 100
    (mkClientState (Z.lor STAT_MAPPED flags) (Z.lor BORDER_OUTLINE BORDER_TITLE)
       2 2 0 0)
    BA_NONE 0 ctl.

Definition world (cs : list ClientNode) : World :=
  mkWorld cs false 1 0 0 0 false [].

(** Distinct atom values above the predefined ones. *)
Definition atom_table (a : AtomType) : Atom :=
  match a with
  | ATOM_WM_CHANGE_STATE => 100
  | ATOM_WM_COLORMAP_WINDOWS => 101
  | ATOM_NET_ACTIVE_WINDOW => 102
  | ATOM_NET_WM_DESKTOP => 103
  | ATOM_NET_WM_STATE => 104
  | ATOM_NET_WM_STATE_STICKY => 105
  | ATOM_NET_WM_STATE_MAXIMIZED_VERT => 106
  | ATOM_NET_WM_STATE_MAXIMIZED_HORZ => 107
  | ATOM_NET_WM_STATE_SHADED => 108
  | ATOM_NET_CLOSE_WINDOW => 109
  | ATOM_NET_WM_NAME => 110
  | ATOM_NET_WM_ICON => 111
  | ATOM_WIN_STATE => 112
  | ATOM_WIN_LAYER => 113
  | ATOM_JWM_RESTART => 114
  | ATOM_JWM_EXIT => 115
  end.

(** A configuration: 4 pixel borders, 20 pixel title bars, 4 desktops,
    400 ms and 2 pixels for a double click.  Every frame position is in
    the zone [zone], every key resolves to [key], an interactive move
    reports [moved], no collaborator handles anything; the build has no
    shape extension and atoms have empty names. *)
Definition env (focus : FocusModelType) (zone key moved : Z) : Env :=
  mkEnv 4 20 4 400 2 focus 1 atom_table
    (fun _ => key)
    (fun _ _ _ => zone)
    (fun a => a)
    (fun _ _ _ _ => moved)
    (fun _ _ => None)
    (fun _ w => (0, w)) (fun _ w => (0, w)) (fun _ w => (0, w)) (fun _ w => (0, w))
    false false 0 (fun _ _ => XShapeEvent.mk 0) (fun _ => String.EmptyString).

Definition press (px py : Z) (t : Time) : XButtonEvent.t :=
  XButtonEvent.mk ButtonPress 11 px py Button1 t.

Definition release (px py : Z) (t : Time) : XButtonEvent.t :=
  XButtonEvent.mk ButtonRelease 11 px py Button1 t.

(** The server's geometry for the sample client: a 100 by 100 content
    window in a 108 by 124 frame. *)
Definition server : Server :=
  fun id => if id =? 10 then mkGeometry 4 20 100 100
            else if id =? 11 then mkGeometry 5 5 108 124
            else mkGeometry 0 0 0 0.

(** A request to make the content window [nw] pixels wide. *)
Definition resize_width (nw : Z) : XConfigureRequestEvent.t :=
  XConfigureRequestEvent.mk 10 0 0 nw 0 0 0 0 CWWidth.

End Sample.

(** ** Properties *)

(** *** Traces *)

Lemma skipn_app_exact {A} (a b : list A) : skipn (length a) (a ++ b) = b.
Proof. induction a as [|h a IH]; simpl; auto. Qed.

Lemma recorded_app {A} (m : M A) (w : World) (l : list Entry) :
  trace (snd (m w)) = trace w ++ l -> recorded m w = l.
Proof. intros H. unfold recorded. rewrite H. apply skipn_app_exact. Qed.

Lemma issued_recorded {A} (m : M A) (w : World) :
  issued m w = map call (recorded m w).
Proof.
  unfold issued, recorded, calls.
  rewrite <- (length_map call (trace w)) at 1.
  generalize (trace (snd (m w))) (trace w). intros l k.
  revert l. induction k as [|e k IH]; intros [|e' l]; simpl; auto.
Qed.

Lemma issued_app {A} (m : M A) (w : World) (l : list Entry) :
  trace (snd (m w)) = trace w ++ l -> issued m w = map call l.
Proof. intros H. rewrite issued_recorded, (recorded_app _ _ _ H). reflexivity. Qed.

Lemma issued_unchanged {A} (m : M A) (w : World) :
  snd (m w) = w -> issued m w = [].
Proof.
  intros H. apply (issued_app m w []). rewrite H, app_nil_r. reflexivity.
Qed.

(** *** The registry *)

Lemma FindClientByWindow_in (id : Window) (w : World) (np : ClientNode) :
  fst (FindClientByWindow id w) = Some np ->
  In np (clients w) /\ (window np = id \/ parent np = id).
Proof.
  unfold FindClientByWindow. simpl.
  destruct (find (fun c => window c =? id) (clients w)) eqn:F.
  - intros H. inversion H. subst. apply find_some in F. destruct F as [I F].
    split; auto. left. lia.
  - intros H. apply find_some in H. destruct H as [I H]. split; auto. right. lia.
Qed.

(** *** Unmap and destroy on another window of a client *)

(** C9: an unmap or destroy notification whose window resolves to a client
    but is not that client's content window leaves the whole world as it
    was (the client's state, its controller and its registration included,
    nothing is called), and the destroy handler reports it unhandled. *)
Theorem unmap_destroy_not_content_window
  (id : Window) (np : ClientNode) (w : World) :
  fst (FindClientByWindow id w) = Some np ->
  window np <> id ->
  HandleUnmapNotify (XUnmapEvent.mk id) w = (tt, w) /\
  HandleDestroyNotify (XDestroyWindowEvent.mk id) w = (0, w).
Proof.
  intros F N.
  assert (Q : (window np =? id) = false) by (apply Z.eqb_neq; exact N).
  unfold HandleUnmapNotify, HandleDestroyNotify, bind. simpl.
  unfold FindClientByWindow in F. simpl in F. rewrite F. rewrite Q. split; reflexivity.
Qed.

(** *** Colormap changes *)

Ltac run_handler :=
  unfold bind, ret, skip, log, update; simpl.

Lemma HandleColormapChange_new (event : XColormapEvent.t) (w : World) (np : ClientNode) :
  XColormapEvent.new event = True_ ->
  fst (FindClientByWindow (XColormapEvent.window event) w) = Some np ->
  let cs := map (fun c => if window c =? window np
                          then with_cmap (XColormapEvent.colormap event) c else c)
                (clients w) in
  HandleColormapChange event w =
    (tt, with_trace (trace w ++ [mkEntry (Call.UpdateClientColormap (window np)) cs])
           (with_clients cs w)).
Proof.
  intros N F. unfold HandleColormapChange.
  apply Z.eqb_eq in N. rewrite N.
  unfold bind at 1. rewrite F. reflexivity.
Qed.

Lemma HandleColormapChange_skip (event : XColormapEvent.t) (w : World) :
  XColormapEvent.new event <> True_ \/
  fst (FindClientByWindow (XColormapEvent.window event) w) = None ->
  HandleColormapChange event w = (tt, w).
Proof.
  intros H. unfold HandleColormapChange.
  destruct (XColormapEvent.new event =? True_) eqn:N; [|reflexivity].
  destruct H as [H|H]; [apply Z.eqb_eq in N; contradiction|].
  unfold bind at 1. rewrite H. reflexivity.
Qed.

(** C7: a colormap event changes anything only when it is flagged new and
    its window resolves to a client: then the client's colormap id is set to
    the event's - every registered node of the client has the event's
    colormap id afterwards, the nodes of other clients are the ones that
    were registered before - and the colormap refresh is called on the
    updated registry; an event that is not flagged new, or whose window is
    unknown, leaves the world as it was. *)
Theorem colormap_change_only_when_new (event : XColormapEvent.t) (w : World) :
  let w' := snd (HandleColormapChange event w) in
  let found := fst (FindClientByWindow (XColormapEvent.window event) w) in
  (forall np, XColormapEvent.new event = True_ -> found = Some np ->
     clients w' =
       map (fun c => if window c =? window np
                     then with_cmap (XColormapEvent.colormap event) c else c)
           (clients w) /\
     recorded (HandleColormapChange event) w =
       [mkEntry (Call.UpdateClientColormap (window np)) (clients w')] /\
     (forall c, In c (clients w') -> window c = window np ->
        cmap c = XColormapEvent.colormap event) /\
     (forall c, In c (clients w') -> window c <> window np -> In c (clients w))) /\
  (XColormapEvent.new event <> True_ -> w' = w) /\
  (found = None -> w' = w) /\
  (issued (HandleColormapChange event) w <> [] <->
     XColormapEvent.new event = True_ /\ found <> None).
Proof.
  cbv zeta. split; [|split; [|split; [|split]]].
  - intros np N F. rewrite (HandleColormapChange_new event w np N F).
    cbn [snd clients with_clients with_trace].
    split; [reflexivity|]. split; [|split].
    + apply recorded_app. rewrite (HandleColormapChange_new event w np N F).
      reflexivity.
    + intros c I Q. apply in_map_iff in I. destruct I as [c0 [M _]].
      destruct (Z.eqb_spec (window c0) (window np)) as [K|K]; subst c.
      * reflexivity.
      * contradiction.
    + intros c I Q. apply in_map_iff in I. destruct I as [c0 [M I]].
      destruct (Z.eqb_spec (window c0) (window np)) as [K|K]; subst c.
      * exfalso. apply Q. exact K.
      * exact I.
  - intros N. rewrite HandleColormapChange_skip; auto.
  - intros F. rewrite HandleColormapChange_skip; auto.
  - intros I.
    destruct (Z.eq_dec (XColormapEvent.new event) True_) as [N|N].
    + split; [exact N|]. intros F. apply I. apply issued_unchanged.
      rewrite HandleColormapChange_skip; auto.
    + exfalso. apply I. apply issued_unchanged.
      rewrite HandleColormapChange_skip; auto.
  - intros [N F].
    destruct (fst (FindClientByWindow (XColormapEvent.window event) w))
      as [np|] eqn:Q; [|congruence].
    erewrite issued_app
      by (rewrite (HandleColormapChange_new event w np N Q); reflexivity).
    discriminate.
Qed.

(** *** Key commands without a target *)

(** C8: when the binding of a key press resolves to a command that needs a
    client (close, shade toggle, keyboard move, keyboard resize, minimize,
    maximize, window menu) and no client resolves - under click focus none
    is registered for the event's sub-window, otherwise none is focused -
    the key press leaves the world as it was: no client changes and nothing
    is called. *)
Theorem key_command_without_target (E : Env) (event : XKeyEvent.t) (w : World) :
  client_command (Z.land (GetKey E event) 255) ->
  (focusModel E = FOCUS_CLICK /\
   fst (FindClientByWindow (XKeyEvent.subwindow event) w) = None) \/
  (focusModel E = FOCUS_SLOPPY /\ fst (GetActiveClient w) = None) ->
  HandleKeyPress E event w = (tt, w).
Proof.
  intros C T. unfold HandleKeyPress.
  assert (F : (if focus_eqb (focusModel E) FOCUS_CLICK
               then FindClientByWindow (XKeyEvent.subwindow event)
               else GetActiveClient) w = (None, w)).
  { destruct T as [[M N]|[M N]]; rewrite M; simpl.
    - unfold FindClientByWindow in *. simpl in N. rewrite N. reflexivity.
    - unfold GetActiveClient in *. simpl in N. rewrite N. reflexivity. }
  unfold bind at 1. rewrite F. simpl.
  unfold client_command in C.
  destruct C as [C|[C|[C|[C|[C|[C|C]]]]]]; rewrite C; reflexivity.
Qed.

(** *** Expose and property events of dialogs *)

Lemma HandleExpose_found (event : XExposeEvent.t) (w : World) (np : ClientNode) :
  XExposeEvent.count event = 0 ->
  fst (FindClientByWindow (XExposeEvent.window event) w) = Some np ->
  XExposeEvent.window event <> parent np ->
  HandleExpose event w =
    (if (XExposeEvent.window event =? window np)
        && has (status (state np)) STAT_WMDIALOG then 0 else 1, w).
Proof.
  intros C F P. unfold HandleExpose. rewrite C. simpl.
  unfold bind. rewrite F.
  apply Z.eqb_neq in P. rewrite P.
  destruct ((XExposeEvent.window event =? window np)
            && has (status (state np)) STAT_WMDIALOG); reflexivity.
Qed.

Lemma HandleExpose_handled (event : XExposeEvent.t) (w : World) (np : ClientNode) :
  fst (FindClientByWindow (XExposeEvent.window event) w) = Some np ->
  has (status (state np)) STAT_WMDIALOG = false ->
  fst (HandleExpose event w) = 1.
Proof.
  intros F D. unfold HandleExpose.
  destruct (nonzero (XExposeEvent.count event)); [reflexivity|].
  unfold bind. rewrite F.
  destruct (XExposeEvent.window event =? parent np); [reflexivity|].
  rewrite D, andb_false_r. reflexivity.
Qed.

Lemma HandlePropertyNotify_result
  (E : Env) (event : XPropertyEvent.t) (w : World) (np : ClientNode) :
  fst (FindClientByWindow (XPropertyEvent.window event) w) = Some np ->
  fst (HandlePropertyNotify E event w) =
    if has (status (state np)) STAT_WMDIALOG then 0 else 1.
Proof.
  intros F. unfold HandlePropertyNotify.
  unfold bind at 1. rewrite F.
  unfold bind at 1. unfold bind at 1.
  destruct (has (status (state np)) STAT_WMDIALOG); reflexivity.
Qed.

Lemma HandlePropertyNotify_name
  (E : Env) (event : XPropertyEvent.t) (w : World) (np : ClientNode) :
  fst (FindClientByWindow (XPropertyEvent.window event) w) = Some np ->
  XPropertyEvent.atom event = XA_WM_NAME ->
  issued (HandlePropertyNotify E event) w =
    [Call.ReadWMName (window np); Call.DrawBorder (window np);
     Call.UpdateTaskBar; Call.UpdatePager].
Proof.
  intros F A.
  apply (issued_app _ _
    [mkEntry (Call.ReadWMName (window np)) (clients w);
     mkEntry (Call.DrawBorder (window np)) (clients w);
     mkEntry Call.UpdateTaskBar (clients w);
     mkEntry Call.UpdatePager (clients w)]).
  unfold HandlePropertyNotify. unfold bind at 1. rewrite F, A. simpl.
  destruct (has (status (state np)) STAT_WMDIALOG); simpl;
    repeat rewrite <- app_assoc; reflexivity.
Qed.

(** C10, as the code has it: an expose event with count 0 on the content
    window of a managed dialog client (a window that is not also the
    client's decoration window) is reported unhandled (0), and so is every
    property event of a dialog client, after the property change has been
    processed (for WM_NAME: the name is read, the border redrawn, taskbar and
    pager refreshed); for a managed client that is not a dialog both handlers
    report the event handled (1); an expose event with a non-zero count is
    reported handled (1) whatever its window is. *)
Theorem dialog_events_left_to_collaborator
  (E : Env) (w : World) (np : ClientNode) :
  (forall ev : XExposeEvent.t,
     XExposeEvent.count ev <> 0 -> HandleExpose ev w = (1, w)) /\
  (forall ev : XExposeEvent.t,
     fst (FindClientByWindow (XExposeEvent.window ev) w) = Some np ->
     XExposeEvent.window ev = window np ->
     window np <> parent np ->
     has (status (state np)) STAT_WMDIALOG = true ->
     XExposeEvent.count ev = 0 ->
     HandleExpose ev w = (0, w)) /\
  (forall ev : XPropertyEvent.t,
     fst (FindClientByWindow (XPropertyEvent.window ev) w) = Some np ->
     has (status (state np)) STAT_WMDIALOG = true ->
     fst (HandlePropertyNotify E ev w) = 0 /\
     (XPropertyEvent.atom ev = XA_WM_NAME ->
      issued (HandlePropertyNotify E ev) w =
        [Call.ReadWMName (window np); Call.DrawBorder (window np);
         Call.UpdateTaskBar; Call.UpdatePager])) /\
  (forall ev : XExposeEvent.t,
     fst (FindClientByWindow (XExposeEvent.window ev) w) = Some np ->
     has (status (state np)) STAT_WMDIALOG = false ->
     fst (HandleExpose ev w) = 1) /\
  (forall ev : XPropertyEvent.t,
     fst (FindClientByWindow (XPropertyEvent.window ev) w) = Some np ->
     has (status (state np)) STAT_WMDIALOG = false ->
     fst (HandlePropertyNotify E ev w) = 1).
Proof.
  split; [|split; [|split; [|split]]].
  - intros ev C. unfold HandleExpose, nonzero.
    apply Z.eqb_neq in C. rewrite C. reflexivity.
  - intros ev F W P D C.
    rewrite (HandleExpose_found ev w np C F) by congruence.
    rewrite D. apply Z.eqb_eq in W. rewrite W. reflexivity.
  - intros ev F D. split.
    + rewrite (HandlePropertyNotify_result E ev w np F), D. reflexivity.
    + intros A. apply HandlePropertyNotify_name; assumption.
  - intros ev F D. apply (HandleExpose_handled ev w np F D).
  - intros ev F D.
    rewrite (HandlePropertyNotify_result E ev w np F), D. reflexivity.
Qed.

(** *** Desktop assignment *)

Lemma atoms_neq (E : Env) (a b : AtomType) :
  atoms_distinct E -> a <> b -> (atoms E a =? atoms E b) = false.
Proof. intros D N. apply Z.eqb_neq. intros Q. apply N, D, Q. Qed.

Lemma cleared_flag (s f : Z) : has (clear_bits s f) f = false.
Proof.
  unfold has, clear_bits, nonzero.
  rewrite <- Z.land_assoc, (Z.land_comm (Z.lnot f) f), Z.land_lnot_diag, Z.land_0_r.
  reflexivity.
Qed.

Lemma call_controller_world (np : ClientNode) (arg : Z) (w : World) :
  call_controller np arg w =
    (tt, with_trace (trace w ++ controller_entry np arg (clients w)) w).
Proof.
  unfold call_controller, controller_entry.
  destruct (controller np); simpl; [reflexivity|].
  rewrite app_nil_r. destruct w; reflexivity.
Qed.

Lemma HandleClientMessage_desktop
  (E : Env) (event : XClientMessageEvent.t) (w : World) (np : ClientNode) :
  atoms_distinct E ->
  XClientMessageEvent.message_type event = atoms E ATOM_NET_WM_DESKTOP ->
  fst (FindClientByWindow (XClientMessageEvent.window event) w) = Some np ->
  XClientMessageEvent.l0 event <> -1 ->
  let d := XClientMessageEvent.l0 event in
  HandleClientMessage E event w =
    (tt,
     if (0 <=? d) && (d <? desktopCount E) then
       with_trace
         (trace w ++ controller_entry np 0 (clients w)
          ++ [mkEntry (Call.SetClientDesktop (window np) d) (unstuck np (clients w))])
         (with_clients (on_desktop d np (unstuck np (clients w))) w)
     else with_trace (trace w ++ controller_entry np 0 (clients w)) w).
Proof.
  intros D T F S. cbv zeta. unfold HandleClientMessage.
  unfold bind at 1. rewrite F, T.
  rewrite !(atoms_neq E ATOM_NET_WM_DESKTOP) by (auto; discriminate).
  rewrite Z.eqb_refl.
  apply Z.eqb_neq in S. rewrite S.
  unfold bind at 1. rewrite call_controller_world. cbn [fst snd].
  destruct ((0 <=? XClientMessageEvent.l0 event)
            && (XClientMessageEvent.l0 event <? desktopCount E)); [|reflexivity].
  unfold SetClientDesktop, bind, update, log, unstuck, on_desktop. simpl.
  rewrite <- app_assoc. reflexivity.
Qed.

Lemma controller_entry_calls (np : ClientNode) (arg : Z) (cs : list ClientNode)
  (c : Call.t) :
  In c (map call (controller_entry np arg cs)) -> is_controller c = true.
Proof.
  unfold controller_entry. destruct (controller np); simpl; [|tauto].
  intros [H|[]]. subst. reflexivity.
Qed.

(** C6: a desktop assignment message for a managed client, with an index
    other than the all-desktops sentinel, is accepted exactly when the index
    is in [0, desktopCount).  An accepted assignment first clears the sticky
    flag and then sets the desktop: [SetClientDesktop] is called on a
    registry in which the flag is already clear, and afterwards the client
    has the new desktop and no sticky flag.  A rejected one (the index
    desktopCount, anything larger, anything negative) leaves the registry -
    the client's desktop and sticky flag with it - as it was. *)
Theorem desktop_assignment_in_range_only
  (E : Env) (event : XClientMessageEvent.t) (w : World) (np : ClientNode) :
  atoms_distinct E ->
  XClientMessageEvent.message_type event = atoms E ATOM_NET_WM_DESKTOP ->
  fst (FindClientByWindow (XClientMessageEvent.window event) w) = Some np ->
  XClientMessageEvent.l0 event <> -1 ->
  let d := XClientMessageEvent.l0 event in
  let w' := snd (HandleClientMessage E event w) in
  (In (Call.SetClientDesktop (window np) d) (issued (HandleClientMessage E event) w)
   <-> 0 <= d < desktopCount E) /\
  (0 <= d < desktopCount E ->
     clients w' = on_desktop d np (unstuck np (clients w)) /\
     In (mkEntry (Call.SetClientDesktop (window np) d) (unstuck np (clients w)))
        (recorded (HandleClientMessage E event) w) /\
     forall c, In c (clients w') -> window c = window np ->
       desktop (state c) = d /\ has (status (state c)) STAT_STICKY = false) /\
  (~ 0 <= d < desktopCount E -> clients w' = clients w).
Proof.
  intros D T F S. cbv zeta.
  pose proof (HandleClientMessage_desktop E event w np D T F S) as W.
  cbv zeta in W.
  assert (R : (0 <=? XClientMessageEvent.l0 event)
              && (XClientMessageEvent.l0 event <? desktopCount E) = true
              <-> 0 <= XClientMessageEvent.l0 event < desktopCount E).
  { rewrite andb_true_iff, Z.leb_le, Z.ltb_lt. tauto. }
  destruct ((0 <=? XClientMessageEvent.l0 event)
            && (XClientMessageEvent.l0 event <? desktopCount E)) eqn:Q.
  - assert (I : 0 <= XClientMessageEvent.l0 event < desktopCount E)
      by (apply R; reflexivity).
    split; [|split].
    + split; [intros _; exact I|]. intros _.
      erewrite issued_app by (rewrite W; reflexivity).
      rewrite map_app. apply in_or_app. right. left. reflexivity.
    + intros _. rewrite W. simpl. split; [reflexivity|]. split.
      * erewrite recorded_app by (rewrite W; reflexivity).
        apply in_or_app. right. left. reflexivity.
      * intros c IN WN. unfold on_desktop, unstuck in IN.
        apply in_map_iff in IN. destruct IN as [c1 [E1 IN]].
        apply in_map_iff in IN. destruct IN as [c0 [E0 IN]].
        assert (W1 : window c1 = window c0).
        { subst c1. destruct (window c0 =? window np); reflexivity. }
        assert (WC : window c = window c1).
        { subst c. destruct (window c1 =? window np); reflexivity. }
        assert (K : (window c0 =? window np) = true)
          by (apply Z.eqb_eq; congruence).
        assert (K1 : (window c1 =? window np) = true)
          by (apply Z.eqb_eq; congruence).
        rewrite K in E0. rewrite K1 in E1. subst c c1. simpl.
        split; [reflexivity|]. apply cleared_flag.
    + intros N. contradiction.
  - assert (I : ~ 0 <= XClientMessageEvent.l0 event < desktopCount E).
    { intros I. apply R in I. discriminate. }
    split; [|split].
    + split; [|intros J; contradiction]. intros IN. exfalso.
      erewrite issued_app in IN by (rewrite W; reflexivity).
      apply controller_entry_calls in IN. discriminate.
    + intros J. contradiction.
    + intros _. rewrite W. reflexivity.
Qed.

(** *** Destroy and unmap of a content window *)

Lemma HandleDestroyNotify_content (w : World) (np : ClientNode) :
  fst (FindClientByWindow (window np) w) = Some np ->
  HandleDestroyNotify (XDestroyWindowEvent.mk (window np)) w =
    (1, with_trace
          (trace w ++ controller_entry np 1 (clients w)
           ++ [mkEntry (Call.RemoveClient (window np)) (clients w)])
          (with_clients (without np (clients w)) w)).
Proof.
  intros F. unfold HandleDestroyNotify. unfold bind at 1.
  cbn [XDestroyWindowEvent.window]. rewrite F, Z.eqb_refl.
  unfold bind at 1. rewrite call_controller_world. cbn [fst snd].
  unfold RemoveClient, bind, log, ret, without. simpl.
  rewrite <- app_assoc. reflexivity.
Qed.

Lemma HandleUnmapNotify_content (w : World) (np : ClientNode) :
  fst (FindClientByWindow (window np) w) = Some np ->
  HandleUnmapNotify (XUnmapEvent.mk (window np)) w =
    (tt, if has (status (state np)) STAT_MAPPED then
           with_trace
             (trace w ++ controller_entry np 1 (clients w)
              ++ [mkEntry (Call.JXUnmapWindow (parent np)) (unmapped np (clients w))])
             (with_clients (unmapped np (clients w)) w)
         else with_trace (trace w ++ controller_entry np 1 (clients w)) w).
Proof.
  intros F. unfold HandleUnmapNotify. unfold bind at 1.
  cbn [XUnmapEvent.window]. rewrite F, Z.eqb_refl.
  unfold bind at 1. rewrite call_controller_world. cbn [fst snd].
  destruct (has (status (state np)) STAT_MAPPED); [|reflexivity].
  unfold JXUnmapWindow, bind, log, update, unmapped. simpl.
  rewrite <- app_assoc. reflexivity.
Qed.

Lemma HandleUnmapNotify_elsewhere (id : Window) (w : World) :
  (forall np, fst (FindClientByWindow id w) = Some np -> window np <> id) ->
  HandleUnmapNotify (XUnmapEvent.mk id) w = (tt, w).
Proof.
  intros H. unfold HandleUnmapNotify. unfold bind at 1.
  cbn [XUnmapEvent.window].
  destruct (fst (FindClientByWindow id w)) as [np|] eqn:F; [|reflexivity].
  specialize (H np eq_refl). apply Z.eqb_neq in H. rewrite H. reflexivity.
Qed.

Lemma without_forgets_window (np : ClientNode) (cs : list ClientNode) (c : ClientNode) :
  In c (without np cs) -> In c cs /\ window c <> window np.
Proof.
  unfold without. intros H. apply filter_In in H. destruct H as [I N].
  split; [exact I|]. apply negb_true_iff, Z.eqb_neq in N. exact N.
Qed.

Lemma without_idempotent (np : ClientNode) (cs : list ClientNode) :
  without np (without np cs) = without np cs.
Proof.
  unfold without. induction cs as [|c cs IH]; simpl; [reflexivity|].
  destruct (negb (window c =? window np)) eqn:Q; simpl; [rewrite Q, IH|];
    auto.
Qed.

Lemma find_absent {A} (f : A -> bool) (l : list A) :
  (forall a, In a l -> f a = false) -> find f l = None.
Proof.
  intros H. destruct (find f l) as [a|] eqn:F; [|reflexivity].
  apply find_some in F. destruct F as [I T]. rewrite (H a I) in T. discriminate.
Qed.

Lemma removed_client_forgotten (w : World) (np : ClientNode) :
  In np (clients w) -> registry_ok (clients w) ->
  let w1 := with_clients (without np (clients w)) w in
  fst (FindClientByWindow (window np) w1) = None /\
  fst (FindClientByWindow (parent np) w1) = None /\
  fst (FindClientByParent (window np) w1) = None /\
  fst (FindClientByParent (parent np) w1) = None.
Proof.
  intros I OK. cbv zeta.
  assert (NW : forall c, In c (without np (clients w)) ->
                 (window c =? window np) = false).
  { intros c H. apply without_forgets_window in H. apply Z.eqb_neq. tauto. }
  assert (NP : forall c, In c (without np (clients w)) ->
                 (parent c =? window np) = false).
  { intros c H. apply without_forgets_window in H. destruct H as [H N].
    apply Z.eqb_neq. intros Q. apply N.
    rewrite (OK np c I H); auto. }
  assert (PP : forall c, In c (without np (clients w)) ->
                 (parent c =? parent np) = false).
  { intros c H. apply without_forgets_window in H. destruct H as [H N].
    apply Z.eqb_neq. intros Q. apply N.
    rewrite (OK np c I H); auto. }
  assert (WP : forall c, In c (without np (clients w)) ->
                 (window c =? parent np) = false).
  { intros c H. apply without_forgets_window in H. destruct H as [H N].
    apply Z.eqb_neq. intros Q. apply N.
    rewrite (OK c np H I); auto. }
  unfold FindClientByWindow, FindClientByParent. simpl.
  rewrite (find_absent _ _ NW), (find_absent _ _ NP), (find_absent _ _ PP),
    (find_absent _ _ WP).
  auto.
Qed.

(** C3: for a client with a controller, a destroy notification and an unmap
    notification for its content window call the controller once, with the
    ending argument 1, first: the controller sees the registry as it was,
    and only then is the client removed (destroy) or marked unmapped and its
    frame unmapped (unmap).  When a late unmap follows the destroy, the
    unmap finds nothing to do, so over the two events the controller has
    been called exactly once, before the removal, and afterwards neither of
    the client's ids resolves to a client; removing again changes nothing. *)
Theorem controller_told_before_removal
  (w : World) (np : ClientNode) (c : Controller) :
  fst (FindClientByWindow (window np) w) = Some np ->
  controller np = Some c ->
  registry_ok (clients w) ->
  let destroy := HandleDestroyNotify (XDestroyWindowEvent.mk (window np)) in
  let unmap := HandleUnmapNotify (XUnmapEvent.mk (window np)) in
  let told := mkEntry (Call.controller (window np) c 1) (clients w) in
  let w1 := snd (destroy w) in
  (fst (destroy w) = 1 /\
   recorded destroy w = [told; mkEntry (Call.RemoveClient (window np)) (clients w)] /\
   clients w1 = without np (clients w)) /\
  (recorded unmap w =
     told :: (if has (status (state np)) STAT_MAPPED
              then [mkEntry (Call.JXUnmapWindow (parent np)) (unmapped np (clients w))]
              else []) /\
   clients (snd (unmap w)) =
     if has (status (state np)) STAT_MAPPED then unmapped np (clients w)
     else clients w) /\
  (unmap w1 = (tt, w1) /\
   filter is_controller (issued (destroy ;; unmap) w) =
     [Call.controller (window np) c 1] /\
   fst (FindClientByWindow (window np) w1) = None /\
   fst (FindClientByWindow (parent np) w1) = None /\
   fst (FindClientByParent (window np) w1) = None /\
   fst (FindClientByParent (parent np) w1) = None /\
   clients (snd (RemoveClient np w1)) = clients w1).
Proof.
  intros F C OK. cbv zeta.
  pose proof (HandleDestroyNotify_content w np F) as D.
  pose proof (HandleUnmapNotify_content w np F) as U.
  unfold controller_entry in D, U. rewrite C in D, U.
  destruct (FindClientByWindow_in _ _ _ F) as [I _].
  destruct (removed_client_forgotten w np I OK) as [F1 [F2 [F3 F4]]].
  assert (W1 : snd (HandleDestroyNotify (XDestroyWindowEvent.mk (window np)) w) =
               with_trace
                 (trace w ++ [mkEntry (Call.controller (window np) c 1) (clients w);
                              mkEntry (Call.RemoveClient (window np)) (clients w)])
                 (with_clients (without np (clients w)) w))
    by (rewrite D; reflexivity).
  assert (U1 : HandleUnmapNotify (XUnmapEvent.mk (window np))
                 (snd (HandleDestroyNotify (XDestroyWindowEvent.mk (window np)) w)) =
               (tt, snd (HandleDestroyNotify (XDestroyWindowEvent.mk (window np)) w))).
  { apply HandleUnmapNotify_elsewhere. intros np' Q.
    rewrite W1 in Q. unfold FindClientByWindow in Q, F1. simpl in Q, F1.
    rewrite F1 in Q. discriminate. }
  split; [|split].
  - rewrite D. split; [reflexivity|]. split; [|reflexivity].
    apply recorded_app. rewrite D. reflexivity.
  - split.
    + apply recorded_app. rewrite U.
      destruct (has (status (state np)) STAT_MAPPED); reflexivity.
    + rewrite U. destruct (has (status (state np)) STAT_MAPPED); reflexivity.
  - split; [exact U1|]. split.
    + erewrite issued_app.
      2:{ unfold bind. rewrite U1. rewrite W1. reflexivity. }
      reflexivity.
    + rewrite W1. unfold FindClientByWindow, FindClientByParent in *.
      simpl in *. repeat (split; [assumption|]).
      apply without_idempotent.
Qed.

(** *** Button 1 on the frame *)

Lemma abs_in_range (d : Z) : Z.abs d < 2 ^ 31 -> abs d = Z.abs d.
Proof.
  intros R. unfold abs.
  destruct (d =? - 2 ^ 31) eqn:M; [|reflexivity].
  apply Z.eqb_eq in M. subst d. exfalso. revert R. apply Z.lt_irrefl.
Qed.

Lemma int_of_ulong_sub (a b : Z) :
  Z.abs (a - b) < 2 ^ 31 -> abs (int_of_ulong (ulong_sub a b)) = Z.abs (a - b).
Proof.
  intros R.
  assert (Q : int_of_ulong (ulong_sub a b) = a - b).
  { unfold int_of_ulong, ulong_sub.
    rewrite (Z.mod_mod_divide (a - b) (2 ^ 64) (2 ^ 32))
      by (exists (2 ^ 32); reflexivity).
    change (2 ^ 31) with 2147483648 in *. change (2 ^ 32) with 4294967296 in *.
    destruct (Z_lt_le_dec (a - b) 0) as [N|P].
    - assert (Q : (a - b) mod 4294967296 = a - b + 4294967296).
      { symmetry. apply (Z.mod_unique _ _ (-1)); lia. }
      rewrite Q.
      destruct (a - b + 4294967296 <? 2147483648) eqn:L;
        [apply Z.ltb_lt in L; lia|lia].
    - rewrite Z.mod_small by lia.
      destruct (a - b <? 2147483648) eqn:L; [reflexivity|].
      apply Z.ltb_ge in L. lia. }
  rewrite Q. apply abs_in_range. exact R.
Qed.

Lemma double_click_spec (E : Env) (event : XButtonEvent.t) (w : World) :
  press_in_range event w ->
  double_click E event w = true <-> is_double_click E event w.
Proof.
  intros [RT [RX RY]]. unfold double_click, is_double_click.
  rewrite (int_of_ulong_sub _ _ RT), (abs_in_range _ RX), (abs_in_range _ RY).
  rewrite !andb_true_iff, !Z.leb_le. tauto.
Qed.

Lemma press_move_world (E : Env) (event : XButtonEvent.t) (np : ClientNode) (w : World) :
  has (border (state np)) BORDER_OUTLINE = true ->
  zone_of E np event = BA_MOVE ->
  XButtonEvent.type event = ButtonPress ->
  DispatchBorderButtonEvent E event np w =
    (tt,
     if double_click E event w then
       with_click (lastClickTime w) (lastX w) (lastY w) false
         (with_trace (trace w ++ [mkEntry (toggle_call np) (clients w)])
            (with_clients (shade_toggled np (clients w)) w))
     else if nonzero (move_result E np event w) then
       with_click (lastClickTime w) (lastX w) (lastY w) false (moving np event w)
     else
       with_click (XButtonEvent.time event) (XButtonEvent.x event)
         (XButtonEvent.y event) true (moving np event w)).
Proof.
  intros O Z P. unfold DispatchBorderButtonEvent. rewrite O. cbn [negb].
  unfold zone_of in Z. rewrite Z, P. cbn [Z.eqb BA_MOVE BA_RESIZE Pos.eqb].
  destruct (double_click E event w).
  - unfold toggle_call, shade_toggled.
    destruct (has (status (state np)) STAT_SHADED); reflexivity.
  - unfold MoveClient, bind, log, move_result, moving. cbn [fst snd].
    match goal with |- context [nonzero ?r] => destruct (nonzero r) end;
      reflexivity.
Qed.

Lemma issued_log (c : Call.t) (w : World) : issued (log c) w = [c].
Proof. apply (issued_app _ _ [mkEntry c (clients w)]). reflexivity. Qed.

Lemma issued_skip (w : World) : issued skip w = [].
Proof. apply issued_unchanged. reflexivity. Qed.

Lemma press_move_issued (E : Env) (event : XButtonEvent.t) (np : ClientNode) (w : World) :
  has (border (state np)) BORDER_OUTLINE = true ->
  zone_of E np event = BA_MOVE ->
  XButtonEvent.type event = ButtonPress ->
  issued (DispatchBorderButtonEvent E event np) w =
    [if double_click E event w then toggle_call np
     else Call.MoveClient (window np) (XButtonEvent.x event) (XButtonEvent.y event)].
Proof.
  intros O Z P.
  destruct (double_click E event w) eqn:D.
  - apply (issued_app _ _ [mkEntry (toggle_call np) (clients w)]).
    rewrite (press_move_world E event np w O Z P), D. reflexivity.
  - apply (issued_app _ _
      [mkEntry (Call.MoveClient (window np) (XButtonEvent.x event)
                  (XButtonEvent.y event)) (clients w)]).
    rewrite (press_move_world E event np w O Z P), D.
    destruct (nonzero (move_result E np event w)); reflexivity.
Qed.

Lemma dispatch_issued (E : Env) (event : XButtonEvent.t) (np : ClientNode) (w : World) :
  issued (DispatchBorderButtonEvent E event np) w =
    let id := window np in
    let px := XButtonEvent.x event in
    let py := XButtonEvent.y event in
    let zone := zone_of E np event in
    let pressed := match XButtonEvent.type event with
                   | ButtonPress => true | ButtonRelease => false end in
    if negb (has (border (state np)) BORDER_OUTLINE) then []
    else if zone =? BA_RESIZE then
      if pressed then [Call.ResizeClient id (GetBorderActionType E np px py) px py]
      else []
    else if zone =? BA_MOVE then
      if pressed then [if double_click E event w then toggle_call np
                       else Call.MoveClient id px py]
      else []
    else if zone =? BA_CLOSE then
      if pressed then [] else [Call.DeleteClient id]
    else if zone =? BA_MAXIMIZE then
      if pressed then [] else [Call.MaximizeClient id]
    else if zone =? BA_MINIMIZE then
      if pressed then [] else [Call.MinimizeClient id]
    else [].
Proof.
  cbv zeta.
  destruct (has (border (state np)) BORDER_OUTLINE) eqn:O; cbn [negb].
  2:{ unfold DispatchBorderButtonEvent. rewrite O. apply issued_skip. }
  destruct (zone_of E np event =? BA_RESIZE) eqn:Z1.
  { unfold DispatchBorderButtonEvent, zone_of in *. rewrite O, Z1. cbn [negb].
    destruct (XButtonEvent.type event); [apply issued_log|apply issued_skip]. }
  destruct (zone_of E np event =? BA_MOVE) eqn:Z2.
  { apply Z.eqb_eq in Z2.
    destruct (XButtonEvent.type event) eqn:P.
    - apply press_move_issued; assumption.
    - unfold DispatchBorderButtonEvent, zone_of in *. rewrite O, Z1, Z2, P.
      apply issued_skip. }
  unfold DispatchBorderButtonEvent, zone_of in *. rewrite O, Z1, Z2. cbn [negb].
  destruct (_ =? BA_CLOSE).
  { destruct (XButtonEvent.type event); [apply issued_skip|apply issued_log]. }
  destruct (_ =? BA_MAXIMIZE).
  { destruct (XButtonEvent.type event); [apply issued_skip|apply issued_log]. }
  destruct (_ =? BA_MINIMIZE).
  { destruct (XButtonEvent.type event); [apply issued_skip|apply issued_log]. }
  apply issued_skip.
Qed.

Lemma toggle_call_cases (np : ClientNode) :
  toggle_call np = Call.ShadeClient (window np) \/
  toggle_call np = Call.UnshadeClient (window np).
Proof. unfold toggle_call. destruct (has _ _); auto. Qed.

Ltac zone_facts :=
  repeat match goal with
  | H : (_ =? _) = true |- _ => apply Z.eqb_eq in H
  | H : (_ =? _) = false |- _ => apply Z.eqb_neq in H
  end;
  unfold BA_RESIZE, BA_MOVE, BA_CLOSE, BA_MAXIMIZE, BA_MINIMIZE in *.

Ltac hot_zone_iff E event np w :=
  rewrite dispatch_issued; cbv zeta;
  destruct (has (border (state np)) BORDER_OUTLINE); cbn [negb];
  [|split; [intros []|intros [? _]; discriminate]];
  destruct (zone_of E np event =? BA_RESIZE) eqn:Z1;
  [|destruct (zone_of E np event =? BA_MOVE) eqn:Z2;
    [|destruct (zone_of E np event =? BA_CLOSE) eqn:Z3;
      [|destruct (zone_of E np event =? BA_MAXIMIZE) eqn:Z4;
        [|destruct (zone_of E np event =? BA_MINIMIZE) eqn:Z5]]]];
  destruct (XButtonEvent.type event); zone_facts;
  (split;
   [ intros I; simpl in I;
     repeat match goal with
     | H : _ \/ _ |- _ => destruct H
     | H : False |- _ => destruct H
     end;
     try discriminate;
     try (match goal with
          | H : (if ?b then _ else _) = _ |- _ =>
              unfold toggle_call in H; destruct b;
              try destruct (has (status (state np)) STAT_SHADED); discriminate
          end);
     repeat split; auto
   | intros [_ [Zn Tn]]; try discriminate; try lia; simpl; auto ]).

(** C5: button 1 on a client's decoration window goes, after the raise and
    the click-focus, to the border dispatch.  A client without outline gets
    no action.  With an outline, a press in a resize zone starts an
    interactive resize, a press in the move/titlebar zone starts an
    interactive move or toggles the shade, and the close, maximize and
    minimize transitions are called exactly on a release in their zone; a
    press in one of those three zones changes nothing. *)
Theorem border_button_dispatch
  (E : Env) (event : XButtonEvent.t) (np : ClientNode) (w : World) :
  let D := DispatchBorderButtonEvent E event np in
  let id := window np in
  let px := XButtonEvent.x event in
  let py := XButtonEvent.y event in
  let zone := zone_of E np event in
  let outlined := has (border (state np)) BORDER_OUTLINE in
  (fst (FindClientByParent (XButtonEvent.window event) w) = Some np ->
   XButtonEvent.button event = Button1 ->
   HandleButtonEvent E event w =
     ((RaiseClient np ;;
       (if focus_eqb (focusModel E) FOCUS_CLICK then FocusClient np else skip) ;;
       D) ;; UpdatePager) w) /\
  (outlined = false -> D w = (tt, w)) /\
  (outlined = true -> zone = BA_RESIZE -> XButtonEvent.type event = ButtonPress ->
   issued D w = [Call.ResizeClient id (GetBorderActionType E np px py) px py]) /\
  (outlined = true -> zone = BA_MOVE -> XButtonEvent.type event = ButtonPress ->
   issued D w = [Call.MoveClient id px py] \/ issued D w = [toggle_call np]) /\
  (In (Call.DeleteClient id) (issued D w) <->
   outlined = true /\ zone = BA_CLOSE /\ XButtonEvent.type event = ButtonRelease) /\
  (In (Call.MaximizeClient id) (issued D w) <->
   outlined = true /\ zone = BA_MAXIMIZE /\ XButtonEvent.type event = ButtonRelease) /\
  (In (Call.MinimizeClient id) (issued D w) <->
   outlined = true /\ zone = BA_MINIMIZE /\ XButtonEvent.type event = ButtonRelease) /\
  (outlined = true ->
   zone = BA_CLOSE \/ zone = BA_MAXIMIZE \/ zone = BA_MINIMIZE ->
   XButtonEvent.type event = ButtonPress -> D w = (tt, w)).
Proof.
  cbv zeta. split; [|split; [|split; [|split; [|split; [|split; [|split]]]]]].
  - intros F B. unfold HandleButtonEvent. unfold bind at 1. rewrite F, B.
    reflexivity.
  - intros O. unfold DispatchBorderButtonEvent. rewrite O. reflexivity.
  - intros O Z P. rewrite dispatch_issued. cbv zeta. rewrite O, Z, P. reflexivity.
  - intros O Z P. rewrite press_move_issued by assumption.
    destruct (double_click E event w); auto.
  - hot_zone_iff E event np w.
  - hot_zone_iff E event np w.
  - hot_zone_iff E event np w.
  - intros O Z P. unfold DispatchBorderButtonEvent. unfold zone_of in Z.
    rewrite O, P. destruct Z as [Z|[Z|Z]]; rewrite Z; reflexivity.
Qed.

(** *** Double clicks *)

Lemma press_move_trace (E : Env) (event : XButtonEvent.t) (np : ClientNode) (w : World) :
  has (border (state np)) BORDER_OUTLINE = true ->
  zone_of E np event = BA_MOVE ->
  XButtonEvent.type event = ButtonPress ->
  trace (snd (DispatchBorderButtonEvent E event np w)) =
    trace w ++
    [mkEntry (if double_click E event w then toggle_call np
              else Call.MoveClient (window np) (XButtonEvent.x event)
                     (XButtonEvent.y event)) (clients w)].
Proof.
  intros O Z P. rewrite (press_move_world E event np w O Z P).
  destruct (double_click E event w); [reflexivity|].
  destruct (nonzero (move_result E np event w)); reflexivity.
Qed.

Lemma unarmed_no_double_click (E : Env) (event : XButtonEvent.t) (w : World) :
  doubleClickActive w = false -> double_click E event w = false.
Proof. intros H. unfold double_click. rewrite H. reflexivity. Qed.

Lemma toggle_is_not_move (np : ClientNode) (px py : Z) :
  toggle_call np <> Call.MoveClient (window np) px py.
Proof. destruct (toggle_call_cases np) as [H|H]; rewrite H; discriminate. Qed.

Lemma two_presses_issued
  (E : Env) (p1 p2 : XButtonEvent.t) (np : ClientNode) (w : World) :
  has (border (state np)) BORDER_OUTLINE = true ->
  zone_of E np p1 = BA_MOVE -> zone_of E np p2 = BA_MOVE ->
  XButtonEvent.type p1 = ButtonPress -> XButtonEvent.type p2 = ButtonPress ->
  doubleClickActive w = false ->
  let w1 := snd (DispatchBorderButtonEvent E p1 np w) in
  issued (DispatchBorderButtonEvent E p1 np ;; DispatchBorderButtonEvent E p2 np) w =
    [Call.MoveClient (window np) (XButtonEvent.x p1) (XButtonEvent.y p1);
     if double_click E p2 w1 then toggle_call np
     else Call.MoveClient (window np) (XButtonEvent.x p2) (XButtonEvent.y p2)].
Proof.
  intros O Z1 Z2 P1 P2 U. cbv zeta.
  pose proof (press_move_trace E p1 np w O Z1 P1) as T1.
  rewrite (unarmed_no_double_click E p1 w U) in T1.
  pose proof (press_move_trace E p2 np
                (snd (DispatchBorderButtonEvent E p1 np w)) O Z2 P2) as T2.
  erewrite issued_app.
  2:{ unfold bind. rewrite T2, T1, <- app_assoc. reflexivity. }
  reflexivity.
Qed.

(** C4: a button 1 press in the move/titlebar zone of an outlined client
    does exactly one of two things.  It toggles the shade if and only if the
    detector is armed and the press is within the time delta and, on both
    axes, within the distance delta of the previous press (the two presses
    being less than [2^31] ms apart, so that server time has not wrapped
    between them); the detector is then disarmed.  Otherwise it starts an
    interactive move; a move that moved the client disarms the detector, a
    pure click arms it with the time and position of the press.  Hence, with
    a distance delta of at least 2 and an unarmed detector, presses at
    (10,10) and (12,11): within the time window the second toggles the shade
    when the first was a pure click, and starts a move when the first moved
    the client; beyond the time window each press starts a move. *)
Theorem double_click_toggles_shade :
  (forall (E : Env) (event : XButtonEvent.t) (np : ClientNode) (w : World),
     has (border (state np)) BORDER_OUTLINE = true ->
     zone_of E np event = BA_MOVE ->
     XButtonEvent.type event = ButtonPress ->
     press_in_range event w ->
     let D := DispatchBorderButtonEvent E event np in
     let move := Call.MoveClient (window np) (XButtonEvent.x event)
                   (XButtonEvent.y event) in
     (is_double_click E event w <-> issued D w = [toggle_call np]) /\
     (~ is_double_click E event w <-> issued D w = [move]) /\
     (is_double_click E event w ->
        clients (snd (D w)) = shade_toggled np (clients w) /\
        doubleClickActive (snd (D w)) = false) /\
     (~ is_double_click E event w -> move_result E np event w <> 0 ->
        doubleClickActive (snd (D w)) = false) /\
     (~ is_double_click E event w -> move_result E np event w = 0 ->
        doubleClickActive (snd (D w)) = true /\
        lastClickTime (snd (D w)) = XButtonEvent.time event /\
        lastX (snd (D w)) = XButtonEvent.x event /\
        lastY (snd (D w)) = XButtonEvent.y event)) /\
  (forall (E : Env) (np : ClientNode) (w : World) (t1 t2 : Time) (win : Window),
     let p1 := XButtonEvent.mk ButtonPress win 10 10 Button1 t1 in
     let p2 := XButtonEvent.mk ButtonPress win 12 11 Button1 t2 in
     let both := (DispatchBorderButtonEvent E p1 np ;;
                  DispatchBorderButtonEvent E p2 np) in
     has (border (state np)) BORDER_OUTLINE = true ->
     zone_of E np p1 = BA_MOVE -> zone_of E np p2 = BA_MOVE ->
     doubleClickActive w = false ->
     2 <= doubleClickDelta E ->
     0 <= t2 - t1 < 2 ^ 31 ->
     (t2 - t1 <= doubleClickSpeed E -> move_result E np p1 w = 0 ->
        issued both w = [Call.MoveClient (window np) 10 10; toggle_call np]) /\
     (t2 - t1 <= doubleClickSpeed E -> move_result E np p1 w <> 0 ->
        issued both w = [Call.MoveClient (window np) 10 10;
                         Call.MoveClient (window np) 12 11]) /\
     (doubleClickSpeed E < t2 - t1 ->
        issued both w = [Call.MoveClient (window np) 10 10;
                         Call.MoveClient (window np) 12 11])).
Proof.
  split.
  - intros E event np w O Z P R. cbv zeta.
    pose proof (double_click_spec E event w R) as S.
    pose proof (press_move_issued E event np w O Z P) as I.
    pose proof (press_move_world E event np w O Z P) as W.
    pose proof (toggle_is_not_move np (XButtonEvent.x event) (XButtonEvent.y event))
      as N.
    destruct (double_click E event w) eqn:D.
    + assert (C : is_double_click E event w) by (apply S; reflexivity).
      rewrite I, W. cbn [snd clients doubleClickActive with_click].
      split; [|split; [|split; [|split]]].
      * split; [reflexivity|intros _; exact C].
      * split; [intros H; contradiction|].
        intros H. inversion H. contradiction.
      * intros _. split; reflexivity.
      * intros H. contradiction.
      * intros H. contradiction.
    + assert (C : ~ is_double_click E event w).
      { intros C. apply S in C. discriminate. }
      rewrite I, W.
      split; [|split; [|split; [|split]]].
      * split; [intros H; contradiction|].
        intros H. inversion H as [Q]. symmetry in Q. contradiction.
      * split; [reflexivity|intros _; exact C].
      * intros H. contradiction.
      * intros _ M. apply Z.eqb_neq in M. unfold nonzero. rewrite M. reflexivity.
      * intros _ M. unfold nonzero. rewrite M. repeat split.
  - intros E np w t1 t2 win p1 p2 both O Z1 Z2 U DL RT.
    assert (I := two_presses_issued E p1 p2 np w O Z1 Z2 eq_refl eq_refl U).
    cbv zeta in I. fold both in I.
    pose proof (press_move_world E p1 np w O Z1 eq_refl) as W.
    rewrite (unarmed_no_double_click E p1 w U) in W.
    change (XButtonEvent.x p1) with 10 in *. change (XButtonEvent.y p1) with 10 in *.
    change (XButtonEvent.x p2) with 12 in *. change (XButtonEvent.y p2) with 11 in *.
    change (XButtonEvent.time p1) with t1 in *.
    assert (A : move_result E np p1 w = 0 ->
                double_click E p2 (snd (DispatchBorderButtonEvent E p1 np w)) = true
                <-> t2 - t1 <= doubleClickSpeed E).
    { intros M. rewrite W. unfold nonzero. rewrite M. cbn [Z.eqb negb snd].
      rewrite double_click_spec.
      - unfold is_double_click. simpl. rewrite (Z.abs_eq (t2 - t1)) by lia. lia.
      - unfold press_in_range. simpl. rewrite (Z.abs_eq (t2 - t1)) by lia. lia. }
    assert (B : move_result E np p1 w <> 0 ->
                double_click E p2 (snd (DispatchBorderButtonEvent E p1 np w)) = false).
    { intros M. rewrite W. apply Z.eqb_neq in M. unfold nonzero. rewrite M.
      apply unarmed_no_double_click. reflexivity. }
    split; [|split].
    + intros T M. rewrite I. rewrite (proj2 (A M) T). reflexivity.
    + intros T M. rewrite I, (B M). reflexivity.
    + intros T. rewrite I.
      destruct (Z.eq_dec (move_result E np p1 w) 0) as [M|M].
      * pose proof (A M) as AM.
        destruct (double_click E p2 _); [|reflexivity].
        assert (t2 - t1 <= doubleClickSpeed E) by (apply AM; reflexivity). lia.
      * rewrite (B M). reflexivity.
Qed.

(** *** Configure requests *)

Lemma cond_width (m : bool) (v : Z) (np : ClientNode) :
  (if m && negb (v =? width np) then with_width v np else np) =
  with_width (if m then v else width np) np.
Proof.
  destruct np, m; simpl; [|reflexivity].
  destruct (Z.eqb_spec v width0); simpl; subst; reflexivity.
Qed.

Lemma cond_height (m : bool) (v : Z) (np : ClientNode) :
  (if m && negb (v =? height np) then with_height v np else np) =
  with_height (if m then v else height np) np.
Proof.
  destruct np, m; simpl; [|reflexivity].
  destruct (Z.eqb_spec v height0); simpl; subst; reflexivity.
Qed.

Lemma cond_x (m : bool) (v : Z) (np : ClientNode) :
  (if m && negb (v =? x np) then with_x v np else np) =
  with_x (if m then v else x np) np.
Proof.
  destruct np, m; simpl; [|reflexivity].
  destruct (Z.eqb_spec v x0); simpl; subst; reflexivity.
Qed.

Lemma cond_y (m : bool) (v : Z) (np : ClientNode) :
  (if m && negb (v =? y np) then with_y v np else np) =
  with_y (if m then v else y np) np.
Proof.
  destruct np, m; simpl; [|reflexivity].
  destruct (Z.eqb_spec v y0); simpl; subst; reflexivity.
Qed.

Lemma assign_requested_node (event : XConfigureRequestEvent.t) (np : ClientNode) :
  fst (assign_requested event np) = requested event np.
Proof.
  unfold assign_requested, requested. cbv zeta. cbn [fst].
  rewrite cond_width, cond_height, cond_x, cond_y.
  destruct np. reflexivity.
Qed.

Lemma insets_requested (E : Env) (event : XConfigureRequestEvent.t) (np : ClientNode) :
  insets E (requested event np) = insets E np.
Proof. reflexivity. Qed.

Lemma HandleConfigureRequest_managed
  (E : Env) (event : XConfigureRequestEvent.t) (w : World) (np : ClientNode) :
  fst (FindClientByWindow (XConfigureRequestEvent.window event) w) = Some np ->
  window np = XConfigureRequestEvent.window event ->
  let mask := XConfigureRequestEvent.value_mask event in
  let r := requested event np in
  let cs := replaced np r (clients w) in
  HandleConfigureRequest E event w =
    (tt,
     if snd (assign_requested event np) then
       with_trace
         (trace w ++ controller_entry np 0 (clients w)
          ++ [mkEntry (Call.JXConfigureWindow (parent np) mask (frame_changes E r)) cs;
              mkEntry (Call.JXConfigureWindow (window np) mask (content_changes E r)) cs])
         (with_clients cs w)
     else with_trace (trace w ++ controller_entry np 0 (clients w))
            (with_clients cs w)).
Proof.
  intros F W. cbv zeta. unfold HandleConfigureRequest. cbv zeta.
  unfold bind at 1. rewrite F. rewrite W, Z.eqb_refl. rewrite <- W.
  unfold bind at 1. rewrite call_controller_world. cbn [fst snd].
  pose proof (assign_requested_node event np) as R.
  destruct (assign_requested event np) as [r changed]. cbn [fst snd] in *.
  subst r.
  destruct changed; cbn [negb].
  - unfold frame_changes, content_changes, north, south, east, west.
    rewrite insets_requested.
    destruct (insets E np) as [[[n s] e] ww] eqn:I.
    unfold bind, update, JXConfigureWindow, log, replaced.
    cbn [fst snd trace clients with_trace with_clients FindClientByWindow].
    rewrite <- !app_assoc. reflexivity.
  - unfold bind, update, skip, ret, replaced. reflexivity.
Qed.

Lemma changed_iff (event : XConfigureRequestEvent.t) (np : ClientNode) :
  snd (assign_requested event np) = false <-> requested event np = np.
Proof.
  unfold assign_requested, requested. cbv zeta. cbn [snd].
  rewrite cond_width, cond_height, cond_x.
  destruct np as [wi pa nx ny nw nh st ba cm ct].
  unfold with_width, with_height, with_x, with_geometry. cbn.
  rewrite !orb_false_iff.
  split.
  - intros [[[Hw Hh] Hx] Hy].
    assert (Qw : (if has (XConfigureRequestEvent.value_mask event) CWWidth
                  then XConfigureRequestEvent.width event else nw) = nw).
    { destruct (has _ CWWidth); [|reflexivity].
      apply negb_false_iff, Z.eqb_eq in Hw. exact Hw. }
    assert (Qh : (if has (XConfigureRequestEvent.value_mask event) CWHeight
                  then XConfigureRequestEvent.height event else nh) = nh).
    { destruct (has _ CWHeight); [|reflexivity].
      apply negb_false_iff, Z.eqb_eq in Hh. exact Hh. }
    assert (Qx : (if has (XConfigureRequestEvent.value_mask event) CWX
                  then XConfigureRequestEvent.x event else nx) = nx).
    { destruct (has _ CWX); [|reflexivity].
      apply negb_false_iff, Z.eqb_eq in Hx. exact Hx. }
    assert (Qy : (if has (XConfigureRequestEvent.value_mask event) CWY
                  then XConfigureRequestEvent.y event else ny) = ny).
    { destruct (has _ CWY); [|reflexivity].
      apply negb_false_iff, Z.eqb_eq in Hy. exact Hy. }
    rewrite Qw, Qh, Qx, Qy. reflexivity.
  - intros Q. inversion Q as [[Qx Qy Qw Qh]].
    repeat split.
    + destruct (has _ CWWidth); [|reflexivity]. rewrite Qw, Z.eqb_refl. reflexivity.
    + destruct (has _ CWHeight); [|reflexivity]. rewrite Qh, Z.eqb_refl. reflexivity.
    + destruct (has _ CWX); [|reflexivity]. rewrite Qx, Z.eqb_refl. reflexivity.
    + destruct (has _ CWY); [|reflexivity]. rewrite Qy, Z.eqb_refl. reflexivity.
Qed.

Lemma insets_nonneg (E : Env) (np : ClientNode) :
  0 <= borderWidth E -> 0 <= titleSize E ->
  0 <= north E np /\ 0 <= south E np /\ 0 <= east E np /\ 0 <= west E np.
Proof.
  intros B T. unfold north, south, east, west, insets.
  destruct (has (border (state np)) BORDER_OUTLINE);
    [destruct (has (border (state np)) BORDER_TITLE)|]; simpl; lia.
Qed.

Lemma HandleConfigureRequest_issued
  (E : Env) (event : XConfigureRequestEvent.t) (w : World) (np : ClientNode) :
  fst (FindClientByWindow (XConfigureRequestEvent.window event) w) = Some np ->
  window np = XConfigureRequestEvent.window event ->
  let mask := XConfigureRequestEvent.value_mask event in
  let r := requested event np in
  issued (HandleConfigureRequest E event) w =
    map call (controller_entry np 0 (clients w)) ++
    if snd (assign_requested event np) then
      [Call.JXConfigureWindow (parent np) mask (frame_changes E r);
       Call.JXConfigureWindow (window np) mask (content_changes E r)]
    else [].
Proof.
  intros F W. cbv zeta.
  pose proof (HandleConfigureRequest_managed E event w np F W) as H. cbv zeta in H.
  destruct (snd (assign_requested event np)).
  - erewrite issued_app by (rewrite H; reflexivity).
    rewrite map_app. reflexivity.
  - erewrite issued_app by (rewrite H; reflexivity).
    rewrite app_nil_r. reflexivity.
Qed.

Lemma controller_entry_no_configure (np : ClientNode) (arg : Z) (cs : list ClientNode) :
  filter is_configure (map call (controller_entry np arg cs)) = [].
Proof. unfold controller_entry. destruct (controller np); reflexivity. Qed.

(** The servers a reconfiguration goes through: the one before, the one
    after the frame step, the one after the content step. *)
Lemma server_after_steps (np : ClientNode) (arg : Z) (cs : list ClientNode)
  (f c : Call.t) (s : Server) (n : nat) :
  let l := map call (controller_entry np arg cs) ++ [f; c] in
  server_after n l s = s \/
  server_after n l s = apply_call f s \/
  server_after n l s = apply_call c (apply_call f s).
Proof.
  cbv zeta. unfold server_after, controller_entry.
  destruct (controller np); simpl.
  - destruct n as [|[|[|n]]]; simpl; auto.
    rewrite firstn_nil. simpl. auto.
  - destruct n as [|[|n]]; simpl; auto.
    rewrite firstn_nil. simpl. auto.
Qed.

Lemma server_after_controller (np : ClientNode) (arg : Z) (cs : list ClientNode)
  (s : Server) (n : nat) :
  server_after n (map call (controller_entry np arg cs)) s = s.
Proof.
  unfold server_after, controller_entry.
  destruct (controller np); simpl.
  - destruct n as [|n]; simpl; [reflexivity|]. rewrite firstn_nil. reflexivity.
  - rewrite firstn_nil. reflexivity.
Qed.

Lemma frame_step_keeps_content_inside
  (E : Env) (event : XConfigureRequestEvent.t) (np : ClientNode) (s : Server) :
  let mask := XConfigureRequestEvent.value_mask event in
  let r := requested event np in
  0 <= borderWidth E -> 0 <= titleSize E ->
  within_frame s np ->
  (has mask CWWidth = true ->
   g_width (s (window np)) <= XConfigureRequestEvent.width event) ->
  (has mask CWHeight = true ->
   g_height (s (window np)) <= XConfigureRequestEvent.height event) ->
  within_frame
    (apply_call (Call.JXConfigureWindow (parent np) mask (frame_changes E r)) s) np.
Proof.
  cbv zeta. intros B T [IW IH] GW GH.
  destruct (insets_nonneg E (requested event np) B T) as [N [S [EA WE]]].
  unfold within_frame, apply_call. rewrite Z.eqb_refl.
  destruct (window np =? parent np) eqn:Q.
  - apply Z.eqb_eq in Q. rewrite Q. lia.
  - unfold configure, frame_changes.
    cbn [wc_width wc_height g_width g_height].
    remember (north E (requested event np)) as n'.
    remember (south E (requested event np)) as s'.
    remember (east E (requested event np)) as e'.
    remember (west E (requested event np)) as w'.
    unfold requested. simpl.
    destruct (has (XConfigureRequestEvent.value_mask event) CWWidth);
      destruct (has (XConfigureRequestEvent.value_mask event) CWHeight);
      try specialize (GW eq_refl); try specialize (GH eq_refl); lia.
Qed.

Lemma both_steps_keep_content_inside
  (E : Env) (event : XConfigureRequestEvent.t) (np : ClientNode) (s : Server) :
  let mask := XConfigureRequestEvent.value_mask event in
  let r := requested event np in
  0 <= borderWidth E -> 0 <= titleSize E ->
  within_frame s np ->
  within_frame
    (apply_call (Call.JXConfigureWindow (window np) mask (content_changes E r))
       (apply_call (Call.JXConfigureWindow (parent np) mask (frame_changes E r)) s))
    np.
Proof.
  cbv zeta. intros B T [IW IH].
  destruct (insets_nonneg E (requested event np) B T) as [N [S [EA WE]]].
  unfold within_frame, apply_call. rewrite !Z.eqb_refl.
  destruct (parent np =? window np) eqn:Q.
  - apply Z.eqb_eq in Q. rewrite Q, !Z.eqb_refl. lia.
  - rewrite Z.eqb_sym in Q. rewrite Q.
    unfold configure, frame_changes, content_changes.
    cbn [wc_width wc_height g_width g_height].
    remember (north E (requested event np)) as n'.
    remember (south E (requested event np)) as s'.
    remember (east E (requested event np)) as e'.
    remember (west E (requested event np)) as w'.
    unfold requested. simpl.
    destruct (has (XConfigureRequestEvent.value_mask event) CWWidth);
      destruct (has (XConfigureRequestEvent.value_mask event) CWHeight); lia.
Qed.

(** C2, as the code has it: a configure request for the content window of a
    managed client is answered, when a requested field differs from the
    client's, by two configure calls in a fixed order - first the decoration
    window, sized to the content size plus the border insets, then the
    content window - and by none when nothing differs.  With non-negative
    insets, a content window that was not larger than its frame is not
    larger after the two steps; and when the request does not make the
    content window smaller than the server has it, it is not larger than
    the frame after any single step either. *)
Theorem configure_request_frame_then_content
  (E : Env) (event : XConfigureRequestEvent.t) (w : World) (np : ClientNode)
  (s : Server) :
  fst (FindClientByWindow (XConfigureRequestEvent.window event) w) = Some np ->
  window np = XConfigureRequestEvent.window event ->
  0 <= borderWidth E -> 0 <= titleSize E ->
  within_frame s np ->
  let H := HandleConfigureRequest E event in
  let mask := XConfigureRequestEvent.value_mask event in
  let r := requested event np in
  let frame_step := Call.JXConfigureWindow (parent np) mask (frame_changes E r) in
  let content_step := Call.JXConfigureWindow (window np) mask (content_changes E r) in
  (r = np -> filter is_configure (issued H w) = []) /\
  (r <> np -> filter is_configure (issued H w) = [frame_step; content_step]) /\
  (wc_width (frame_changes E r) = wc_width (content_changes E r) + east E np + west E np /\
   wc_height (frame_changes E r)
     = wc_height (content_changes E r) + north E np + south E np) /\
  within_frame (server_after (length (issued H w)) (issued H w) s) np /\
  ((has mask CWWidth = true ->
    g_width (s (window np)) <= XConfigureRequestEvent.width event) ->
   (has mask CWHeight = true ->
    g_height (s (window np)) <= XConfigureRequestEvent.height event) ->
   forall n, within_frame (server_after n (issued H w) s) np).
Proof.
  intros F W B T I. cbv zeta.
  pose proof (HandleConfigureRequest_issued E event w np F W) as Q. cbv zeta in Q.
  pose proof (changed_iff event np) as C.
  rewrite Q.
  destruct (snd (assign_requested event np)) eqn:CH.
  - assert (N : requested event np <> np).
    { intros R. apply C in R. discriminate. }
    split; [intros R; contradiction|].
    split; [intros _; rewrite filter_app, controller_entry_no_configure; reflexivity|].
    split; [split; reflexivity|].
    split.
    + unfold server_after. rewrite firstn_all, fold_left_app.
      fold (server_after (length (map call (controller_entry np 0 (clients w))))
              (map call (controller_entry np 0 (clients w))) s).
      assert (SC := server_after_controller np 0 (clients w) s
                (length (map call (controller_entry np 0 (clients w))))).
      unfold server_after in SC. rewrite firstn_all in SC. rewrite SC. simpl.
      apply both_steps_keep_content_inside; assumption.
    + intros GW GH n.
      destruct (server_after_steps np 0 (clients w)
                  (Call.JXConfigureWindow (parent np)
                     (XConfigureRequestEvent.value_mask event)
                     (frame_changes E (requested event np)))
                  (Call.JXConfigureWindow (window np)
                     (XConfigureRequestEvent.value_mask event)
                     (content_changes E (requested event np))) s n)
        as [S0|[S1|S2]]; cbv zeta in *.
      * rewrite S0. exact I.
      * rewrite S1. apply frame_step_keeps_content_inside; assumption.
      * rewrite S2. apply both_steps_keep_content_inside; assumption.
  - assert (R : requested event np = np) by (apply C; reflexivity).
    rewrite app_nil_r.
    split; [intros _; apply controller_entry_no_configure|].
    split; [intros N; contradiction|].
    split; [split; reflexivity|].
    split; [|intros _ _ n]; rewrite server_after_controller; exact I.
Qed.

(** *** The dispatch loop *)

Lemma dispatch_unhandled (E : Env) (ev : XEvent) (w : World) :
  fst (dispatch E ev w) = 0 <-> unhandled_by_all E ev w.
Proof.
  unfold dispatch, unhandled_by_all, bind, ret. cbv zeta. cbn [fst snd].
  set (c := classify E ev (snd (SignalTaskbar w))).
  unfold nonzero.
  destruct (Z.eqb_spec (fst c) 0) as [C|C]; cbn [negb fst snd].
  2:{ destruct (Z.eqb_spec (fst c) 0) as [C'|C']; [contradiction|].
      cbn [negb fst snd].
      destruct (Z.eqb_spec (fst c) 0) as [C''|C'']; [contradiction|].
      cbn [negb fst snd]. rewrite Z.lor_eq_0_iff. tauto. }
  set (t := ProcessTrayEvent E ev (snd c)).
  destruct (Z.eqb_spec (fst t) 0) as [T|T]; cbn [negb fst snd].
  2:{ destruct (Z.eqb_spec (fst t) 0) as [T'|T']; [contradiction|].
      cbn [negb fst snd]. rewrite Z.lor_eq_0_iff. tauto. }
  set (d := ProcessDialogEvent E ev (snd t)).
  destruct (Z.eqb_spec (fst d) 0) as [D|D]; cbn [negb fst snd].
  2:{ rewrite Z.lor_eq_0_iff. tauto. }
  rewrite Z.lor_eq_0_iff. tauto.
Qed.

Lemma loop_test (E : Env) (ev : XEvent) (w : World) :
  nonzero (fst (dispatch E ev w)) && negb (shouldExit (snd (dispatch E ev w))) = false
  <-> unhandled_by_all E ev w \/ shouldExit (snd (dispatch E ev w)) = true.
Proof.
  rewrite <- dispatch_unhandled. generalize (dispatch E ev w).
  intros [f w1]. cbn [fst snd]. unfold nonzero.
  destruct (Z.eqb_spec f 0) as [Q|Q]; destruct (shouldExit w1); cbn;
    split; intros H; auto; try discriminate.
  destruct H as [H|H]; [contradiction|discriminate].
Qed.

(** C1, as the code has it: [WaitForEvent] dispatches the events in arrival
    order and hands back the first one that no layer handled (core handlers,
    then tray, dialogs and swallowed windows each in turn, and the popups)
    or after whose dispatch the shutdown flag is true; every event before it
    was handled and left the flag false.  The flag is only tested after an
    event has been dispatched.  As long as events are handled and the flag
    stays false the loop goes on, and it waits when there are no more: an
    event that is unhandled, or that leaves the flag true, ends the loop at
    once; an event that is handled and leaves the flag false does not. *)
Theorem WaitForEvent_returns (E : Env) :
  (forall incoming w event w' pending,
     WaitForEvent E incoming w = Returned event w' pending <->
     exists handled w0,
       incoming = handled ++ event :: pending /\
       goes_round E handled w = Some w0 /\
       w' = snd (dispatch E event w0) /\
       (unhandled_by_all E event w0 \/ shouldExit w' = true)) /\
  (forall incoming w w',
     WaitForEvent E incoming w = Waiting w' <-> goes_round E incoming w = Some w') /\
  (forall ev pending w,
     unhandled_by_all E ev w \/ shouldExit (snd (dispatch E ev w)) = true ->
     WaitForEvent E (ev :: pending) w = Returned ev (snd (dispatch E ev w)) pending) /\
  (forall ev pending w,
     ~ unhandled_by_all E ev w -> shouldExit (snd (dispatch E ev w)) = false ->
     WaitForEvent E (ev :: pending) w = WaitForEvent E pending (snd (dispatch E ev w))).
Proof.
  split; [|split; [|split]].
  - induction incoming as [|ev rest IH]; intros w event w' pending.
    + cbn [WaitForEvent]. split; [discriminate|].
      intros [handled [w0 [Q _]]]. destruct handled; discriminate.
    + cbn [WaitForEvent]. cbv zeta.
      destruct (nonzero (fst (dispatch E ev w))
                && negb (shouldExit (snd (dispatch E ev w)))) eqn:L.
      * rewrite IH. split.
        -- intros [handled [w0 [Q [G R]]]].
           exists (ev :: handled), w0. cbn [goes_round app]. cbv zeta.
           rewrite L, Q. auto.
        -- intros [handled [w0 [Q [G [W X]]]]].
           destruct handled as [|h handled].
           ++ cbn [goes_round app] in Q, G. inversion Q. inversion G. subst.
              apply loop_test in X. congruence.
           ++ cbn [goes_round app] in Q, G. cbv zeta in G.
              inversion Q. subst. rewrite L in G.
              exists handled, w0. auto.
      * split.
        -- intros R. inversion R. subst.
           exists [], w. cbn [goes_round app]. repeat split.
           apply loop_test. exact L.
        -- intros [handled [w0 [Q [G [W X]]]]].
           destruct handled as [|h handled].
           ++ cbn [goes_round app] in Q, G. inversion Q. inversion G. subst.
              reflexivity.
           ++ cbn [goes_round app] in Q, G. cbv zeta in G.
              inversion Q. subst. rewrite L in G. discriminate.
  - induction incoming as [|ev rest IH]; intros w w'.
    + cbn [WaitForEvent goes_round]. split; intros H; inversion H; reflexivity.
    + cbn [WaitForEvent goes_round]. cbv zeta.
      destruct (nonzero (fst (dispatch E ev w))
                && negb (shouldExit (snd (dispatch E ev w)))).
      * apply IH.
      * split; discriminate.
  - intros ev pending w H. apply loop_test in H.
    cbn [WaitForEvent]. cbv zeta. rewrite H. reflexivity.
  - intros ev pending w U S. cbn [WaitForEvent]. cbv zeta.
    destruct (nonzero (fst (dispatch E ev w))
              && negb (shouldExit (snd (dispatch E ev w)))) eqn:L; [reflexivity|].
    apply loop_test in L. destruct L as [L|L]; [contradiction|congruence].
Qed.

(** ** Concrete runs *)

(** C1: a button press that no layer handles ends the loop although the
    shutdown flag is false before and after: [WaitForEvent] hands the press
    back to its caller. *)
Lemma unhandled_event_ends_loop_without_shutdown :
  let E := Sample.env FOCUS_SLOPPY BA_MOVE 0 0 in
  let w := Sample.world [Sample.client 0 None] in
  let ev := xbutton (Sample.press 10 10 1000) in
  shouldExit w = false /\
  unhandled_by_all E ev w /\
  WaitForEvent E [ev] w = Returned ev (snd (dispatch E ev w)) [] /\
  shouldExit (snd (dispatch E ev w)) = false.
Proof.
  cbv zeta. split; [reflexivity|]. split; [|split; reflexivity].
  unfold unhandled_by_all. cbv zeta. repeat split.
Qed.

(** C4: the detector is armed by a press at (10,10) at server time 100; the
    next press, at the same place, comes at server time [2^32 - 50], more
    than 49 days later and far beyond the time delta of 400 ms.  The
    difference of the two time stamps, converted to [int], is -150, so the
    press passes the time test and toggles the shade instead of starting a
    move. *)
Lemma press_weeks_later_toggles_shade :
  let E := Sample.env FOCUS_SLOPPY BA_MOVE 0 0 in
  let np := Sample.client 0 None in
  let w := mkWorld [np] false 1 100 10 10 true [] in
  let ev := Sample.press 10 10 (2 ^ 32 - 50) in
  has (border (state np)) BORDER_OUTLINE = true /\
  zone_of E np ev = BA_MOVE /\
  XButtonEvent.type ev = ButtonPress /\
  doubleClickSpeed E < XButtonEvent.time ev - lastClickTime w /\
  ~ is_double_click E ev w /\
  ~ press_in_range ev w /\
  issued (DispatchBorderButtonEvent E ev np) w = [Call.ShadeClient 10] /\
  issued (DispatchBorderButtonEvent E ev np) w <> [Call.MoveClient 10 10 10].
Proof.
  cbv zeta. split; [reflexivity|]. split; [reflexivity|]. split; [reflexivity|].
  split; [reflexivity|]. split; [|split; [|split]].
  - intros [_ [T _]]. apply T. reflexivity.
  - intros [T _]. revert T. apply Z.le_ngt. discriminate.
  - reflexivity.
  - discriminate.
Qed.

(** C2: the sample client, 100 wide in a frame 108 wide, is asked to become
    50 wide.  The first of the two steps shrinks the frame to 58 while the
    content window is still 100 wide. *)
Lemma shrinking_request_leaves_content_larger :
  let E := Sample.env FOCUS_SLOPPY BA_NONE 0 0 in
  let np := Sample.client 0 None in
  let w := Sample.world [np] in
  let steps := issued (HandleConfigureRequest E (Sample.resize_width 50)) w in
  fst (FindClientByWindow 10 w) = Some np /\
  within_frame Sample.server np /\
  nth_error steps 0 =
    Some (Call.JXConfigureWindow 11 CWWidth (mkXWindowChanges 5 5 58 124 0 11 Above)) /\
  g_width (server_after 1 steps Sample.server 10) = 100 /\
  g_width (server_after 1 steps Sample.server 11) = 58 /\
  ~ within_frame (server_after 1 steps Sample.server) np.
Proof.
  cbv zeta. split; [reflexivity|]. split; [split; discriminate|].
  split; [reflexivity|]. split; [reflexivity|]. split; [reflexivity|].
  intros [H _]. vm_compute in H. apply H. reflexivity.
Qed.

(** C10: an expose event with count 1 on the content window of a dialog
    client is reported handled. *)
Lemma expose_with_count_on_dialog_is_handled :
  let np := Sample.client STAT_WMDIALOG None in
  let w := Sample.world [np] in
  has (status (state np)) STAT_WMDIALOG = true /\
  fst (FindClientByWindow 10 w) = Some np /\
  window np = 10 /\
  HandleExpose (XExposeEvent.mk 10 1) w = (1, w).
Proof. cbv zeta. repeat split. Qed.

(** A request that widens the sample client from 100 to 150: the content
    window is within its frame after every step. *)
Lemma configure_request_frame_then_content_witness :
  let E := Sample.env FOCUS_SLOPPY BA_NONE 0 0 in
  let np := Sample.client 0 None in
  let w := Sample.world [np] in
  let ev := Sample.resize_width 150 in
  (fst (FindClientByWindow (XConfigureRequestEvent.window ev) w) = Some np /\
   window np = XConfigureRequestEvent.window ev /\
   0 <= borderWidth E /\ 0 <= titleSize E /\
   within_frame Sample.server np) /\
  forall n,
    within_frame
      (server_after n (issued (HandleConfigureRequest E ev) w) Sample.server) np.
Proof.
  cbv zeta.
  assert (F : fst (FindClientByWindow
                     (XConfigureRequestEvent.window (Sample.resize_width 150))
                     (Sample.world [Sample.client 0 None]))
              = Some (Sample.client 0 None)) by reflexivity.
  assert (W : window (Sample.client 0 None)
              = XConfigureRequestEvent.window (Sample.resize_width 150))
    by reflexivity.
  assert (B : 0 <= borderWidth (Sample.env FOCUS_SLOPPY BA_NONE 0 0))
    by discriminate.
  assert (T : 0 <= titleSize (Sample.env FOCUS_SLOPPY BA_NONE 0 0))
    by discriminate.
  assert (I : within_frame Sample.server (Sample.client 0 None))
    by (split; discriminate).
  split; [repeat split; assumption|].
  refine (proj2 (proj2 (proj2 (proj2
    (configure_request_frame_then_content _ _ _ _ _ F W B T I)))) _ _).
  - intros _. discriminate.
  - intros H. discriminate.
Defined.

(** The sample client with controller 7 is destroyed and then unmapped: the
    controller is called once, with 1. *)
Lemma controller_told_before_removal_witness :
  let np := Sample.client 0 (Some 7) in
  let w := Sample.world [np] in
  (fst (FindClientByWindow (window np) w) = Some np /\
   controller np = Some 7 /\
   registry_ok (clients w)) /\
  filter is_controller
    (issued (HandleDestroyNotify (XDestroyWindowEvent.mk (window np)) ;;
             HandleUnmapNotify (XUnmapEvent.mk (window np))) w)
  = [Call.controller (window np) 7 1].
Proof.
  cbv zeta.
  assert (F : fst (FindClientByWindow (window (Sample.client 0 (Some 7)))
                     (Sample.world [Sample.client 0 (Some 7)]))
              = Some (Sample.client 0 (Some 7))) by reflexivity.
  assert (C : controller (Sample.client 0 (Some 7)) = Some 7) by reflexivity.
  assert (OK : registry_ok (clients (Sample.world [Sample.client 0 (Some 7)]))).
  { intros a b [Ha|[]] [Hb|[]] _. rewrite <- Ha, <- Hb. reflexivity. }
  split; [repeat split; assumption|].
  exact (proj1 (proj2 (proj2 (proj2
    (controller_told_before_removal _ _ _ F C OK))))).
Defined.

(** A press at (12,11), 200 ms after an armed press at (10,10), toggles the
    shade; so does the second of the two presses made from an unarmed
    detector when the first was a pure click. *)
Lemma double_click_toggles_shade_witness :
  let E := Sample.env FOCUS_SLOPPY BA_MOVE 0 0 in
  let np := Sample.client 0 None in
  let armed := mkWorld [np] false 1 1000 10 10 true [] in
  let second := Sample.press 12 11 1200 in
  ((has (border (state np)) BORDER_OUTLINE = true /\
    zone_of E np second = BA_MOVE /\
    XButtonEvent.type second = ButtonPress /\
    press_in_range second armed /\
    is_double_click E second armed) /\
   issued (DispatchBorderButtonEvent E second np) armed = [toggle_call np]) /\
  ((zone_of E np (Sample.press 10 10 1000) = BA_MOVE /\
    doubleClickActive (Sample.world [np]) = false /\
    2 <= doubleClickDelta E /\
    0 <= 1200 - 1000 < 2 ^ 31 /\
    1200 - 1000 <= doubleClickSpeed E /\
    move_result E np (Sample.press 10 10 1000) (Sample.world [np]) = 0) /\
   issued (DispatchBorderButtonEvent E (Sample.press 10 10 1000) np ;;
           DispatchBorderButtonEvent E (Sample.press 12 11 1200) np)
     (Sample.world [np])
   = [Call.MoveClient (window np) 10 10; toggle_call np]).
Proof.
  cbv zeta.
  pose (E := Sample.env FOCUS_SLOPPY BA_MOVE 0 0).
  pose (np := Sample.client 0 None).
  pose (armed := mkWorld [np] false 1 1000 10 10 true []).
  assert (O : has (border (state np)) BORDER_OUTLINE = true) by reflexivity.
  assert (Z2 : zone_of E np (Sample.press 12 11 1200) = BA_MOVE) by reflexivity.
  assert (Z1 : zone_of E np (Sample.press 10 10 1000) = BA_MOVE) by reflexivity.
  assert (P : XButtonEvent.type (Sample.press 12 11 1200) = ButtonPress)
    by reflexivity.
  assert (R : press_in_range (Sample.press 12 11 1200) armed)
    by (repeat split).
  assert (DC : is_double_click E (Sample.press 12 11 1200) armed)
    by (repeat split; discriminate).
  assert (U : doubleClickActive (Sample.world [np]) = false) by reflexivity.
  assert (DL : 2 <= doubleClickDelta E) by discriminate.
  assert (RT : 0 <= 1200 - 1000 < 2 ^ 31) by (split; [discriminate|reflexivity]).
  assert (T : 1200 - 1000 <= doubleClickSpeed E) by discriminate.
  assert (M : move_result E np (Sample.press 10 10 1000) (Sample.world [np]) = 0)
    by reflexivity.
  split.
  - split; [repeat split; assumption|].
    exact (proj1 (proj1 (proj1 double_click_toggles_shade
                           E (Sample.press 12 11 1200) np armed O Z2 P R)) DC).
  - split; [repeat split; assumption|].
    exact (proj1 (proj2 double_click_toggles_shade
                    E np (Sample.world [np]) 1000 1200 11 O Z1 Z2 U DL RT) T M).
Defined.

(** A release in the close zone of the sample client calls [DeleteClient]. *)
Lemma border_button_dispatch_witness :
  let E := Sample.env FOCUS_SLOPPY BA_CLOSE 0 0 in
  let np := Sample.client 0 None in
  let w := Sample.world [np] in
  let ev := Sample.release 100 10 1000 in
  (has (border (state np)) BORDER_OUTLINE = true /\
   zone_of E np ev = BA_CLOSE /\
   XButtonEvent.type ev = ButtonRelease) /\
  In (Call.DeleteClient (window np)) (issued (DispatchBorderButtonEvent E ev np) w).
Proof.
  cbv zeta.
  assert (H : has (border (state (Sample.client 0 None))) BORDER_OUTLINE = true /\
              zone_of (Sample.env FOCUS_SLOPPY BA_CLOSE 0 0) (Sample.client 0 None)
                (Sample.release 100 10 1000) = BA_CLOSE /\
              XButtonEvent.type (Sample.release 100 10 1000) = ButtonRelease)
    by (repeat split).
  split; [exact H|].
  exact (proj2 (proj1 (proj2 (proj2 (proj2 (proj2
    (border_button_dispatch (Sample.env FOCUS_SLOPPY BA_CLOSE 0 0)
       (Sample.release 100 10 1000) (Sample.client 0 None)
       (Sample.world [Sample.client 0 None]))))))) H).
Defined.

(** The sticky sample client is assigned desktop 2 of 4. *)
Lemma desktop_assignment_in_range_only_witness :
  let E := Sample.env FOCUS_SLOPPY BA_NONE 0 0 in
  let np := Sample.client STAT_STICKY None in
  let w := Sample.world [np] in
  let ev := XClientMessageEvent.mk 10 103 2 0 0 in
  (atoms_distinct E /\
   XClientMessageEvent.message_type ev = atoms E ATOM_NET_WM_DESKTOP /\
   fst (FindClientByWindow (XClientMessageEvent.window ev) w) = Some np /\
   XClientMessageEvent.l0 ev <> -1 /\
   0 <= XClientMessageEvent.l0 ev < desktopCount E) /\
  clients (snd (HandleClientMessage E ev w)) = on_desktop 2 np (unstuck np (clients w)).
Proof.
  cbv zeta.
  assert (D : atoms_distinct (Sample.env FOCUS_SLOPPY BA_NONE 0 0)).
  { intros a b. destruct a, b; intros H; try reflexivity; discriminate H. }
  assert (T : XClientMessageEvent.message_type (XClientMessageEvent.mk 10 103 2 0 0)
              = atoms (Sample.env FOCUS_SLOPPY BA_NONE 0 0) ATOM_NET_WM_DESKTOP)
    by reflexivity.
  assert (F : fst (FindClientByWindow
                     (XClientMessageEvent.window (XClientMessageEvent.mk 10 103 2 0 0))
                     (Sample.world [Sample.client STAT_STICKY None]))
              = Some (Sample.client STAT_STICKY None)) by reflexivity.
  assert (S : XClientMessageEvent.l0 (XClientMessageEvent.mk 10 103 2 0 0) <> -1)
    by discriminate.
  assert (R : 0 <= XClientMessageEvent.l0 (XClientMessageEvent.mk 10 103 2 0 0)
              < desktopCount (Sample.env FOCUS_SLOPPY BA_NONE 0 0))
    by (split; [discriminate|reflexivity]).
  split; [repeat split; try assumption; apply R|].
  exact (proj1 (proj1 (proj2
    (desktop_assignment_in_range_only _ _ _ _ D T F S)) R)).
Defined.

(** A new colormap 77 for the sample client. *)
Lemma colormap_change_only_when_new_witness :
  let np := Sample.client 0 None in
  let w := Sample.world [np] in
  let ev := XColormapEvent.mk 10 77 True_ in
  let c := hd np (clients (snd (HandleColormapChange ev w))) in
  (XColormapEvent.new ev = True_ /\
   fst (FindClientByWindow (XColormapEvent.window ev) w) = Some np /\
   In c (clients (snd (HandleColormapChange ev w))) /\
   window c = window np) /\
  cmap c = 77.
Proof.
  cbv zeta.
  assert (N : XColormapEvent.new (XColormapEvent.mk 10 77 True_) = True_)
    by reflexivity.
  assert (F : fst (FindClientByWindow
                     (XColormapEvent.window (XColormapEvent.mk 10 77 True_))
                     (Sample.world [Sample.client 0 None]))
              = Some (Sample.client 0 None)) by reflexivity.
  assert (I : In (hd (Sample.client 0 None)
                    (clients (snd (HandleColormapChange
                                     (XColormapEvent.mk 10 77 True_)
                                     (Sample.world [Sample.client 0 None])))))
                (clients (snd (HandleColormapChange
                                 (XColormapEvent.mk 10 77 True_)
                                 (Sample.world [Sample.client 0 None])))))
    by (left; reflexivity).
  assert (Q : window (hd (Sample.client 0 None)
                        (clients (snd (HandleColormapChange
                                         (XColormapEvent.mk 10 77 True_)
                                         (Sample.world [Sample.client 0 None])))))
              = window (Sample.client 0 None)) by reflexivity.
  split; [repeat (split; [assumption|]); assumption|].
  exact (proj1 (proj2 (proj2 (proj1 (colormap_change_only_when_new
                                       (XColormapEvent.mk 10 77 True_)
                                       (Sample.world [Sample.client 0 None]))
                                (Sample.client 0 None) N F))) _ I Q).
Defined.

(** The close key with no focused client. *)
Lemma key_command_without_target_witness :
  let E := Sample.env FOCUS_SLOPPY BA_NONE KEY_CLOSE 0 in
  let w := Sample.world [Sample.client 0 None] in
  let ev := XKeyEvent.mk 10 10 0 0 in
  (client_command (Z.land (GetKey E ev) 255) /\
   focusModel E = FOCUS_SLOPPY /\ fst (GetActiveClient w) = None) /\
  HandleKeyPress E ev w = (tt, w).
Proof.
  cbv zeta.
  assert (C : client_command
                (Z.land (GetKey (Sample.env FOCUS_SLOPPY BA_NONE KEY_CLOSE 0)
                           (XKeyEvent.mk 10 10 0 0)) 255))
    by (left; reflexivity).
  assert (T : focusModel (Sample.env FOCUS_SLOPPY BA_NONE KEY_CLOSE 0) = FOCUS_SLOPPY /\
              fst (GetActiveClient (Sample.world [Sample.client 0 None])) = None)
    by (split; reflexivity).
  split; [split; [exact C|exact T]|].
  exact (key_command_without_target _ _ _ C (or_intror T)).
Defined.

(** Unmap and destroy notifications for the frame (11) of the sample client. *)
Lemma unmap_destroy_not_content_window_witness :
  let np := Sample.client 0 None in
  let w := Sample.world [np] in
  (fst (FindClientByWindow 11 w) = Some np /\ window np <> 11) /\
  HandleUnmapNotify (XUnmapEvent.mk 11) w = (tt, w) /\
  HandleDestroyNotify (XDestroyWindowEvent.mk 11) w = (0, w).
Proof.
  cbv zeta.
  assert (F : fst (FindClientByWindow 11 (Sample.world [Sample.client 0 None]))
              = Some (Sample.client 0 None)) by reflexivity.
  assert (N : window (Sample.client 0 None) <> 11) by discriminate.
  split; [split; assumption|].
  exact (unmap_destroy_not_content_window 11 _ _ F N).
Defined.

(** An expose event with count 0 on the content window of a dialog. *)
Lemma dialog_events_left_to_collaborator_witness :
  let E := Sample.env FOCUS_SLOPPY BA_NONE 0 0 in
  let np := Sample.client STAT_WMDIALOG None in
  let w := Sample.world [np] in
  let ev := XExposeEvent.mk 10 0 in
  (fst (FindClientByWindow (XExposeEvent.window ev) w) = Some np /\
   XExposeEvent.window ev = window np /\
   window np <> parent np /\
   has (status (state np)) STAT_WMDIALOG = true /\
   XExposeEvent.count ev = 0) /\
  HandleExpose ev w = (0, w).
Proof.
  cbv zeta.
  assert (F : fst (FindClientByWindow (XExposeEvent.window (XExposeEvent.mk 10 0))
                     (Sample.world [Sample.client STAT_WMDIALOG None]))
              = Some (Sample.client STAT_WMDIALOG None)) by reflexivity.
  assert (W : XExposeEvent.window (XExposeEvent.mk 10 0)
              = window (Sample.client STAT_WMDIALOG None)) by reflexivity.
  assert (P : window (Sample.client STAT_WMDIALOG None)
              <> parent (Sample.client STAT_WMDIALOG None)) by discriminate.
  assert (D : has (status (state (Sample.client STAT_WMDIALOG None))) STAT_WMDIALOG
              = true) by reflexivity.
  assert (C : XExposeEvent.count (XExposeEvent.mk 10 0) = 0) by reflexivity.
  split; [repeat split; assumption|].
  exact (proj1 (proj2 (dialog_events_left_to_collaborator
                  (Sample.env FOCUS_SLOPPY BA_NONE 0 0)
                  (Sample.world [Sample.client STAT_WMDIALOG None])
                  (Sample.client STAT_WMDIALOG None))) _ F W P D C).
Defined.

(** A button press that no layer handles is handed back at once. *)
Lemma WaitForEvent_returns_witness :
  let E := Sample.env FOCUS_SLOPPY BA_MOVE 0 0 in
  let w := Sample.world [Sample.client 0 None] in
  let ev := xbutton (Sample.press 10 10 1000) in
  unhandled_by_all E ev w /\
  WaitForEvent E [ev] w = Returned ev (snd (dispatch E ev w)) [].
Proof.
  cbv zeta.
  assert (U : unhandled_by_all (Sample.env FOCUS_SLOPPY BA_MOVE 0 0)
                (xbutton (Sample.press 10 10 1000))
                (Sample.world [Sample.client 0 None]))
    by (unfold unhandled_by_all; cbv zeta; repeat split).
  split; [exact U|].
  exact (proj1 (proj2 (proj2
    (WaitForEvent_returns (Sample.env FOCUS_SLOPPY BA_MOVE 0 0))))
    _ [] _ (or_introl U)).
Defined.

(** ** Further properties of event.c *)

(** *** Events for windows nobody manages *)

Lemma unknown_window_unknown_frame (id : Window) (w : World) :
  fst (FindClientByWindow id w) = None -> fst (FindClientByParent id w) = None.
Proof.
  unfold FindClientByWindow, FindClientByParent. cbn [fst].
  destruct (find (fun c => window c =? id) (clients w)); [discriminate|auto].
Qed.

(** An event whose window resolves to no client is ignored: client messages,
    unmap, colormap, enter, leave and motion events leave the world as it
    was and call nothing; a destroy notification and an expose event (count
    0) are reported unhandled, a property change of a window other than the
    root handled, again with nothing changed. *)
Theorem unknown_window_events_ignored (E : Env) (id : Window) (w : World) :
  fst (FindClientByWindow id w) = None ->
  (forall e, XClientMessageEvent.window e = id -> HandleClientMessage E e w = (tt, w)) /\
  (forall e, XUnmapEvent.window e = id -> HandleUnmapNotify e w = (tt, w)) /\
  (forall e, XDestroyWindowEvent.window e = id -> HandleDestroyNotify e w = (0, w)) /\
  (forall e, XColormapEvent.window e = id -> HandleColormapChange e w = (tt, w)) /\
  (forall e, XCrossingEvent.window e = id ->
     HandleEnterNotify E e w = (tt, w) /\ HandleLeaveNotify e w = (tt, w)) /\
  (forall e, XMotionEvent.window e = id -> HandleMotionNotify E e w = (tt, w)) /\
  (forall e, XExposeEvent.window e = id -> XExposeEvent.count e = 0 ->
     HandleExpose e w = (0, w)) /\
  (forall e, XPropertyEvent.window e = id -> id <> rootWindow E ->
     HandlePropertyNotify E e w = (1, w)).
Proof.
  intros F. pose proof (unknown_window_unknown_frame id w F) as P.
  repeat split.
  - intros e W. unfold HandleClientMessage. cbv zeta. unfold bind at 1.
    rewrite W, F. reflexivity.
  - intros e W. unfold HandleUnmapNotify. unfold bind at 1. rewrite W, F.
    reflexivity.
  - intros e W. unfold HandleDestroyNotify. unfold bind at 1. rewrite W, F.
    reflexivity.
  - intros e W. unfold HandleColormapChange.
    destruct (XColormapEvent.new e =? True_); [|reflexivity].
    unfold bind at 1. rewrite W, F. reflexivity.
  - unfold HandleEnterNotify. unfold bind at 1. rewrite H, F. reflexivity.
  - unfold HandleLeaveNotify. unfold bind at 1. rewrite H, P. reflexivity.
  - intros e W. unfold HandleMotionNotify.
    destruct (nonzero (XMotionEvent.is_hint e)); [reflexivity|].
    unfold bind at 1. rewrite W, P. reflexivity.
  - intros e W C. unfold HandleExpose. rewrite C. cbn [nonzero Z.eqb negb].
    unfold bind at 1. rewrite W, F. reflexivity.
  - intros e W R. unfold HandlePropertyNotify. cbv zeta. unfold bind at 1.
    rewrite W, F. apply Z.eqb_neq in R. rewrite R. reflexivity.
Qed.

(** The sample registry knows no window 99. *)
Lemma unknown_window_events_ignored_witness :
  let E := Sample.env FOCUS_SLOPPY BA_MOVE 0 0 in
  let w := Sample.world [Sample.client 0 None] in
  fst (FindClientByWindow 99 w) = None /\
  HandleDestroyNotify (XDestroyWindowEvent.mk 99) w = (0, w).
Proof.
  cbv zeta.
  assert (F : fst (FindClientByWindow 99 (Sample.world [Sample.client 0 None]))
              = None) by reflexivity.
  split; [exact F|].
  exact (proj1 (proj2 (proj2
    (unknown_window_events_ignored (Sample.env FOCUS_SLOPPY BA_MOVE 0 0) 99 _ F)))
    (XDestroyWindowEvent.mk 99) eq_refl).
Defined.

(** *** What the dispatch loop keeps and what it hands back *)

Lemma dispatch_core_handled (E : Env) (ev : XEvent) (w : World) :
  let c := classify E ev (snd (SignalTaskbar w)) in
  let p := ProcessPopupEvent E ev (snd c) in
  fst c <> 0 -> dispatch E ev w = (Z.lor (fst c) (fst p), snd p).
Proof.
  cbv zeta. intros C. unfold dispatch, bind, ret. cbn [fst snd].
  unfold nonzero. apply Z.eqb_neq in C. rewrite C. cbn [negb fst snd].
  rewrite C. cbn [negb fst snd]. rewrite C. cbn [negb fst snd]. reflexivity.
Qed.

Lemma core_consumed_classified (E : Env) (ev : XEvent) (w : World) :
  core_consumed ev = true -> fst (classify E ev w) = 1.
Proof.
  destruct ev as [e|e|e|e|e|e|e|e|e|e|e|e|e|t]; try discriminate;
    try (intros _; reflexivity).
  destruct t; try discriminate; intros _; reflexivity.
Qed.

(** Configure requests, map requests, client messages, unmap, colormap and
    configure notifications and the create, map, no-expose, reparent and
    graphics-expose notifications are consumed by the core: tray, dialogs
    and swallowed windows are not consulted, only the popups are, and the
    loop goes on with the next event unless the shutdown flag is then set,
    in which case the event is the one handed back. *)
Theorem core_events_consumed
  (E : Env) (ev : XEvent) (pending : list XEvent) (w : World) :
  core_consumed ev = true ->
  let c := classify E ev (snd (SignalTaskbar w)) in
  let p := ProcessPopupEvent E ev (snd c) in
  snd (dispatch E ev w) = snd p /\
  (shouldExit (snd p) = false ->
   WaitForEvent E (ev :: pending) w = WaitForEvent E pending (snd p)) /\
  (shouldExit (snd p) = true ->
   WaitForEvent E (ev :: pending) w = Returned ev (snd p) pending).
Proof.
  intros K. cbv zeta.
  pose proof (core_consumed_classified E ev (snd (SignalTaskbar w)) K) as C.
  assert (D := dispatch_core_handled E ev w). cbv zeta in D.
  rewrite C in D. assert (Q : 1 <> 0) by discriminate. specialize (D Q).
  assert (N : nonzero (Z.lor 1 (fst (ProcessPopupEvent E ev
                (snd (classify E ev (snd (SignalTaskbar w))))))) = true).
  { unfold nonzero. apply negb_true_iff, Z.eqb_neq. rewrite Z.lor_eq_0_iff.
    intros [H _]. discriminate. }
  split; [rewrite D; reflexivity|]. split; intros S;
    cbn [WaitForEvent]; cbv zeta; rewrite D; cbn [fst snd]; rewrite N, S;
    reflexivity.
Qed.

(** A client message to the sample client, nobody requesting shutdown. *)
Lemma core_events_consumed_witness :
  let E := Sample.env FOCUS_SLOPPY BA_MOVE 0 0 in
  let w := Sample.world [Sample.client 0 None] in
  let ev := xunmap (XUnmapEvent.mk 10) in
  core_consumed ev = true /\
  snd (dispatch E ev w)
  = snd (ProcessPopupEvent E ev (snd (classify E ev (snd (SignalTaskbar w))))).
Proof.
  cbv zeta.
  assert (K : core_consumed (xunmap (XUnmapEvent.mk 10)) = true) by reflexivity.
  split; [exact K|].
  exact (proj1 (core_events_consumed (Sample.env FOCUS_SLOPPY BA_MOVE 0 0)
                  (xunmap (XUnmapEvent.mk 10)) []
                  (Sample.world [Sample.client 0 None]) K)).
Defined.

Lemma input_event_classified (E : Env) (ev : XEvent) (w : World) :
  input_event ev = true ->
  classify E ev w =
    if shape_event E ev
    then (1, snd (HandleShapeEvent (shape_event_read E ev w) w))
    else (0, w).
Proof.
  intros K. unfold shape_event.
  destruct ev as [e|e|e|e|e|e|e|e|e|e|e|e|e|t]; try discriminate K;
    try (destruct t; try discriminate K);
    unfold classify; destruct (USE_SHAPE E); cbn [andb]; try reflexivity;
    match goal with
    | |- context [haveShape E && ?c] => destruct (haveShape E && c)
    end; reflexivity.
Qed.

Lemma HandleShapeEvent_world (event : XShapeEvent.t) (w : World) :
  snd (HandleShapeEvent event w) =
    with_trace
      (trace w ++
       match fst (FindClientByWindow (XShapeEvent.window event) w) with
       | Some np => [mkEntry (Call.SetShape (window np)) (clients w)]
       | None => []
       end) w.
Proof.
  unfold HandleShapeEvent. unfold bind at 1.
  destruct (fst (FindClientByWindow (XShapeEvent.window event) w));
    [reflexivity|].
  rewrite app_nil_r. destruct w; reflexivity.
Qed.

(** Button, key, crossing and motion events, key releases and events of a
    type the switches do not name all reach the default arm of the core
    switch.  Unless the event is the shape extension's, in a build and on a
    display that have the extension, no handler runs and the world is as it
    was; the event goes to the tray first, and when tray, dialogs, swallowed
    windows and popups all decline it is handed back to the caller, whatever
    the shutdown flag is.  The shape extension's event is consumed by the
    core: it is reported handled, the shape of the client that the window
    read by the handler resolves to, if any, is set again, and the registry
    is left as it was. *)
Theorem input_events_left_to_caller
  (E : Env) (ev : XEvent) (pending : list XEvent) (w : World) :
  input_event ev = true ->
  let w0 := snd (SignalTaskbar w) in
  let t := ProcessTrayEvent E ev w0 in
  let d := ProcessDialogEvent E ev (snd t) in
  let s := ProcessSwallowEvent E ev (snd d) in
  let p := ProcessPopupEvent E ev (snd s) in
  (shape_event E ev = false ->
   classify E ev w0 = (0, w0) /\
   (fst t = 0 -> fst d = 0 -> fst s = 0 -> fst p = 0 ->
    WaitForEvent E (ev :: pending) w = Returned ev (snd p) pending)) /\
  (shape_event E ev = true ->
   fst (classify E ev w0) = 1 /\
   clients (snd (classify E ev w0)) = clients w0 /\
   issued (classify E ev) w0 =
     match fst (FindClientByWindow
                  (XShapeEvent.window (shape_event_read E ev w0)) w0) with
     | Some np => [Call.SetShape (window np)]
     | None => []
     end).
Proof.
  intros K. cbv zeta. split.
  - intros N.
    assert (C : forall v, classify E ev v = (0, v)).
    { intros v. rewrite (input_event_classified E ev v K), N. reflexivity. }
    split; [apply C|]. intros T D S P.
    assert (U : unhandled_by_all E ev w).
    { unfold unhandled_by_all. cbv zeta. rewrite C. cbn [fst snd]. auto. }
    assert (W : snd (dispatch E ev w) =
                snd (ProcessPopupEvent E ev (snd (ProcessSwallowEvent E ev
                  (snd (ProcessDialogEvent E ev
                    (snd (ProcessTrayEvent E ev (snd (SignalTaskbar w)))))))))).
    { unfold dispatch, bind, ret. cbn [fst snd]. rewrite C. cbn [fst snd].
      unfold nonzero. cbn [Z.eqb negb]. rewrite T. cbn [Z.eqb negb fst snd].
      rewrite D. cbn [Z.eqb negb fst snd]. reflexivity. }
    assert (L := proj2 (loop_test E ev w) (or_introl U)).
    cbn [WaitForEvent]. cbv zeta. rewrite L, W. reflexivity.
  - intros Y.
    erewrite issued_app
      by (rewrite (input_event_classified E ev _ K), Y; cbn [snd];
          rewrite HandleShapeEvent_world; reflexivity).
    rewrite (input_event_classified E ev _ K), Y. cbn [fst snd].
    rewrite HandleShapeEvent_world.
    split; [reflexivity|]. split; [reflexivity|].
    destruct (fst (FindClientByWindow
                     (XShapeEvent.window
                        (shape_event_read E ev (snd (SignalTaskbar w))))
                     (snd (SignalTaskbar w)))); reflexivity.
Qed.

(** A focus-in event (type 9, which no switch names) with collaborators that
    decline everything. *)
Lemma input_events_left_to_caller_witness :
  let E := Sample.env FOCUS_SLOPPY BA_MOVE 0 0 in
  let w := Sample.world [Sample.client 0 None] in
  let ev := xany (OtherEvent 9 eq_refl) in
  (input_event ev = true /\ shape_event E ev = false) /\
  classify E ev (snd (SignalTaskbar w)) = (0, snd (SignalTaskbar w)).
Proof.
  cbv zeta.
  assert (K : input_event (xany (OtherEvent 9 eq_refl)) = true) by reflexivity.
  assert (N : shape_event (Sample.env FOCUS_SLOPPY BA_MOVE 0 0)
                (xany (OtherEvent 9 eq_refl)) = false) by reflexivity.
  split; [split; [exact K|exact N]|].
  exact (proj1 (proj1 (input_events_left_to_caller
                         (Sample.env FOCUS_SLOPPY BA_MOVE 0 0)
                         (xany (OtherEvent 9 eq_refl)) []
                         (Sample.world [Sample.client 0 None]) K) N)).
Defined.

(** *** Configure requests and the server's geometry *)

Lemma server_after_all_fold (cs : list Call.t) (s : Server) :
  server_after_all cs s = fold_left (fun s c => apply_call c s) cs s.
Proof. unfold server_after_all, server_after. rewrite firstn_all. reflexivity. Qed.

Lemma server_after_all_controller
  (np : ClientNode) (arg : Z) (cs : list ClientNode) (l : list Call.t) (s : Server) :
  server_after_all (map call (controller_entry np arg cs) ++ l) s
  = server_after_all l s.
Proof.
  rewrite !server_after_all_fold, fold_left_app.
  unfold controller_entry. destruct (controller np); reflexivity.
Qed.

Lemma HandleConfigureRequest_passthrough
  (E : Env) (event : XConfigureRequestEvent.t) (w : World) :
  (forall np, fst (FindClientByWindow (XConfigureRequestEvent.window event) w)
              = Some np ->
              window np <> XConfigureRequestEvent.window event) ->
  HandleConfigureRequest E event w =
    (tt, with_trace
           (trace w ++
            [mkEntry
               (Call.JXConfigureWindow (XConfigureRequestEvent.window event)
                  (XConfigureRequestEvent.value_mask event)
                  (mkXWindowChanges
                     (XConfigureRequestEvent.x event) (XConfigureRequestEvent.y event)
                     (XConfigureRequestEvent.width event)
                     (XConfigureRequestEvent.height event)
                     (XConfigureRequestEvent.border_width event)
                     (XConfigureRequestEvent.above event)
                     (XConfigureRequestEvent.detail event)))
               (clients w)]) w).
Proof.
  intros N. unfold HandleConfigureRequest. cbv zeta. unfold bind at 1.
  destruct (fst (FindClientByWindow (XConfigureRequestEvent.window event) w))
    as [np|] eqn:F; [|reflexivity].
  specialize (N np eq_refl). apply Z.eqb_neq in N. rewrite N. reflexivity.
Qed.

(** A configure request for a window that is not the content window of a
    client is passed on verbatim: the one call issued is the configure call
    for the event's window with the event's mask and the event's position,
    size, border width, sibling and stacking mode; the registry is not
    touched, and on the server the window gets exactly the requested values
    of the fields the mask names while every other window keeps its
    geometry. *)
Theorem configure_request_passed_through
  (E : Env) (event : XConfigureRequestEvent.t) (w : World) (s : Server) :
  let id := XConfigureRequestEvent.window event in
  let mask := XConfigureRequestEvent.value_mask event in
  let H := HandleConfigureRequest E event in
  let s' := server_after_all (issued H w) s in
  (forall np, fst (FindClientByWindow id w) = Some np -> window np <> id) ->
  issued H w =
    [Call.JXConfigureWindow id mask
       (mkXWindowChanges
          (XConfigureRequestEvent.x event) (XConfigureRequestEvent.y event)
          (XConfigureRequestEvent.width event) (XConfigureRequestEvent.height event)
          (XConfigureRequestEvent.border_width event)
          (XConfigureRequestEvent.above event)
          (XConfigureRequestEvent.detail event))] /\
  clients (snd (H w)) = clients w /\
  s' id = mkGeometry
            (if has mask CWX then XConfigureRequestEvent.x event else g_x (s id))
            (if has mask CWY then XConfigureRequestEvent.y event else g_y (s id))
            (if has mask CWWidth then XConfigureRequestEvent.width event
             else g_width (s id))
            (if has mask CWHeight then XConfigureRequestEvent.height event
             else g_height (s id)) /\
  (forall other, other <> id -> s' other = s other).
Proof.
  cbv zeta. intros N.
  pose proof (HandleConfigureRequest_passthrough E event w N) as P.
  erewrite issued_app by (rewrite P; reflexivity).
  rewrite P. cbn [map call snd clients with_trace length].
  split; [reflexivity|]. split; [reflexivity|].
  unfold server_after_all, server_after. cbn [length firstn fold_left apply_call].
  split.
  - rewrite Z.eqb_refl. reflexivity.
  - intros other O. apply Z.eqb_neq in O. rewrite O. reflexivity.
Qed.

(** A request to resize and restack window 99, which nobody manages. *)
Lemma configure_request_passed_through_witness :
  let E := Sample.env FOCUS_SLOPPY BA_NONE 0 0 in
  let w := Sample.world [Sample.client 0 None] in
  let ev := XConfigureRequestEvent.mk 99 0 0 640 480 2 55 1
              (Z.lor CWWidth (Z.lor CWHeight (Z.lor CWSibling CWStackMode))) in
  (forall np, fst (FindClientByWindow 99 w) = Some np -> window np <> 99) /\
  issued (HandleConfigureRequest E ev) w =
    [Call.JXConfigureWindow 99 108 (mkXWindowChanges 0 0 640 480 2 55 1)].
Proof.
  cbv zeta.
  assert (N : forall np,
             fst (FindClientByWindow
                    (XConfigureRequestEvent.window
                       (XConfigureRequestEvent.mk 99 0 0 640 480 2 55 1
                          (Z.lor CWWidth (Z.lor CWHeight (Z.lor CWSibling CWStackMode)))))
                    (Sample.world [Sample.client 0 None])) = Some np ->
             window np <> XConfigureRequestEvent.window
                            (XConfigureRequestEvent.mk 99 0 0 640 480 2 55 1
                               (Z.lor CWWidth
                                  (Z.lor CWHeight (Z.lor CWSibling CWStackMode)))))
    by (intros np H; discriminate H).
  split; [exact N|].
  exact (proj1
    (configure_request_passed_through (Sample.env FOCUS_SLOPPY BA_NONE 0 0)
       (XConfigureRequestEvent.mk 99 0 0 640 480 2 55 1
          (Z.lor CWWidth (Z.lor CWHeight (Z.lor CWSibling CWStackMode))))
       (Sample.world [Sample.client 0 None]) Sample.server N)).
Defined.

(** A configure request for the content window of a managed client keeps
    registry and server in step: the registry records the client with the
    requested values in the fields the mask names, and if the server had the
    geometry the registry recorded before - frame at the client's position,
    content size plus insets, content window at the inset offset - it has
    the geometry the registry records afterwards, whatever the mask. *)
Theorem configure_request_keeps_server_in_sync
  (E : Env) (event : XConfigureRequestEvent.t) (w : World) (np : ClientNode)
  (s : Server) :
  fst (FindClientByWindow (XConfigureRequestEvent.window event) w) = Some np ->
  window np = XConfigureRequestEvent.window event ->
  window np <> parent np ->
  in_sync E s np ->
  let H := HandleConfigureRequest E event in
  let r := requested event np in
  clients (snd (H w)) = replaced np r (clients w) /\
  in_sync E (server_after_all (issued H w) s) r.
Proof.
  intros F W P [SF SC]. cbv zeta.
  pose proof (HandleConfigureRequest_managed E event w np F W) as M.
  pose proof (HandleConfigureRequest_issued E event w np F W) as I.
  cbv zeta in M, I.
  split.
  { rewrite M. destruct (snd (assign_requested event np)); reflexivity. }
  rewrite I, server_after_all_controller.
  destruct (snd (assign_requested event np)) eqn:CH.
  - rewrite server_after_all_fold. cbn [fold_left apply_call].
    unfold in_sync.
    change (parent (requested event np)) with (parent np).
    change (window (requested event np)) with (window np).
    rewrite !Z.eqb_refl.
    assert (Q1 : (parent np =? window np) = false)
      by (apply Z.eqb_neq; congruence).
    assert (Q2 : (window np =? parent np) = false)
      by (apply Z.eqb_neq; congruence).
    rewrite Q1, Q2, SF, SC.
    unfold configure, frame_changes, content_changes.
    cbn [wc_x wc_y wc_width wc_height g_x g_y g_width g_height].
    change (east E (requested event np)) with (east E np).
    change (west E (requested event np)) with (west E np).
    change (north E (requested event np)) with (north E np).
    change (south E (requested event np)) with (south E np).
    unfold requested. cbn [x y width height with_geometry].
    split;
      destruct (has (XConfigureRequestEvent.value_mask event) CWX);
      destruct (has (XConfigureRequestEvent.value_mask event) CWY);
      destruct (has (XConfigureRequestEvent.value_mask event) CWWidth);
      destruct (has (XConfigureRequestEvent.value_mask event) CWHeight);
      reflexivity.
  - apply changed_iff in CH. rewrite CH.
    rewrite server_after_all_fold. split; assumption.
Qed.

(** The sample client, in step with the sample server, is widened to 150. *)
Lemma configure_request_keeps_server_in_sync_witness :
  let E := Sample.env FOCUS_SLOPPY BA_NONE 0 0 in
  let np := Sample.client 0 None in
  let w := Sample.world [np] in
  let ev := Sample.resize_width 150 in
  (fst (FindClientByWindow (XConfigureRequestEvent.window ev) w) = Some np /\
   window np = XConfigureRequestEvent.window ev /\
   window np <> parent np /\
   in_sync E Sample.server np) /\
  in_sync E (server_after_all (issued (HandleConfigureRequest E ev) w) Sample.server)
    (requested ev np).
Proof.
  cbv zeta.
  assert (F : fst (FindClientByWindow
                     (XConfigureRequestEvent.window (Sample.resize_width 150))
                     (Sample.world [Sample.client 0 None]))
              = Some (Sample.client 0 None)) by reflexivity.
  assert (W : window (Sample.client 0 None)
              = XConfigureRequestEvent.window (Sample.resize_width 150))
    by reflexivity.
  assert (P : window (Sample.client 0 None) <> parent (Sample.client 0 None))
    by discriminate.
  assert (S : in_sync (Sample.env FOCUS_SLOPPY BA_NONE 0 0) Sample.server
                (Sample.client 0 None)) by (split; reflexivity).
  split; [repeat split; try assumption; apply S|].
  exact (proj2 (configure_request_keeps_server_in_sync _ _ _ _ _ F W P S)).
Defined.

(** *** Status bits *)

Lemma set_bits_other (v f g : Z) :
  Z.land f g = 0 -> Z.land (set_bits v f) g = Z.land v g.
Proof.
  intros H. unfold set_bits. rewrite Z.land_lor_distr_l, H. apply Z.lor_0_r.
Qed.

Lemma clear_bits_other (v f g : Z) :
  Z.land f g = 0 -> Z.land (clear_bits v f) g = Z.land v g.
Proof.
  intros H. unfold clear_bits. apply Z.bits_inj'. intros n N.
  assert (B : Z.testbit (Z.land f g) n = false) by (rewrite H; apply Z.bits_0).
  rewrite Z.land_spec in B.
  rewrite !Z.land_spec, Z.lnot_spec by exact N.
  destruct (Z.testbit v n), (Z.testbit f n), (Z.testbit g n);
    try reflexivity; discriminate B.
Qed.

Lemma set_bits_has (v f : Z) : has (set_bits v f) f = nonzero f.
Proof.
  unfold has, set_bits. f_equal. apply Z.bits_inj'. intros n N.
  rewrite Z.land_spec, Z.lor_spec.
  destruct (Z.testbit v n), (Z.testbit f n); reflexivity.
Qed.

Lemma mapped_status_flags (v : Z) :
  has (mapped_status v) STAT_MAPPED = true /\
  has (mapped_status v) STAT_MINIMIZED = false /\
  has (mapped_status v) STAT_WITHDRAWN = false /\
  (forall g, Z.land g (Z.lor STAT_MAPPED (Z.lor STAT_MINIMIZED STAT_WITHDRAWN)) = 0 ->
     Z.land (mapped_status v) g = Z.land v g).
Proof.
  unfold mapped_status. repeat split.
  - unfold has at 1. rewrite !clear_bits_other by reflexivity.
    fold (has (set_bits v STAT_MAPPED) STAT_MAPPED). apply set_bits_has.
  - unfold has at 1. rewrite clear_bits_other by reflexivity.
    apply cleared_flag.
  - apply cleared_flag.
  - intros g G.
    assert (D : forall f, Z.land f (Z.lor STAT_MAPPED (Z.lor STAT_MINIMIZED STAT_WITHDRAWN)) = f ->
                Z.land f g = 0).
    { intros f Q. rewrite <- Q, <- Z.land_assoc,
        (Z.land_comm (Z.lor STAT_MAPPED (Z.lor STAT_MINIMIZED STAT_WITHDRAWN)) g), G.
      apply Z.land_0_r. }
    rewrite !clear_bits_other, set_bits_other; auto.
Qed.

(** *** Map requests *)

Lemma remapped_node (c : ClientNode) :
  status_andnot STAT_WITHDRAWN
    (status_andnot STAT_MINIMIZED (status_or STAT_MAPPED c))
  = with_state (with_status (mapped_status (status (state c))) (state c)) c.
Proof. destruct c as [? ? ? ? ? ? [? ? ? ? ? ?] ? ? ?]. reflexivity. Qed.

Lemma three_updates (np : ClientNode) (cs : list ClientNode) :
  map (fun c => if window c =? window np then status_andnot STAT_WITHDRAWN c else c)
    (map (fun c => if window c =? window np then status_andnot STAT_MINIMIZED c else c)
       (map (fun c => if window c =? window np then status_or STAT_MAPPED c else c) cs))
  = remapped np cs.
Proof.
  unfold remapped. rewrite !map_map. apply map_ext. intros c.
  destruct (window c =? window np) eqn:Q.
  - change (window (status_or STAT_MAPPED c)) with (window c). rewrite Q.
    change (window (status_andnot STAT_MINIMIZED (status_or STAT_MAPPED c)))
      with (window c). rewrite Q.
    apply remapped_node.
  - rewrite Q, Q. reflexivity.
Qed.

Lemma HandleMapRequest_registered
  (E : Env) (event : XMapEvent.t) (w : World) (np : ClientNode) :
  fst (FindClientByWindow (XMapEvent.window event) w) = Some np ->
  HandleMapRequest E event w =
    (tt,
     if has (status (state np)) STAT_MAPPED then
       with_trace (trace w ++ [mkEntry Call.RestackClients (clients w)]) w
     else
       let cs := remapped np (clients w) in
       with_trace
         (trace w ++
          [mkEntry (Call.JXMapWindow (window np)) cs;
           mkEntry (Call.JXMapWindow (parent np)) cs;
           mkEntry (Call.RaiseClient (window np)) cs] ++
          (if focus_eqb (focusModel E) FOCUS_CLICK
           then [mkEntry (Call.FocusClient (window np)) cs] else []) ++
          [mkEntry Call.UpdateTaskBar cs; mkEntry Call.UpdatePager cs;
           mkEntry Call.RestackClients cs])
         (with_clients cs w)).
Proof.
  intros F. unfold HandleMapRequest. unfold bind at 1. rewrite F.
  destruct (has (status (state np)) STAT_MAPPED); cbn [negb].
  - reflexivity.
  - cbv zeta. rewrite <- (three_updates np (clients w)).
    destruct (focus_eqb (focusModel E) FOCUS_CLICK);
      unfold bind, update, JXMapWindow, RaiseClient, FocusClient, UpdateTaskBar,
        UpdatePager, RestackClients, skip, ret, log;
      cbn [fst snd trace clients with_trace with_clients FindClientByWindow];
      rewrite <- !app_assoc; reflexivity.
Qed.

Lemma HandleMapRequest_new
  (E : Env) (event : XMapEvent.t) (w : World) :
  fst (FindClientByWindow (XMapEvent.window event) w) = None ->
  let id := XMapEvent.window event in
  HandleMapRequest E event w =
    (tt,
     match AddClientWindow_result E (registering id w) id with
     | Some n =>
       let cs := n :: clients w in
       with_trace
         (trace (registering id w) ++
          (if focus_eqb (focusModel E) FOCUS_CLICK
           then [mkEntry (Call.FocusClient (window n)) cs] else []) ++
          [mkEntry Call.JXUngrabServer cs; mkEntry Call.JXSync cs;
           mkEntry Call.RestackClients cs])
         (with_clients cs w)
     | None =>
       with_trace
         (trace (registering id w) ++
          [mkEntry (Call.JXMapWindow id) (clients w);
           mkEntry Call.JXUngrabServer (clients w);
           mkEntry Call.JXSync (clients w);
           mkEntry Call.RestackClients (clients w)]) w
     end).
Proof.
  intros F. cbv zeta. unfold HandleMapRequest. unfold bind at 1. rewrite F.
  unfold AddClientWindow, JXSync, JXGrabServer, JXUngrabServer, JXMapWindow,
    FocusClient, RestackClients, bind, log, skip, ret.
  cbn [fst snd trace clients with_trace with_clients FindClientByWindow].
  unfold registering, with_trace, with_clients.
  cbn [fst snd trace clients shouldExit showMenuOnRoot lastClickTime lastX lastY
       doubleClickActive].
  rewrite <- !app_assoc. cbn [app].
  destruct (AddClientWindow_result E _ (XMapEvent.window event)) as [n|].
  - destruct (focus_eqb (focusModel E) FOCUS_CLICK);
      cbn [fst snd trace clients shouldExit showMenuOnRoot lastClickTime lastX
           lastY doubleClickActive];
      rewrite <- ?app_assoc; reflexivity.
  - cbn [fst snd trace clients shouldExit showMenuOnRoot lastClickTime lastX
         lastY doubleClickActive].
    rewrite <- ?app_assoc. reflexivity.
Qed.

(** A map request for a window that resolves to a registered client: if the
    client is already mapped, the clients are restacked and nothing else
    happens; otherwise the client's status gets the mapped flag, loses the
    minimized and withdrawn flags and keeps every other flag, the content
    window is mapped before the frame, the client is raised, and it is
    focused exactly under click focus. *)
Theorem map_request_of_registered_client
  (E : Env) (event : XMapEvent.t) (w : World) (np : ClientNode) :
  fst (FindClientByWindow (XMapEvent.window event) w) = Some np ->
  let H := HandleMapRequest E event in
  (has (status (state np)) STAT_MAPPED = true ->
   issued H w = [Call.RestackClients] /\ clients (snd (H w)) = clients w) /\
  (has (status (state np)) STAT_MAPPED = false ->
   clients (snd (H w)) = remapped np (clients w) /\
   (forall c, In c (clients (snd (H w))) -> window c = window np ->
      exists c0, In c0 (clients w) /\ window c0 = window np /\
        has (status (state c)) STAT_MAPPED = true /\
        has (status (state c)) STAT_MINIMIZED = false /\
        has (status (state c)) STAT_WITHDRAWN = false /\
        forall g,
          Z.land g (Z.lor STAT_MAPPED (Z.lor STAT_MINIMIZED STAT_WITHDRAWN)) = 0 ->
          Z.land (status (state c)) g = Z.land (status (state c0)) g) /\
   exists rest,
     issued H w = Call.JXMapWindow (window np) :: Call.JXMapWindow (parent np)
                  :: Call.RaiseClient (window np) :: rest /\
     (In (Call.FocusClient (window np)) rest <-> focusModel E = FOCUS_CLICK)).
Proof.
  intros F. cbv zeta.
  pose proof (HandleMapRequest_registered E event w np F) as W.
  split; intros M; rewrite M in W.
  - split; [|rewrite W; reflexivity].
    apply (issued_app _ _ [mkEntry Call.RestackClients (clients w)]).
    rewrite W. reflexivity.
  - cbv zeta in W. split; [rewrite W; reflexivity|]. split.
    + rewrite W. cbn [snd clients with_trace with_clients].
      intros c I Q. unfold remapped in I. apply in_map_iff in I.
      destruct I as [c0 [R I]].
      assert (Q0 : window c0 = window np).
      { destruct (window c0 =? window np) eqn:K; [apply Z.eqb_eq; exact K|].
        subst c. apply Z.eqb_neq in K. contradiction. }
      exists c0. split; [exact I|]. split; [exact Q0|].
      apply Z.eqb_eq in Q0. rewrite Q0 in R. subst c.
      cbn [state status with_state with_status].
      apply mapped_status_flags.
    + erewrite issued_app by (rewrite W; reflexivity).
      rewrite !map_app. cbn [map call app].
      eexists. split; [reflexivity|].
      destruct (focusModel E); cbn [focus_eqb map call app]; split.
      * intros [H|[H|[H|[]]]]; discriminate H.
      * discriminate.
      * intros _. reflexivity.
      * intros _. left. reflexivity.
Qed.

(** The sample client, minimized and unmapped, is mapped again. *)
Lemma map_request_of_registered_client_witness :
  let E := Sample.env FOCUS_CLICK BA_NONE 0 0 in
  let np := mkClientNode 10 11 5 5 100 100
              (mkClientState STAT_MINIMIZED 3 2 2 0 0) BA_NONE 0 None in
  let w := Sample.world [np] in
  (fst (FindClientByWindow 10 w) = Some np /\
   has (status (state np)) STAT_MAPPED = false) /\
  clients (snd (HandleMapRequest E (XMapEvent.mk 10) w)) = remapped np (clients w).
Proof.
  cbv zeta.
  pose (np := mkClientNode 10 11 5 5 100 100
                (mkClientState STAT_MINIMIZED 3 2 2 0 0) BA_NONE 0 None).
  assert (F : fst (FindClientByWindow (XMapEvent.window (XMapEvent.mk 10))
                     (Sample.world [np])) = Some np) by reflexivity.
  assert (M : has (status (state np)) STAT_MAPPED = false) by reflexivity.
  split; [split; assumption|].
  exact (proj1 (proj2 (map_request_of_registered_client
                         (Sample.env FOCUS_CLICK BA_NONE 0 0)
                         (XMapEvent.mk 10) (Sample.world [np]) np F) M)).
Defined.

(** A map request for a window no client owns asks for the window to be
    registered.  If that fails the window is mapped all the same and the
    registry stays as it was; if it succeeds the new client is registered,
    resolves by its window id, and no unmanaged map is issued. *)
Theorem map_request_of_new_window (E : Env) (event : XMapEvent.t) (w : World) :
  let id := XMapEvent.window event in
  let H := HandleMapRequest E event in
  fst (FindClientByWindow id w) = None ->
  (AddClientWindow_result E (registering id w) id = None ->
   clients (snd (H w)) = clients w /\
   In (Call.JXMapWindow id) (issued H w)) /\
  (forall n, AddClientWindow_result E (registering id w) id = Some n ->
   clients (snd (H w)) = n :: clients w /\
   fst (FindClientByWindow (window n) (snd (H w))) = Some n /\
   ~ In (Call.JXMapWindow id) (issued H w) /\
   (In (Call.FocusClient (window n)) (issued H w) <-> focusModel E = FOCUS_CLICK)).
Proof.
  cbv zeta. intros F.
  pose proof (HandleMapRequest_new E event w F) as W. cbv zeta in W.
  split.
  - intros A. rewrite A in W. split; [rewrite W; reflexivity|].
    erewrite issued_app by (rewrite W; unfold registering;
                            cbn [trace with_trace]; rewrite <- app_assoc;
                            reflexivity).
    cbn [map call app]. right. right. right. left. reflexivity.
  - intros n A. rewrite A in W. cbv zeta in W.
    split; [rewrite W; reflexivity|]. split.
    { rewrite W. unfold FindClientByWindow.
      cbn [fst snd clients with_trace with_clients find].
      rewrite Z.eqb_refl. reflexivity. }
    erewrite issued_app by (rewrite W; unfold registering;
                            cbn [trace with_trace]; rewrite <- app_assoc;
                            reflexivity).
    rewrite !map_app. cbn [map call app].
    destruct (focusModel E); cbn [focus_eqb map call app]; split.
    + intros [H|[H|[H|[H|[H|[H|[]]]]]]]; discriminate H.
    + split; [|discriminate].
      intros [H|[H|[H|[H|[H|[H|[]]]]]]]; discriminate H.
    + intros [H|[H|[H|[H|[H|[H|[H|[]]]]]]]]; discriminate H.
    + split; [reflexivity|]. intros _. right. right. right. left. reflexivity.
Qed.

(** Window 99 cannot be managed by the sample environment. *)
Lemma map_request_of_new_window_witness :
  let E := Sample.env FOCUS_SLOPPY BA_NONE 0 0 in
  let w := Sample.world [Sample.client 0 None] in
  (fst (FindClientByWindow 99 w) = None /\
   AddClientWindow_result E (registering 99 w) 99 = None) /\
  In (Call.JXMapWindow 99) (issued (HandleMapRequest E (XMapEvent.mk 99)) w).
Proof.
  cbv zeta.
  assert (F : fst (FindClientByWindow (XMapEvent.window (XMapEvent.mk 99))
                     (Sample.world [Sample.client 0 None])) = None)
    by reflexivity.
  assert (A : AddClientWindow_result (Sample.env FOCUS_SLOPPY BA_NONE 0 0)
                (registering (XMapEvent.window (XMapEvent.mk 99))
                   (Sample.world [Sample.client 0 None]))
                (XMapEvent.window (XMapEvent.mk 99)) = None) by reflexivity.
  split; [split; assumption|].
  exact (proj2 (proj1 (map_request_of_new_window
                         (Sample.env FOCUS_SLOPPY BA_NONE 0 0)
                         (XMapEvent.mk 99)
                         (Sample.world [Sample.client 0 None]) F) A)).
Defined.

(** Every map request leaves the server ungrabbed: the calls it issues
    contain as many ungrabs as grabs - one of each around a registration,
    none otherwise - and the last thing it does is restack the clients. *)
Theorem map_request_releases_grab (E : Env) (event : XMapEvent.t) (w : World) :
  let cs := issued (HandleMapRequest E event) w in
  occurrences is_grab cs = occurrences is_ungrab cs /\
  (occurrences is_grab cs = 1%nat <->
   fst (FindClientByWindow (XMapEvent.window event) w) = None) /\
  last cs Call.JXGrabServer = Call.RestackClients.
Proof.
  cbv zeta.
  destruct (fst (FindClientByWindow (XMapEvent.window event) w)) as [np|] eqn:F.
  - pose proof (HandleMapRequest_registered E event w np F) as W.
    destruct (has (status (state np)) STAT_MAPPED).
    + erewrite issued_app by (rewrite W; reflexivity).
      cbv. repeat split; discriminate.
    + cbv zeta in W. erewrite issued_app by (rewrite W; reflexivity).
      destruct (focus_eqb (focusModel E) FOCUS_CLICK); cbv;
        repeat split; discriminate.
  - pose proof (HandleMapRequest_new E event w F) as W. cbv zeta in W.
    destruct (AddClientWindow_result E _ _) as [n|].
    + cbv zeta in W.
      erewrite issued_app by (rewrite W; unfold registering;
                              cbn [trace with_trace]; rewrite <- app_assoc;
                              reflexivity).
      destruct (focus_eqb (focusModel E) FOCUS_CLICK); cbv;
        repeat split; reflexivity.
    + erewrite issued_app by (rewrite W; unfold registering;
                              cbn [trace with_trace]; rewrite <- app_assoc;
                              reflexivity).
      cbv. repeat split; reflexivity.
Qed.

(** *** Buttons off the border *)

(** Whether a click on the root window opens the root menu is decided by
    the last [SetShowMenuOnRoot]: after [SetShowMenuOnRoot v] a button event
    on the root window (an id that is no client's frame) shows the root menu
    at the pointer position if [v] is not 0 and nothing if it is; the pager
    is refreshed in both cases and the registry is not touched. *)
Theorem root_menu_follows_toggle
  (E : Env) (event : XButtonEvent.t) (v : Z) (w : World) :
  XButtonEvent.window event = rootWindow E ->
  fst (FindClientByParent (rootWindow E) w) = None ->
  let run := SetShowMenuOnRoot v ;; HandleButtonEvent E event in
  issued run w =
    (if v =? 0 then []
     else [Call.ShowRootMenu (XButtonEvent.x event) (XButtonEvent.y event)])
    ++ [Call.UpdatePager] /\
  clients (snd (run w)) = clients w /\
  showMenuOnRoot (snd (run w)) = v.
Proof.
  intros R F. cbv zeta.
  assert (W : snd ((SetShowMenuOnRoot v ;; HandleButtonEvent E event) w) =
              with_trace
                (trace w ++
                 (if v =? 0 then []
                  else [mkEntry (Call.ShowRootMenu (XButtonEvent.x event)
                                   (XButtonEvent.y event)) (clients w)])
                 ++ [mkEntry Call.UpdatePager (clients w)])
                (with_showMenuOnRoot v w)).
  { assert (F' : fst (FindClientByParent (XButtonEvent.window event)
                        (with_showMenuOnRoot v w)) = None)
      by (rewrite R; exact F).
    unfold bind at 1. unfold SetShowMenuOnRoot. cbn [fst snd].
    unfold HandleButtonEvent. unfold bind at 1. rewrite F', R, Z.eqb_refl.
    unfold bind, UpdatePager, ShowRootMenu, log, skip, ret, nonzero.
    cbn [fst snd showMenuOnRoot with_showMenuOnRoot FindClientByParent].
    destruct (v =? 0); cbn [negb fst snd trace clients with_trace app];
      rewrite <- ?app_assoc; reflexivity. }
  split; [|rewrite W; split; reflexivity].
  erewrite issued_app by (rewrite W; reflexivity).
  rewrite map_app. destruct (v =? 0); reflexivity.
Qed.

(** Root clicks are switched off and the root window (1) is clicked. *)
Lemma root_menu_follows_toggle_witness :
  let E := Sample.env FOCUS_SLOPPY BA_NONE 0 0 in
  let w := Sample.world [Sample.client 0 None] in
  let ev := XButtonEvent.mk ButtonPress 1 30 40 Button1 1000 in
  (XButtonEvent.window ev = rootWindow E /\
   fst (FindClientByParent (rootWindow E) w) = None) /\
  issued (SetShowMenuOnRoot 0 ;; HandleButtonEvent E ev) w = [Call.UpdatePager].
Proof.
  cbv zeta.
  assert (R : XButtonEvent.window (XButtonEvent.mk ButtonPress 1 30 40 Button1 1000)
              = rootWindow (Sample.env FOCUS_SLOPPY BA_NONE 0 0)) by reflexivity.
  assert (F : fst (FindClientByParent (rootWindow (Sample.env FOCUS_SLOPPY BA_NONE 0 0))
                     (Sample.world [Sample.client 0 None])) = None)
    by reflexivity.
  split; [split; assumption|].
  exact (proj1 (root_menu_follows_toggle _ _ 0 _ R F)).
Defined.

(** Button 3 on the frame of a client opens the window menu, after the raise
    and the click-focus.  For a client with an outline, and for one with
    neither outline nor title bar, the menu is anchored at the pointer
    position taken from the origin of the client less the insets that
    [HandleConfigureRequest] uses for the frame: west on x, north on y. *)
Theorem window_menu_anchor
  (E : Env) (event : XButtonEvent.t) (w : World) (np : ClientNode) :
  fst (FindClientByParent (XButtonEvent.window event) w) = Some np ->
  XButtonEvent.button event = Button3 ->
  has (border (state np)) BORDER_OUTLINE = true \/
  has (border (state np)) BORDER_TITLE = false ->
  issued (HandleButtonEvent E event) w =
    Call.RaiseClient (window np)
    :: (if focus_eqb (focusModel E) FOCUS_CLICK
        then [Call.FocusClient (window np)] else [])
    ++ [Call.ShowWindowMenu (window np)
          (fst (menu_anchor E event np)) (snd (menu_anchor E event np));
        Call.UpdatePager].
Proof.
  intros F B O.
  assert (W : trace (snd (HandleButtonEvent E event w)) =
              trace w ++
              (mkEntry (Call.RaiseClient (window np)) (clients w)
               :: (if focus_eqb (focusModel E) FOCUS_CLICK
                   then [mkEntry (Call.FocusClient (window np)) (clients w)]
                   else [])
               ++ [mkEntry (Call.ShowWindowMenu (window np)
                              (fst (menu_anchor E event np))
                              (snd (menu_anchor E event np)))
                     (clients w);
                   mkEntry Call.UpdatePager (clients w)])).
  { unfold HandleButtonEvent. unfold bind at 1. rewrite F, B.
    cbn [Z.eqb Button1 Button2 Button3 Pos.eqb].
    unfold menu_anchor, west, north, insets.
    destruct (has (border (state np)) BORDER_OUTLINE) eqn:OL;
      destruct (has (border (state np)) BORDER_TITLE) eqn:TI;
      try (destruct O; discriminate);
      destruct (focus_eqb (focusModel E) FOCUS_CLICK);
      unfold bind, RaiseClient, FocusClient, ShowWindowMenu, UpdatePager, log,
        skip, ret;
      cbn [fst snd trace clients with_trace FindClientByParent app];
      rewrite <- ?app_assoc; cbn [app];
      rewrite ?Z.sub_0_r; reflexivity. }
  rewrite (issued_app _ _ _ W).
  destruct (focus_eqb (focusModel E) FOCUS_CLICK); reflexivity.
Qed.

(** Button 3 at (30, 10) on the frame of the sample client. *)
Lemma window_menu_anchor_witness :
  let E := Sample.env FOCUS_SLOPPY BA_NONE 0 0 in
  let np := Sample.client 0 None in
  let w := Sample.world [np] in
  let ev := XButtonEvent.mk ButtonPress 11 30 10 Button3 1000 in
  (fst (FindClientByParent (XButtonEvent.window ev) w) = Some np /\
   XButtonEvent.button ev = Button3 /\
   has (border (state np)) BORDER_OUTLINE = true) /\
  issued (HandleButtonEvent E ev) w =
    [Call.RaiseClient 10; Call.ShowWindowMenu 10 31 (-5); Call.UpdatePager].
Proof.
  cbv zeta.
  assert (F : fst (FindClientByParent
                     (XButtonEvent.window
                        (XButtonEvent.mk ButtonPress 11 30 10 Button3 1000))
                     (Sample.world [Sample.client 0 None]))
              = Some (Sample.client 0 None)) by reflexivity.
  assert (B : XButtonEvent.button (XButtonEvent.mk ButtonPress 11 30 10 Button3 1000)
              = Button3) by reflexivity.
  assert (O : has (border (state (Sample.client 0 None))) BORDER_OUTLINE = true)
    by reflexivity.
  split; [repeat split; assumption|].
  exact (window_menu_anchor (Sample.env FOCUS_SLOPPY BA_NONE 0 0) _ _ _ F B
           (or_introl O)).
Defined.

(** *** Key bindings *)

Lemma key_decode (code n : Z) :
  0 <= code < 256 ->
  Z.land (code + 256 * n) 255 = code /\ Z.shiftr (code + 256 * n) 8 = n.
Proof.
  intros R. split.
  - change 255 with (Z.ones 8). rewrite Z.land_ones by lia.
    change (2 ^ 8) with 256. rewrite (Z.mul_comm 256 n), Z_mod_plus_full.
    apply Z.mod_small. exact R.
  - rewrite Z.shiftr_div_pow2 by lia. change (2 ^ 8) with 256.
    rewrite (Z.mul_comm 256 n), Z.div_add by lia.
    rewrite Z.div_small by exact R. reflexivity.
Qed.

(** The desktop key carries its argument above the command code: a binding
    that resolves to the desktop command with argument [n] switches to
    desktop [n - 1] when [n] is not 0 and to the next desktop when it is,
    whether or not a client is focused; the registry is not touched. *)
Theorem desktop_key_argument (E : Env) (event : XKeyEvent.t) (n : Z) (w : World) :
  GetKey E event = KEY_DESKTOP + 256 * n ->
  issued (HandleKeyPress E event) w =
    [if n =? 0 then Call.NextDesktop else Call.ChangeDesktop (n - 1)] /\
  clients (snd (HandleKeyPress E event w)) = clients w.
Proof.
  intros K.
  assert (R : 0 <= KEY_DESKTOP < 256) by (split; [discriminate|reflexivity]).
  destruct (key_decode KEY_DESKTOP n R) as [C A].
  assert (W : snd (HandleKeyPress E event w) =
              with_trace
                (trace w ++
                 [mkEntry (if n =? 0 then Call.NextDesktop
                           else Call.ChangeDesktop (n - 1)) (clients w)]) w).
  { unfold HandleKeyPress. cbv zeta. rewrite K, C, A.
    cbn [Z.eqb KEY_EXEC KEY_DESKTOP Pos.eqb].
    unfold bind, nonzero.
    destruct (focus_eqb (focusModel E) FOCUS_CLICK); destruct (n =? 0);
      reflexivity. }
  split; [|rewrite W; reflexivity].
  erewrite issued_app by (rewrite W; reflexivity). reflexivity.
Qed.

(** The key bound to desktop 3 (argument 3). *)
Lemma desktop_key_argument_witness :
  let E := Sample.env FOCUS_SLOPPY BA_NONE (KEY_DESKTOP + 256 * 3) 0 in
  let w := Sample.world [Sample.client 0 None] in
  let ev := XKeyEvent.mk 10 10 0 0 in
  GetKey E ev = KEY_DESKTOP + 256 * 3 /\
  issued (HandleKeyPress E ev) w = [Call.ChangeDesktop 2].
Proof.
  cbv zeta.
  assert (K : GetKey (Sample.env FOCUS_SLOPPY BA_NONE (KEY_DESKTOP + 256 * 3) 0)
                (XKeyEvent.mk 10 10 0 0) = KEY_DESKTOP + 256 * 3) by reflexivity.
  split; [exact K|].
  exact (proj1 (desktop_key_argument _ _ 3 (Sample.world [Sample.client 0 None]) K)).
Defined.

(** *** Expose and property events *)

Lemma HandleExpose_cases (event : XExposeEvent.t) (w : World) :
  HandleExpose event w =
    if negb (XExposeEvent.count event =? 0) then (1, w)
    else match fst (FindClientByWindow (XExposeEvent.window event) w) with
         | None => (0, w)
         | Some np =>
           if XExposeEvent.window event =? parent np then
             (1, with_trace
                   (trace w ++ [mkEntry (Call.DrawBorder (window np)) (clients w)]) w)
           else if (XExposeEvent.window event =? window np)
                   && has (status (state np)) STAT_WMDIALOG then (0, w)
           else (1, w)
         end.
Proof.
  unfold HandleExpose, nonzero.
  destruct (negb (XExposeEvent.count event =? 0)); [reflexivity|].
  unfold bind at 1.
  destruct (fst (FindClientByWindow (XExposeEvent.window event) w)) as [np|];
    [|reflexivity].
  destruct (XExposeEvent.window event =? parent np); [reflexivity|].
  destruct ((XExposeEvent.window event =? window np)
            && has (status (state np)) STAT_WMDIALOG); reflexivity.
Qed.

(** The border of a client is redrawn exactly for the last expose of a
    series (count 0) on the client's frame, and an expose event is left to
    the collaborators (0) exactly when its count is 0 and its window is
    either unknown or the content window - not the frame - of a dialog; the
    registry is never touched. *)
Theorem expose_redraw_and_handoff (event : XExposeEvent.t) (w : World) :
  let found := fst (FindClientByWindow (XExposeEvent.window event) w) in
  (forall id, In (Call.DrawBorder id) (issued (HandleExpose event) w) <->
     XExposeEvent.count event = 0 /\
     exists np, found = Some np /\ XExposeEvent.window event = parent np /\
                id = window np) /\
  (fst (HandleExpose event w) = 0 <->
     XExposeEvent.count event = 0 /\
     (found = None \/
      exists np, found = Some np /\ XExposeEvent.window event <> parent np /\
                 XExposeEvent.window event = window np /\
                 has (status (state np)) STAT_WMDIALOG = true)) /\
  clients (snd (HandleExpose event w)) = clients w.
Proof.
  cbv zeta. pose proof (HandleExpose_cases event w) as K.
  destruct (Z.eqb_spec (XExposeEvent.count event) 0) as [C|C]; cbn [negb] in K.
  2:{ split; [|split; [|rewrite K; reflexivity]].
      - intros id. rewrite issued_unchanged by (rewrite K; reflexivity).
        split; [intros []|intros [H _]; contradiction].
      - rewrite K. split; [discriminate|intros [H _]; contradiction]. }
  destruct (fst (FindClientByWindow (XExposeEvent.window event) w)) as [np|].
  2:{ split; [|split; [|rewrite K; reflexivity]].
      - intros id. rewrite issued_unchanged by (rewrite K; reflexivity).
        split; [intros []|intros [_ [np [H _]]]; discriminate].
      - rewrite K. split; auto. }
  destruct (Z.eqb_spec (XExposeEvent.window event) (parent np)) as [P|P].
  - split; [|split; [|rewrite K; reflexivity]].
    + intros id.
      rewrite (issued_app _ _ [mkEntry (Call.DrawBorder (window np)) (clients w)])
        by (rewrite K; reflexivity).
      cbn [map call In]. split.
      * intros [H|[]]. inversion H. split; [exact C|].
        exists np. auto.
      * intros [_ [np' [H [_ I]]]]. inversion H. subst. left. reflexivity.
    + rewrite K. split; [discriminate|].
      intros [_ [H|[np' [H [N _]]]]]; [discriminate|].
      inversion H. subst. contradiction.
  - assert (U : snd (HandleExpose event w) = w).
    { rewrite K. destruct ((XExposeEvent.window event =? window np)
                           && has (status (state np)) STAT_WMDIALOG); reflexivity. }
    split; [|split; [|rewrite U; reflexivity]].
    + intros id. rewrite issued_unchanged by exact U.
      split; [intros []|].
      intros [_ [np' [H [Q _]]]]. inversion H. subst. contradiction.
    + rewrite K.
      destruct (Z.eqb_spec (XExposeEvent.window event) (window np)) as [Q|Q];
        destruct (has (status (state np)) STAT_WMDIALOG) eqn:D; cbn [andb fst];
        split; try discriminate.
      * intros _. split; [exact C|]. right. exists np. auto.
      * intros _. reflexivity.
      * intros [_ [H|[np' [H [_ [_ D']]]]]]; [discriminate|].
        inversion H. subst. congruence.
      * intros [_ [H|[np' [H [_ [Q' _]]]]]]; [discriminate|].
        inversion H. subst. contradiction.
      * intros [_ [H|[np' [H [_ [Q' _]]]]]]; [discriminate|].
        inversion H. subst. contradiction.
Qed.

Lemma calls_since (v w : World) (l : list Entry) :
  trace v = trace w ++ l -> skipn (length (trace w)) (calls v) = map call l.
Proof.
  intros H. unfold calls. rewrite H, map_app, <- (length_map call (trace w)).
  apply skipn_app_exact.
Qed.

Ltac property_leaf np w l :=
  apply (calls_since _ w l);
  unfold bind, ReadWMName, ReadWMNormalHints, ReadWMColormaps, UpdateClientColormap,
    LoadIcon, DrawBorder, UpdateTaskBar, UpdatePager, log, ret, skip;
  cbn [fst snd trace clients with_trace];
  destruct (has (status (state np)) STAT_WMDIALOG);
  cbn [fst snd trace clients with_trace];
  rewrite <- ?app_assoc; rewrite ?app_nil_r; reflexivity.

Lemma HandlePropertyNotify_client_issued
  (E : Env) (event : XPropertyEvent.t) (w : World) (np : ClientNode) :
  fst (FindClientByWindow (XPropertyEvent.window event) w) = Some np ->
  let a := XPropertyEvent.atom event in
  let id := window np in
  let refresh := [Call.DrawBorder id; Call.UpdateTaskBar; Call.UpdatePager] in
  issued (HandlePropertyNotify E event) w =
    if a =? XA_WM_NAME then Call.ReadWMName id :: refresh
    else if a =? XA_WM_NORMAL_HINTS then Call.ReadWMNormalHints id :: refresh
    else if (a =? XA_WM_HINTS) || (a =? XA_WM_ICON_NAME)
            || (a =? XA_WM_CLIENT_MACHINE) then []
    else if a =? atoms E ATOM_WM_COLORMAP_WINDOWS then
      [Call.ReadWMColormaps id; Call.UpdateClientColormap id]
    else if a =? atoms E ATOM_NET_WM_ICON then Call.LoadIcon id :: refresh
    else if a =? atoms E ATOM_NET_WM_NAME then Call.ReadWMName id :: refresh
    else [].
Proof.
  intros F. cbv zeta.
  unfold issued. unfold HandlePropertyNotify. cbv zeta.
  unfold bind at 1. rewrite F. cbn [snd FindClientByWindow].
  destruct (XPropertyEvent.atom event =? XA_WM_NAME).
  { property_leaf np w
      [mkEntry (Call.ReadWMName (window np)) (clients w);
       mkEntry (Call.DrawBorder (window np)) (clients w);
       mkEntry Call.UpdateTaskBar (clients w);
       mkEntry Call.UpdatePager (clients w)]. }
  destruct (XPropertyEvent.atom event =? XA_WM_NORMAL_HINTS).
  { property_leaf np w
      [mkEntry (Call.ReadWMNormalHints (window np)) (clients w);
       mkEntry (Call.DrawBorder (window np)) (clients w);
       mkEntry Call.UpdateTaskBar (clients w);
       mkEntry Call.UpdatePager (clients w)]. }
  destruct ((XPropertyEvent.atom event =? XA_WM_HINTS)
            || (XPropertyEvent.atom event =? XA_WM_ICON_NAME)
            || (XPropertyEvent.atom event =? XA_WM_CLIENT_MACHINE)).
  { property_leaf np w (@nil Entry). }
  destruct (XPropertyEvent.atom event =? atoms E ATOM_WM_COLORMAP_WINDOWS).
  { property_leaf np w
      [mkEntry (Call.ReadWMColormaps (window np)) (clients w);
       mkEntry (Call.UpdateClientColormap (window np)) (clients w)]. }
  destruct (XPropertyEvent.atom event =? atoms E ATOM_NET_WM_ICON).
  { property_leaf np w
      [mkEntry (Call.LoadIcon (window np)) (clients w);
       mkEntry (Call.DrawBorder (window np)) (clients w);
       mkEntry Call.UpdateTaskBar (clients w);
       mkEntry Call.UpdatePager (clients w)]. }
  destruct (XPropertyEvent.atom event =? atoms E ATOM_NET_WM_NAME).
  { property_leaf np w
      [mkEntry (Call.ReadWMName (window np)) (clients w);
       mkEntry (Call.DrawBorder (window np)) (clients w);
       mkEntry Call.UpdateTaskBar (clients w);
       mkEntry Call.UpdatePager (clients w)]. }
  property_leaf np w (@nil Entry).
Qed.

Ltac atom_facts :=
  repeat match goal with
  | H : _ || _ = true |- _ => apply orb_true_iff in H; destruct H
  | H : _ || _ = false |- _ => apply orb_false_iff in H; destruct H
  | H : (_ =? _) = true |- _ => apply Z.eqb_eq in H
  | H : (_ =? _) = false |- _ => apply Z.eqb_neq in H
  end;
  unfold XA_WM_NAME, XA_WM_NORMAL_HINTS, XA_WM_HINTS, XA_WM_ICON_NAME,
    XA_WM_CLIENT_MACHINE in *.

Ltac crush :=
  repeat match goal with
  | |- _ /\ _ => split
  | |- _ <-> _ => split
  | |- ~ _ => intros ?
  | |- _ -> _ => intros ?
  | H : _ \/ _ |- _ => destruct H
  | H : _ /\ _ |- _ => destruct H
  | H : False |- _ => destruct H
  | H : _ = _ |- _ => discriminate H
  end; try lia; try congruence; auto.

(** A property change of a client's window redraws the border and refreshes
    taskbar and pager exactly when the property is one whose value shows in
    the decoration: WM_NAME, WM_NORMAL_HINTS, _NET_WM_ICON or _NET_WM_NAME
    (atom values of the table being distinct and above the predefined
    atoms).  Whatever the property is, a client's window never triggers a
    restart or an exit. *)
Theorem property_change_of_client
  (E : Env) (event : XPropertyEvent.t) (w : World) (np : ClientNode) :
  fst (FindClientByWindow (XPropertyEvent.window event) w) = Some np ->
  atoms_distinct E ->
  (forall t, 68 < atoms E t) ->
  let a := XPropertyEvent.atom event in
  let cs := issued (HandlePropertyNotify E event) w in
  (In (Call.DrawBorder (window np)) cs <->
   a = XA_WM_NAME \/ a = XA_WM_NORMAL_HINTS \/
   a = atoms E ATOM_NET_WM_ICON \/ a = atoms E ATOM_NET_WM_NAME) /\
  (In (Call.DrawBorder (window np)) cs <->
   In Call.UpdateTaskBar cs /\ In Call.UpdatePager cs) /\
  ~ In Call.Restart cs /\ ~ In Call.Exit cs.
Proof.
  intros F D P. cbv zeta.
  rewrite (HandlePropertyNotify_client_issued E event w np F). cbv zeta.
  pose proof (P ATOM_NET_WM_ICON) as P1. pose proof (P ATOM_NET_WM_NAME) as P2.
  pose proof (P ATOM_WM_COLORMAP_WINDOWS) as P3.
  assert (N1 : atoms E ATOM_NET_WM_ICON <> atoms E ATOM_WM_COLORMAP_WINDOWS)
    by (intros Q; apply D in Q; discriminate).
  assert (N2 : atoms E ATOM_NET_WM_NAME <> atoms E ATOM_WM_COLORMAP_WINDOWS)
    by (intros Q; apply D in Q; discriminate).
  destruct (XPropertyEvent.atom event =? XA_WM_NAME) eqn:A1;
    [|destruct (XPropertyEvent.atom event =? XA_WM_NORMAL_HINTS) eqn:A2;
      [|destruct ((XPropertyEvent.atom event =? XA_WM_HINTS)
                  || (XPropertyEvent.atom event =? XA_WM_ICON_NAME)
                  || (XPropertyEvent.atom event =? XA_WM_CLIENT_MACHINE)) eqn:A3;
        [|destruct (XPropertyEvent.atom event =? atoms E ATOM_WM_COLORMAP_WINDOWS)
            eqn:A4;
          [|destruct (XPropertyEvent.atom event =? atoms E ATOM_NET_WM_ICON) eqn:A5;
            [|destruct (XPropertyEvent.atom event =? atoms E ATOM_NET_WM_NAME)
                eqn:A6]]]]];
    atom_facts; cbn [In]; crush.
Qed.

(** The name of the sample client changes. *)
Lemma property_change_of_client_witness :
  let E := Sample.env FOCUS_SLOPPY BA_NONE 0 0 in
  let np := Sample.client 0 None in
  let w := Sample.world [np] in
  let ev := XPropertyEvent.mk 10 XA_WM_NAME in
  (fst (FindClientByWindow (XPropertyEvent.window ev) w) = Some np /\
   atoms_distinct E /\ (forall t, 68 < atoms E t)) /\
  In (Call.DrawBorder (window np)) (issued (HandlePropertyNotify E ev) w).
Proof.
  cbv zeta.
  assert (F : fst (FindClientByWindow
                     (XPropertyEvent.window (XPropertyEvent.mk 10 XA_WM_NAME))
                     (Sample.world [Sample.client 0 None]))
              = Some (Sample.client 0 None)) by reflexivity.
  assert (D : atoms_distinct (Sample.env FOCUS_SLOPPY BA_NONE 0 0)).
  { intros a b. destruct a, b; intros H; try reflexivity; discriminate H. }
  assert (P : forall t, 68 < atoms (Sample.env FOCUS_SLOPPY BA_NONE 0 0) t).
  { intros t. destruct t; reflexivity. }
  split; [repeat split; assumption|].
  exact (proj2 (proj1 (property_change_of_client _ _ _ _ F D P))
           (or_introl eq_refl)).
Defined.

Lemma HandlePropertyNotify_unmanaged
  (E : Env) (event : XPropertyEvent.t) (w : World) :
  fst (FindClientByWindow (XPropertyEvent.window event) w) = None ->
  let a := XPropertyEvent.atom event in
  HandlePropertyNotify E event w =
    (1, if XPropertyEvent.window event =? rootWindow E then
          if a =? atoms E ATOM_JWM_RESTART then
            with_shouldExit true
              (with_trace (trace w ++ [mkEntry Call.Restart (clients w)]) w)
          else if a =? atoms E ATOM_JWM_EXIT then
            with_shouldExit true
              (with_trace (trace w ++ [mkEntry Call.Exit (clients w)]) w)
          else w
        else w).
Proof.
  intros F. cbv zeta. unfold HandlePropertyNotify. cbv zeta.
  unfold bind at 1. rewrite F.
  destruct (XPropertyEvent.window event =? rootWindow E); [|reflexivity].
  destruct (XPropertyEvent.atom event =? atoms E ATOM_JWM_RESTART); [reflexivity|].
  destruct (XPropertyEvent.atom event =? atoms E ATOM_JWM_EXIT); reflexivity.
Qed.

(** A property change of a window that no client owns is always reported
    handled and never touches the registry.  It calls [Restart] exactly when
    the window is the root window and the property is the restart atom, and
    [Exit] exactly when the window is the root window and the property is
    the exit atom (and not also the restart atom); nothing else is called. *)
Theorem property_change_of_unmanaged_window
  (E : Env) (event : XPropertyEvent.t) (w : World) :
  fst (FindClientByWindow (XPropertyEvent.window event) w) = None ->
  let a := XPropertyEvent.atom event in
  let H := HandlePropertyNotify E event in
  fst (H w) = 1 /\
  clients (snd (H w)) = clients w /\
  (issued H w = [Call.Restart] <->
   XPropertyEvent.window event = rootWindow E /\ a = atoms E ATOM_JWM_RESTART) /\
  (issued H w = [Call.Exit] <->
   XPropertyEvent.window event = rootWindow E /\ a = atoms E ATOM_JWM_EXIT /\
   a <> atoms E ATOM_JWM_RESTART) /\
  (issued H w = [] \/ issued H w = [Call.Restart] \/ issued H w = [Call.Exit]).
Proof.
  intros F. cbv zeta.
  pose proof (HandlePropertyNotify_unmanaged E event w F) as W. cbv zeta in W.
  destruct (XPropertyEvent.window event =? rootWindow E) eqn:R;
    [destruct (XPropertyEvent.atom event =? atoms E ATOM_JWM_RESTART) eqn:A1;
     [|destruct (XPropertyEvent.atom event =? atoms E ATOM_JWM_EXIT) eqn:A2]|].
  - rewrite (issued_app _ _ [mkEntry Call.Restart (clients w)])
      by (rewrite W; reflexivity).
    rewrite W. cbn [fst snd clients with_trace with_shouldExit map call].
    atom_facts. crush.
  - rewrite (issued_app _ _ [mkEntry Call.Exit (clients w)])
      by (rewrite W; reflexivity).
    rewrite W. cbn [fst snd clients with_trace with_shouldExit map call].
    atom_facts. crush.
  - rewrite issued_unchanged by (rewrite W; reflexivity).
    rewrite W. cbn [fst snd]. atom_facts. crush.
  - rewrite issued_unchanged by (rewrite W; reflexivity).
    rewrite W. cbn [fst snd]. atom_facts. crush.
Qed.

(** The exit atom is set on the root window of the sample environment. *)
Lemma property_change_of_unmanaged_window_witness :
  let E := Sample.env FOCUS_SLOPPY BA_NONE 0 0 in
  let w := Sample.world [Sample.client 0 None] in
  let ev := XPropertyEvent.mk 1 115 in
  fst (FindClientByWindow (XPropertyEvent.window ev) w) = None /\
  fst (HandlePropertyNotify E ev w) = 1.
Proof.
  cbv zeta.
  assert (F : fst (FindClientByWindow (XPropertyEvent.window (XPropertyEvent.mk 1 115))
                     (Sample.world [Sample.client 0 None])) = None)
    by reflexivity.
  split; [exact F|].
  exact (proj1 (property_change_of_unmanaged_window
                  (Sample.env FOCUS_SLOPPY BA_NONE 0 0) _ _ F)).
Defined.

(** *** The cached action zone *)

Lemma find_map_preserved {A} (p : A -> bool) (f : A -> A) (l : list A) :
  (forall a, p (f a) = p a) -> find p (map f l) = option_map f (find p l).
Proof.
  intros H. induction l as [|a l IH]; [reflexivity|].
  cbn [map find]. rewrite H. destruct (p a); [reflexivity|exact IH].
Qed.

Lemma FindClientByParent_zoned (a : Z) (np : ClientNode) (id : Window) (w : World) :
  fst (FindClientByParent id w) = Some np ->
  fst (FindClientByParent id (with_clients (zoned a np (clients w)) w))
  = Some (with_borderAction a np).
Proof.
  unfold FindClientByParent, zoned. cbn [fst clients with_clients]. intros F.
  rewrite find_map_preserved, F.
  - cbn [option_map]. rewrite Z.eqb_refl. reflexivity.
  - intros c. destruct (window c =? window np); reflexivity.
Qed.

Lemma with_borderAction_same (np : ClientNode) :
  with_borderAction (borderAction np) np = np.
Proof. destruct np. reflexivity. Qed.

Lemma HandleMotionNotify_frame
  (E : Env) (event : XMotionEvent.t) (w : World) (np : ClientNode) :
  XMotionEvent.is_hint event = 0 ->
  fst (FindClientByParent (XMotionEvent.window event) w) = Some np ->
  has (border (state np)) BORDER_OUTLINE = true ->
  let action := GetBorderActionType E np (XMotionEvent.x event)
                  (XMotionEvent.y event) in
  HandleMotionNotify E event w =
    (tt, if borderAction np =? action then w
         else
           let cs := zoned action np (clients w) in
           with_trace
             (trace w ++
              [mkEntry (Call.JXDefineCursor (parent np) (GetFrameCursor E action)) cs])
             (with_clients cs w)).
Proof.
  intros I F O. cbv zeta. unfold HandleMotionNotify. rewrite I.
  cbn [nonzero Z.eqb negb]. unfold bind at 1. rewrite F, O.
  destruct (borderAction np =? _); reflexivity.
Qed.

(** A pointer motion over the frame of an outlined client leaves the
    resolved zone cached in the client, and the cursor is redefined only
    when the zone differs from the cached one.  Hence, the resolver not
    depending on the cache, repeating the motion changes nothing and calls
    nothing. *)
Theorem motion_caches_zone
  (E : Env) (event : XMotionEvent.t) (w : World) (np : ClientNode) :
  XMotionEvent.is_hint event = 0 ->
  fst (FindClientByParent (XMotionEvent.window event) w) = Some np ->
  has (border (state np)) BORDER_OUTLINE = true ->
  let action := GetBorderActionType E np (XMotionEvent.x event)
                  (XMotionEvent.y event) in
  let w1 := snd (HandleMotionNotify E event w) in
  fst (FindClientByParent (XMotionEvent.window event) w1)
  = Some (with_borderAction action np) /\
  issued (HandleMotionNotify E event) w =
    (if borderAction np =? action then []
     else [Call.JXDefineCursor (parent np) (GetFrameCursor E action)]) /\
  ((forall a, GetBorderActionType E (with_borderAction a np)
                (XMotionEvent.x event) (XMotionEvent.y event) = action) ->
   HandleMotionNotify E event w1 = (tt, w1)).
Proof.
  intros I F O. cbv zeta.
  pose proof (HandleMotionNotify_frame E event w np I F O) as W. cbv zeta in W.
  assert (L : fst (FindClientByParent (XMotionEvent.window event)
                     (snd (HandleMotionNotify E event w)))
              = Some (with_borderAction
                        (GetBorderActionType E np (XMotionEvent.x event)
                           (XMotionEvent.y event)) np)).
  { rewrite W.
    destruct (Z.eqb_spec (borderAction np)
                (GetBorderActionType E np (XMotionEvent.x event)
                   (XMotionEvent.y event))) as [Q|Q].
    - cbn [snd]. rewrite <- Q, with_borderAction_same. exact F.
    - cbn [snd]. apply (FindClientByParent_zoned _ _ _ w F). }
  split; [exact L|]. split.
  - destruct (borderAction np =? _) eqn:Q.
    + apply issued_unchanged. rewrite W. reflexivity.
    + erewrite issued_app by (rewrite W; reflexivity). reflexivity.
  - intros R.
    rewrite (HandleMotionNotify_frame E event _ _ I L O).
    rewrite R. cbn [borderAction with_borderAction]. rewrite Z.eqb_refl.
    reflexivity.
Qed.

(** The pointer moves over the frame of the sample client, whose cached
    zone is none, into the move zone. *)
Lemma motion_caches_zone_witness :
  let E := Sample.env FOCUS_SLOPPY BA_MOVE 0 0 in
  let np := Sample.client 0 None in
  let w := Sample.world [np] in
  let ev := XMotionEvent.mk 11 30 10 0 in
  (XMotionEvent.is_hint ev = 0 /\
   fst (FindClientByParent (XMotionEvent.window ev) w) = Some np /\
   has (border (state np)) BORDER_OUTLINE = true) /\
  issued (HandleMotionNotify E ev) w = [Call.JXDefineCursor 11 BA_MOVE].
Proof.
  cbv zeta.
  assert (I : XMotionEvent.is_hint (XMotionEvent.mk 11 30 10 0) = 0) by reflexivity.
  assert (F : fst (FindClientByParent (XMotionEvent.window (XMotionEvent.mk 11 30 10 0))
                     (Sample.world [Sample.client 0 None]))
              = Some (Sample.client 0 None)) by reflexivity.
  assert (O : has (border (state (Sample.client 0 None))) BORDER_OUTLINE = true)
    by reflexivity.
  split; [repeat split; assumption|].
  exact (proj1 (proj2 (motion_caches_zone (Sample.env FOCUS_SLOPPY BA_MOVE 0 0)
                         _ _ _ I F O))).
Defined.

Lemma FindClientByWindow_zoned (a : Z) (np : ClientNode) (id : Window) (w : World)
  (tr : list Entry) :
  fst (FindClientByWindow id w) = Some np ->
  fst (FindClientByWindow id (with_trace tr (with_clients (zoned a np (clients w)) w)))
  = Some (with_borderAction a np).
Proof.
  unfold FindClientByWindow, zoned. cbn [fst clients with_clients with_trace].
  intros F.
  rewrite !find_map_preserved
    by (intros c; destruct (window c =? window np); reflexivity).
  destruct (find (fun c => window c =? id) (clients w)) as [c|].
  - inversion F. subst c. cbn [option_map]. rewrite Z.eqb_refl. reflexivity.
  - rewrite F. cbn [option_map]. rewrite Z.eqb_refl. reflexivity.
Qed.

Lemma HandleEnterNotify_found
  (E : Env) (event : XCrossingEvent.t) (w : World) (np : ClientNode) :
  fst (FindClientByWindow (XCrossingEvent.window event) w) = Some np ->
  let focus :=
    if negb (has (status (state np)) STAT_ACTIVE)
       && focus_eqb (focusModel E) FOCUS_SLOPPY
    then [mkEntry (Call.FocusClient (window np)) (clients w)] else [] in
  let action := GetBorderActionType E np (XCrossingEvent.x event)
                  (XCrossingEvent.y event) in
  HandleEnterNotify E event w =
    (tt,
     if parent np =? XCrossingEvent.window event then
       with_trace
         (trace w ++ focus ++
          [mkEntry (Call.JXDefineCursor (parent np) (GetFrameCursor E action))
             (zoned action np (clients w))])
         (with_clients (zoned action np (clients w)) w)
     else if negb (borderAction np =? BA_NONE) then
       with_trace
         (trace w ++ focus ++ [mkEntry (Call.SetDefaultCursor (parent np)) (clients w)])
         (with_clients (zoned BA_NONE np (clients w)) w)
     else with_trace (trace w ++ focus) (with_clients (clients w) w)).
Proof.
  intros F. cbv zeta. unfold HandleEnterNotify. unfold bind at 1. rewrite F.
  destruct (negb (has (status (state np)) STAT_ACTIVE)
            && focus_eqb (focusModel E) FOCUS_SLOPPY);
    destruct (parent np =? XCrossingEvent.window event);
    [| destruct (negb (borderAction np =? BA_NONE))
     | | destruct (negb (borderAction np =? BA_NONE))];
    unfold bind, update, FocusClient, JXDefineCursor, SetDefaultCursor, log, skip,
      ret, zoned;
    cbn [fst snd trace clients with_trace with_clients FindClientByWindow];
    rewrite <- ?app_assoc; rewrite ?app_nil_r; try reflexivity;
    destruct w; reflexivity.
Qed.

(** When the pointer enters a window of a client, the client is focused
    exactly when it is not active and the focus policy is sloppy.  Entering
    the frame caches the zone under the pointer and sets its cursor;
    entering any other window of the client leaves the cached zone at none. *)
Theorem enter_focus_and_zone
  (E : Env) (event : XCrossingEvent.t) (w : World) (np : ClientNode) :
  fst (FindClientByWindow (XCrossingEvent.window event) w) = Some np ->
  let H := HandleEnterNotify E event in
  let action := GetBorderActionType E np (XCrossingEvent.x event)
                  (XCrossingEvent.y event) in
  let after := fst (FindClientByWindow (XCrossingEvent.window event) (snd (H w))) in
  (In (Call.FocusClient (window np)) (issued H w) <->
   has (status (state np)) STAT_ACTIVE = false /\ focusModel E = FOCUS_SLOPPY) /\
  (parent np = XCrossingEvent.window event ->
   after = Some (with_borderAction action np) /\
   In (Call.JXDefineCursor (parent np) (GetFrameCursor E action)) (issued H w)) /\
  (parent np <> XCrossingEvent.window event ->
   after = Some (with_borderAction BA_NONE np)).
Proof.
  intros F. cbv zeta.
  pose proof (HandleEnterNotify_found E event w np F) as W. cbv zeta in W.
  assert (S : negb (has (status (state np)) STAT_ACTIVE)
              && focus_eqb (focusModel E) FOCUS_SLOPPY = true <->
              has (status (state np)) STAT_ACTIVE = false /\
              focusModel E = FOCUS_SLOPPY).
  { rewrite andb_true_iff, negb_true_iff.
    destruct (focusModel E); cbn [focus_eqb]; intuition congruence. }
  split; [|split].
  - rewrite <- S.
    destruct (negb (has (status (state np)) STAT_ACTIVE)
              && focus_eqb (focusModel E) FOCUS_SLOPPY);
      destruct (parent np =? XCrossingEvent.window event);
      [| destruct (negb (borderAction np =? BA_NONE))
       | | destruct (negb (borderAction np =? BA_NONE))];
      (erewrite issued_app by (rewrite W; reflexivity));
      cbn [map call app In]; crush.
  - intros P. apply Z.eqb_eq in P. rewrite P in W. split.
    + rewrite W. cbn [snd]. apply FindClientByWindow_zoned. exact F.
    + erewrite issued_app by (rewrite W; reflexivity).
      rewrite !map_app. apply in_or_app. right. left. reflexivity.
  - intros P. apply Z.eqb_neq in P. rewrite P in W.
    destruct (Z.eqb_spec (borderAction np) BA_NONE) as [Q|Q]; cbn [negb] in W;
      rewrite W; cbn [snd].
    + rewrite <- Q. rewrite with_borderAction_same.
      unfold FindClientByWindow in *. cbn [fst clients with_trace with_clients] in *.
      exact F.
    + apply FindClientByWindow_zoned. exact F.
Qed.

(** The pointer enters the content window of the sample client. *)
Lemma enter_focus_and_zone_witness :
  let E := Sample.env FOCUS_SLOPPY BA_MOVE 0 0 in
  let np := Sample.client 0 None in
  let w := Sample.world [np] in
  let ev := XCrossingEvent.mk EnterNotify 10 30 30 in
  (fst (FindClientByWindow (XCrossingEvent.window ev) w) = Some np /\
   has (status (state np)) STAT_ACTIVE = false /\ focusModel E = FOCUS_SLOPPY) /\
  In (Call.FocusClient (window np)) (issued (HandleEnterNotify E ev) w).
Proof.
  cbv zeta.
  assert (F : fst (FindClientByWindow
                     (XCrossingEvent.window (XCrossingEvent.mk EnterNotify 10 30 30))
                     (Sample.world [Sample.client 0 None]))
              = Some (Sample.client 0 None)) by reflexivity.
  assert (A : has (status (state (Sample.client 0 None))) STAT_ACTIVE = false /\
              focusModel (Sample.env FOCUS_SLOPPY BA_MOVE 0 0) = FOCUS_SLOPPY)
    by (split; reflexivity).
  split; [split; [exact F|exact A]|].
  exact (proj2 (proj1 (enter_focus_and_zone (Sample.env FOCUS_SLOPPY BA_MOVE 0 0)
                         _ _ _ F)) A).
Defined.

(** *** Coalescing of pointer motion *)

Lemma last_motion_none (e : XMotionEvent.t) (q : list XEvent) :
  forallb (fun ev => negb (is_motion ev)) q = true -> last_motion e q = e.
Proof.
  unfold last_motion. revert e. induction q as [|ev q IH]; intros e H; [reflexivity|].
  cbn [forallb] in H. apply andb_true_iff in H. destruct H as [N H].
  cbn [fold_left]. destruct ev; try discriminate N; apply IH, H.
Qed.

Lemma last_motion_newest (e m : XMotionEvent.t) (q1 q2 : list XEvent) :
  forallb (fun ev => negb (is_motion ev)) q2 = true ->
  last_motion e (q1 ++ xmotion m :: q2) = m.
Proof.
  intros H. unfold last_motion. rewrite fold_left_app. cbn [fold_left].
  apply (last_motion_none m q2 H).
Qed.

Lemma filter_keeps_all {A} (p : A -> bool) (l : list A) :
  forallb p l = true -> filter p l = l.
Proof.
  induction l as [|a l IH]; [reflexivity|]. cbn [forallb filter]. intros H.
  apply andb_true_iff in H. destruct H as [P H]. rewrite P, (IH H). reflexivity.
Qed.

(** [ProcessEvent] on a motion event drains the motion events that are
    already queued and acts once, on the newest sample: the handler runs
    for the last queued motion event, every queued motion event is removed,
    and the other events stay queued in their order.  With no motion event
    queued the handler runs for the event itself and the queue is kept. *)
Theorem motion_samples_coalesced (E : Env) (e : XMotionEvent.t) (w : World) :
  (forall m q1 q2,
     forallb (fun ev => negb (is_motion ev)) q2 = true ->
     ProcessEvent E (xmotion e) (q1 ++ xmotion m :: q2) w =
       (filter (fun ev => negb (is_motion ev)) q1 ++ q2,
        snd (HandleMotionNotify E m w))) /\
  (forall q,
     forallb (fun ev => negb (is_motion ev)) q = true ->
     ProcessEvent E (xmotion e) q w = (q, snd (HandleMotionNotify E e w))).
Proof.
  split.
  - intros m q1 q2 H. unfold ProcessEvent, bind, ret.
    rewrite (last_motion_newest e m q1 q2 H), filter_app.
    cbn [filter is_motion negb]. rewrite (filter_keeps_all _ q2 H). reflexivity.
  - intros q H. unfold ProcessEvent, bind, ret.
    rewrite (last_motion_none e q H), (filter_keeps_all _ q H). reflexivity.
Qed.

(** Two motion samples and a key press are queued behind a motion event. *)
Lemma motion_samples_coalesced_witness :
  let E := Sample.env FOCUS_SLOPPY BA_MOVE 0 0 in
  let w := Sample.world [Sample.client 0 None] in
  let e := XMotionEvent.mk 11 1 1 0 in
  let m1 := XMotionEvent.mk 11 2 2 0 in
  let m2 := XMotionEvent.mk 11 3 3 0 in
  let k := xkey (XKeyEvent.mk 10 0 0 38) in
  forallb (fun ev => negb (is_motion ev)) [k] = true /\
  ProcessEvent E (xmotion e) ([xmotion m1] ++ xmotion m2 :: [k]) w =
    ([k], snd (HandleMotionNotify E m2 w)).
Proof.
  cbv zeta. split; [reflexivity|].
  exact (proj1 (motion_samples_coalesced (Sample.env FOCUS_SLOPPY BA_MOVE 0 0)
                  (XMotionEvent.mk 11 1 1 0) (Sample.world [Sample.client 0 None]))
           (XMotionEvent.mk 11 3 3 0) [xmotion (XMotionEvent.mk 11 2 2 0)]
           [xkey (XKeyEvent.mk 10 0 0 38)] eq_refl).
Defined.

(** *** Client messages *)

Lemma state_action_comm (E : Env) (a b : Z) (acc : bool * bool * bool) :
  state_action E a (state_action E b acc) = state_action E b (state_action E a acc).
Proof.
  destruct acc as [[m s] h]. unfold state_action.
  destruct (a =? atoms E ATOM_NET_WM_STATE_STICKY),
           (a =? atoms E ATOM_NET_WM_STATE_MAXIMIZED_VERT),
           (a =? atoms E ATOM_NET_WM_STATE_MAXIMIZED_HORZ),
           (a =? atoms E ATOM_NET_WM_STATE_SHADED),
           (b =? atoms E ATOM_NET_WM_STATE_STICKY),
           (b =? atoms E ATOM_NET_WM_STATE_MAXIMIZED_VERT),
           (b =? atoms E ATOM_NET_WM_STATE_MAXIMIZED_HORZ),
           (b =? atoms E ATOM_NET_WM_STATE_SHADED); reflexivity.
Qed.

(** The two property slots of a state message are interchangeable: for
    every message type but the legacy state message, whose second word is a
    flag word, exchanging [data.l[1]] and [data.l[2]] gives the same calls
    and the same registry. *)
Theorem state_message_slots_interchangeable
  (E : Env) (win : Window) (message_type : Atom) (l0 a b : Z) (w : World) :
  message_type <> atoms E ATOM_WIN_STATE ->
  HandleClientMessage E (XClientMessageEvent.mk win message_type l0 a b) w =
  HandleClientMessage E (XClientMessageEvent.mk win message_type l0 b a) w.
Proof.
  intros N. apply Z.eqb_neq in N. unfold HandleClientMessage.
  cbn [XClientMessageEvent.window XClientMessageEvent.message_type
       XClientMessageEvent.l0 XClientMessageEvent.l1 XClientMessageEvent.l2].
  cbv zeta. rewrite N.
  rewrite (state_action_comm E b a). reflexivity.
Qed.

(** A request to add the sticky and the shaded state, in either order. *)
Lemma state_message_slots_interchangeable_witness :
  let E := Sample.env FOCUS_SLOPPY BA_MOVE 0 0 in
  let w := Sample.world [Sample.client 0 None] in
  104 <> atoms E ATOM_WIN_STATE /\
  HandleClientMessage E (XClientMessageEvent.mk 10 104 1 105 108) w =
  HandleClientMessage E (XClientMessageEvent.mk 10 104 1 108 105) w.
Proof.
  cbv zeta.
  assert (N : 104 <> atoms (Sample.env FOCUS_SLOPPY BA_MOVE 0 0) ATOM_WIN_STATE)
    by discriminate.
  split; [exact N|].
  exact (state_message_slots_interchangeable (Sample.env FOCUS_SLOPPY BA_MOVE 0 0)
           10 104 1 105 108 (Sample.world [Sample.client 0 None]) N).
Defined.

Lemma listed_lookup (hidden : bool) (np : ClientNode) (id : Window) (w : World)
  (tr : list Entry) :
  fst (FindClientByWindow id w) = Some np ->
  fst (FindClientByWindow id (with_trace tr (with_clients (listed hidden np (clients w)) w)))
  = Some (if hidden then status_or STAT_NOLIST np else status_andnot STAT_NOLIST np).
Proof.
  unfold FindClientByWindow, listed. cbn [fst clients with_clients with_trace].
  intros F.
  rewrite !find_map_preserved
    by (intros c; destruct (window c =? window np), hidden; reflexivity).
  destruct (find (fun c => window c =? id) (clients w)) as [c|].
  - inversion F. subst c. cbn [option_map]. rewrite Z.eqb_refl. reflexivity.
  - rewrite F. cbn [option_map]. rewrite Z.eqb_refl. reflexivity.
Qed.

Lemma HandleClientMessage_legacy_hidden
  (E : Env) (event : XClientMessageEvent.t) (w : World) (np : ClientNode) :
  fst (FindClientByWindow (XClientMessageEvent.window event) w) = Some np ->
  XClientMessageEvent.message_type event = atoms E ATOM_WIN_STATE ->
  has (XClientMessageEvent.l0 event) WIN_STATE_STICKY = false ->
  let cs := listed (has (XClientMessageEvent.l1 event) WIN_STATE_HIDDEN) np (clients w) in
  HandleClientMessage E event w =
    (tt,
     if has (XClientMessageEvent.l0 event) WIN_STATE_HIDDEN then
       with_trace (trace w ++ [mkEntry Call.UpdateTaskBar cs; mkEntry Call.UpdatePager cs])
         (with_clients cs w)
     else w).
Proof.
  intros F T S. cbv zeta. unfold HandleClientMessage. cbv zeta.
  unfold bind at 1. rewrite F, T, Z.eqb_refl, S.
  destruct (has (XClientMessageEvent.l0 event) WIN_STATE_HIDDEN);
    [destruct (has (XClientMessageEvent.l1 event) WIN_STATE_HIDDEN)|];
    unfold bind, update, UpdateTaskBar, UpdatePager, log, skip, ret, listed;
    cbn [fst snd trace clients with_trace with_clients FindClientByWindow];
    rewrite <- ?app_assoc; reflexivity.
Qed.

(** A legacy state message whose mask names the hidden flag, and not the
    sticky flag, sets the client's no-list flag to the hidden bit of the
    flag word and leaves every other status flag and every other client as
    they were; task bar and pager are refreshed after the flag has changed,
    in this order.  When the mask names neither flag nothing happens. *)
Theorem legacy_hidden_flag
  (E : Env) (event : XClientMessageEvent.t) (w : World) (np : ClientNode) :
  fst (FindClientByWindow (XClientMessageEvent.window event) w) = Some np ->
  XClientMessageEvent.message_type event = atoms E ATOM_WIN_STATE ->
  has (XClientMessageEvent.l0 event) WIN_STATE_STICKY = false ->
  let H := HandleClientMessage E event in
  let hidden := has (XClientMessageEvent.l1 event) WIN_STATE_HIDDEN in
  (has (XClientMessageEvent.l0 event) WIN_STATE_HIDDEN = true ->
   clients (snd (H w)) = listed hidden np (clients w) /\
   recorded H w = [mkEntry Call.UpdateTaskBar (listed hidden np (clients w));
                   mkEntry Call.UpdatePager (listed hidden np (clients w))] /\
   exists np',
     fst (FindClientByWindow (XClientMessageEvent.window event) (snd (H w))) = Some np' /\
     has (status (state np')) STAT_NOLIST = hidden /\
     forall g, Z.land STAT_NOLIST g = 0 ->
               has (status (state np')) g = has (status (state np)) g) /\
  (has (XClientMessageEvent.l0 event) WIN_STATE_HIDDEN = false -> H w = (tt, w)).
Proof.
  intros F T S. cbv zeta.
  pose proof (HandleClientMessage_legacy_hidden E event w np F T S) as W.
  cbv zeta in W. split.
  - intros M. rewrite M in W. split; [|split].
    + rewrite W. reflexivity.
    + apply recorded_app. rewrite W. reflexivity.
    + rewrite W. cbn [snd]. rewrite (listed_lookup _ _ _ _ _ F).
      eexists. split; [reflexivity|].
      destruct (has (XClientMessageEvent.l1 event) WIN_STATE_HIDDEN).
      * split; [apply set_bits_has|]. intros g G.
        unfold has, status_or. cbn [state status with_state with_status].
        rewrite (set_bits_other _ _ _ G). reflexivity.
      * split; [apply cleared_flag|]. intros g G.
        unfold has, status_andnot. cbn [state status with_state with_status].
        rewrite (clear_bits_other _ _ _ G). reflexivity.
  - intros M. rewrite M in W. exact W.
Qed.

(** The sample client is taken off the lists. *)
Lemma legacy_hidden_flag_witness :
  let E := Sample.env FOCUS_SLOPPY BA_MOVE 0 0 in
  let np := Sample.client 0 None in
  let w := Sample.world [np] in
  let ev := XClientMessageEvent.mk 10 112 WIN_STATE_HIDDEN WIN_STATE_HIDDEN 0 in
  (fst (FindClientByWindow (XClientMessageEvent.window ev) w) = Some np /\
   XClientMessageEvent.message_type ev = atoms E ATOM_WIN_STATE /\
   has (XClientMessageEvent.l0 ev) WIN_STATE_STICKY = false /\
   has (XClientMessageEvent.l0 ev) WIN_STATE_HIDDEN = true) /\
  clients (snd (HandleClientMessage E ev w)) = listed true np (clients w).
Proof.
  cbv zeta.
  assert (F : fst (FindClientByWindow
                     (XClientMessageEvent.window
                        (XClientMessageEvent.mk 10 112 WIN_STATE_HIDDEN WIN_STATE_HIDDEN 0))
                     (Sample.world [Sample.client 0 None]))
              = Some (Sample.client 0 None)) by reflexivity.
  assert (T : XClientMessageEvent.message_type
                (XClientMessageEvent.mk 10 112 WIN_STATE_HIDDEN WIN_STATE_HIDDEN 0)
              = atoms (Sample.env FOCUS_SLOPPY BA_MOVE 0 0) ATOM_WIN_STATE)
    by reflexivity.
  assert (S : has (XClientMessageEvent.l0
                     (XClientMessageEvent.mk 10 112 WIN_STATE_HIDDEN WIN_STATE_HIDDEN 0))
                WIN_STATE_STICKY = false) by reflexivity.
  assert (M : has (XClientMessageEvent.l0
                     (XClientMessageEvent.mk 10 112 WIN_STATE_HIDDEN WIN_STATE_HIDDEN 0))
                WIN_STATE_HIDDEN = true) by reflexivity.
  split; [repeat split; assumption|].
  exact (proj1 (proj1 (legacy_hidden_flag (Sample.env FOCUS_SLOPPY BA_MOVE 0 0)
                         _ _ _ F T S) M)).
Defined.

Lemma state_action_maximize (E : Env) (v : Z) (m s h : bool) :
  atoms_distinct E -> maximize_property E v ->
  state_action E v (m, s, h) = (true, s, h).
Proof.
  intros D [Q|Q]; subst v; unfold state_action.
  - rewrite (atoms_neq E _ ATOM_NET_WM_STATE_STICKY D) by discriminate.
    rewrite Z.eqb_refl. reflexivity.
  - rewrite (atoms_neq E _ ATOM_NET_WM_STATE_STICKY D) by discriminate.
    rewrite (atoms_neq E _ ATOM_NET_WM_STATE_MAXIMIZED_VERT D) by discriminate.
    rewrite Z.eqb_refl. reflexivity.
Qed.

Lemma state_action_none (E : Env) (v : Z) (acc : bool * bool * bool) :
  no_state_property E v -> state_action E v acc = acc.
Proof.
  intros [A [B [C D]]]. apply Z.eqb_neq in A, B, C, D.
  destruct acc as [[m s] h]. unfold state_action. rewrite A, B, C, D. reflexivity.
Qed.

Lemma found_by_content_id (id : Window) (w : World) (np : ClientNode) :
  fst (FindClientByWindow id w) = Some np -> window np = id ->
  reload np w = (np, w).
Proof.
  intros F Q. unfold reload. rewrite Q.
  unfold FindClientByWindow in F. cbn [fst] in F.
  destruct (find (fun c => window c =? id) (clients w)) eqn:G.
  - inversion F. reflexivity.
  - apply find_some in F. destruct F as [I _].
    apply (find_none _ _ G) in I. cbn beta in I. rewrite Q, Z.eqb_refl in I.
    discriminate I.
Qed.

Lemma logged_world (c : Call.t) (w : World) :
  log c w = (tt, with_trace (trace w ++ [mkEntry c (clients w)]) w).
Proof. reflexivity. Qed.

Lemma HandleClientMessage_maximize
  (E : Env) (event : XClientMessageEvent.t) (w : World) (np : ClientNode) :
  atoms_distinct E ->
  fst (FindClientByWindow (XClientMessageEvent.window event) w) = Some np ->
  window np = XClientMessageEvent.window event ->
  XClientMessageEvent.message_type event = atoms E ATOM_NET_WM_STATE ->
  state_action E (XClientMessageEvent.l2 event)
    (state_action E (XClientMessageEvent.l1 event) (false, false, false))
  = (true, false, false) ->
  let l0 := XClientMessageEvent.l0 event in
  let maximized := has (status (state np)) STAT_MAXIMIZED in
  let tr := if l0 =? 0 then
              (if maximized then [mkEntry (Call.MaximizeClient (window np)) (clients w)]
               else [])
            else if l0 =? 1 then
              (if maximized then []
               else [mkEntry (Call.MaximizeClient (window np)) (clients w)])
            else if l0 =? 2 then [mkEntry (Call.MaximizeClient (window np)) (clients w)]
            else [mkEntry (Call.Debug l0) (clients w)] in
  HandleClientMessage E event w = (tt, with_trace (trace w ++ tr) w).
Proof.
  intros D F Q T SA. cbv zeta. unfold HandleClientMessage. cbv zeta.
  unfold bind at 1. rewrite F, T.
  rewrite !(atoms_neq E ATOM_NET_WM_STATE _ D) by discriminate.
  rewrite Z.eqb_refl, SA.
  pose proof (found_by_content_id _ w np F Q) as R.
  destruct (XClientMessageEvent.l0 event =? 0);
    [|destruct (XClientMessageEvent.l0 event =? 1);
      [|destruct (XClientMessageEvent.l0 event =? 2)]];
    unfold bind, skip, ret; cbn [fst snd];
    change (snd (FindClientByWindow (XClientMessageEvent.window event) w)) with w;
    rewrite ?R; cbn [fst snd];
    try destruct (has (status (state np)) STAT_MAXIMIZED); cbn [negb];
    unfold MaximizeClient, Debug, reload, log; cbn [fst snd];
    rewrite ?app_nil_r; try reflexivity; destruct w; reflexivity.
Qed.

(** A state message that names maximize properties only, one or both,
    calls [MaximizeClient], which toggles, at most once: on remove only for
    a client that is maximized, on add only for one that is not, on toggle
    always.  The handler itself writes nothing to the registry. *)
Theorem maximize_message_acts_once
  (E : Env) (event : XClientMessageEvent.t) (w : World) (np : ClientNode) :
  atoms_distinct E ->
  fst (FindClientByWindow (XClientMessageEvent.window event) w) = Some np ->
  window np = XClientMessageEvent.window event ->
  XClientMessageEvent.message_type event = atoms E ATOM_NET_WM_STATE ->
  (maximize_property E (XClientMessageEvent.l1 event) /\
   (maximize_property E (XClientMessageEvent.l2 event) \/
    no_state_property E (XClientMessageEvent.l2 event))) \/
  (no_state_property E (XClientMessageEvent.l1 event) /\
   maximize_property E (XClientMessageEvent.l2 event)) ->
  let H := HandleClientMessage E event in
  let maximized := has (status (state np)) STAT_MAXIMIZED in
  let toggle := Call.MaximizeClient (window np) in
  (XClientMessageEvent.l0 event = 0 ->
   issued H w = if maximized then [toggle] else []) /\
  (XClientMessageEvent.l0 event = 1 ->
   issued H w = if maximized then [] else [toggle]) /\
  (XClientMessageEvent.l0 event = 2 -> issued H w = [toggle]) /\
  clients (snd (H w)) = clients w.
Proof.
  intros D F Q T N. cbv zeta.
  assert (SA : state_action E (XClientMessageEvent.l2 event)
                 (state_action E (XClientMessageEvent.l1 event) (false, false, false))
               = (true, false, false)).
  { destruct N as [[A [B|B]]|[A B]].
    - rewrite (state_action_maximize E _ _ _ _ D A).
      apply (state_action_maximize E _ _ _ _ D B).
    - rewrite (state_action_maximize E _ _ _ _ D A).
      apply (state_action_none E _ _ B).
    - rewrite (state_action_none E _ _ A).
      apply (state_action_maximize E _ _ _ _ D B). }
  pose proof (HandleClientMessage_maximize E event w np D F Q T SA) as W.
  cbv zeta in W.
  split; [|split; [|split]].
  - intros L. rewrite L in W. cbn [Z.eqb] in W.
    erewrite issued_app by (rewrite W; reflexivity).
    destruct (has (status (state np)) STAT_MAXIMIZED); reflexivity.
  - intros L. rewrite L in W. cbn [Z.eqb Pos.eqb] in W.
    erewrite issued_app by (rewrite W; reflexivity).
    destruct (has (status (state np)) STAT_MAXIMIZED); reflexivity.
  - intros L. rewrite L in W. cbn [Z.eqb Pos.eqb] in W.
    erewrite issued_app by (rewrite W; reflexivity). reflexivity.
  - rewrite W. reflexivity.
Qed.

(** A request to add both maximize properties to the sample client. *)
Lemma maximize_message_acts_once_witness :
  let E := Sample.env FOCUS_SLOPPY BA_MOVE 0 0 in
  let np := Sample.client 0 None in
  let w := Sample.world [np] in
  let ev := XClientMessageEvent.mk 10 104 1 106 107 in
  (atoms_distinct E /\
   fst (FindClientByWindow (XClientMessageEvent.window ev) w) = Some np /\
   window np = XClientMessageEvent.window ev /\
   XClientMessageEvent.message_type ev = atoms E ATOM_NET_WM_STATE /\
   maximize_property E (XClientMessageEvent.l1 ev) /\
   maximize_property E (XClientMessageEvent.l2 ev) /\
   XClientMessageEvent.l0 ev = 1) /\
  issued (HandleClientMessage E ev) w =
    if has (status (state np)) STAT_MAXIMIZED then []
    else [Call.MaximizeClient (window np)].
Proof.
  cbv zeta.
  assert (D : atoms_distinct (Sample.env FOCUS_SLOPPY BA_MOVE 0 0)).
  { intros a b. destruct a, b; intros Q; try reflexivity; discriminate Q. }
  assert (F : fst (FindClientByWindow
                     (XClientMessageEvent.window (XClientMessageEvent.mk 10 104 1 106 107))
                     (Sample.world [Sample.client 0 None]))
              = Some (Sample.client 0 None)) by reflexivity.
  assert (Q : window (Sample.client 0 None)
              = XClientMessageEvent.window (XClientMessageEvent.mk 10 104 1 106 107))
    by reflexivity.
  assert (T : XClientMessageEvent.message_type (XClientMessageEvent.mk 10 104 1 106 107)
              = atoms (Sample.env FOCUS_SLOPPY BA_MOVE 0 0) ATOM_NET_WM_STATE)
    by reflexivity.
  assert (A : maximize_property (Sample.env FOCUS_SLOPPY BA_MOVE 0 0)
                (XClientMessageEvent.l1 (XClientMessageEvent.mk 10 104 1 106 107)))
    by (left; reflexivity).
  assert (B : maximize_property (Sample.env FOCUS_SLOPPY BA_MOVE 0 0)
                (XClientMessageEvent.l2 (XClientMessageEvent.mk 10 104 1 106 107)))
    by (right; reflexivity).
  assert (L : XClientMessageEvent.l0 (XClientMessageEvent.mk 10 104 1 106 107) = 1)
    by reflexivity.
  split; [repeat (split; [assumption|]); assumption|].
  exact (proj1 (proj2 (maximize_message_acts_once _ _ _ _ D F Q T
                         (or_introl (conj A (or_introl B))))) L).
Defined.

Lemma HandleClientMessage_unknown
  (E : Env) (event : XClientMessageEvent.t) (w : World) (np : ClientNode) :
  fst (FindClientByWindow (XClientMessageEvent.window event) w) = Some np ->
  ~ known_message E (XClientMessageEvent.message_type event) ->
  let name := JXGetAtomName_result E (XClientMessageEvent.message_type event) in
  HandleClientMessage E event w =
    (tt, with_trace
           (trace w ++
            [mkEntry (Call.JXGetAtomName (XClientMessageEvent.message_type event))
               (clients w);
             mkEntry (Call.DebugString name) (clients w);
             mkEntry (Call.JXFree name) (clients w)]) w).
Proof.
  intros F N. cbv zeta. unfold known_message in N.
  unfold HandleClientMessage. cbv zeta. unfold bind at 1. rewrite F.
  repeat match goal with
  | |- context [XClientMessageEvent.message_type event =? atoms E ?a] =>
      destruct (Z.eqb_spec (XClientMessageEvent.message_type event) (atoms E a));
      [exfalso; apply N; tauto|]
  end.
  unfold JXGetAtomName, DebugString, JXFree, log, ret. unfold bind.
  cbn [fst snd trace clients with_trace FindClientByWindow].
  rewrite <- !app_assoc. reflexivity.
Qed.

Lemma HandleClientMessage_bad_action
  (E : Env) (event : XClientMessageEvent.t) (w : World) (np : ClientNode) :
  atoms_distinct E ->
  fst (FindClientByWindow (XClientMessageEvent.window event) w) = Some np ->
  XClientMessageEvent.message_type event = atoms E ATOM_NET_WM_STATE ->
  XClientMessageEvent.l0 event <> 0 ->
  XClientMessageEvent.l0 event <> 1 ->
  XClientMessageEvent.l0 event <> 2 ->
  HandleClientMessage E event w =
    (tt, with_trace
           (trace w ++ [mkEntry (Call.Debug (XClientMessageEvent.l0 event))
                          (clients w)]) w).
Proof.
  intros D F T N0 N1 N2. apply Z.eqb_neq in N0, N1, N2.
  unfold HandleClientMessage. cbv zeta. unfold bind at 1. rewrite F, T.
  rewrite !(atoms_neq E ATOM_NET_WM_STATE _ D) by discriminate.
  rewrite Z.eqb_refl.
  destruct (state_action E (XClientMessageEvent.l2 event)
              (state_action E (XClientMessageEvent.l1 event) (false, false, false)))
    as [[m s] h].
  rewrite N0, N1, N2. reflexivity.
Qed.

(** A client message the handler does not recognise changes nothing in the
    registry.  For a message of a type that is none of the seven known ones
    the handler fetches the name of the type's atom, writes a debug line
    with that name and frees the name, in this order and nothing else; a
    state message whose action is not remove, add or toggle only leaves a
    debug line with the action code, whatever properties it names. *)
Theorem unrecognised_message_only_logged
  (E : Env) (event : XClientMessageEvent.t) (w : World) (np : ClientNode) :
  fst (FindClientByWindow (XClientMessageEvent.window event) w) = Some np ->
  let H := HandleClientMessage E event in
  (~ known_message E (XClientMessageEvent.message_type event) ->
   let name := JXGetAtomName_result E (XClientMessageEvent.message_type event) in
   issued H w = [Call.JXGetAtomName (XClientMessageEvent.message_type event);
                 Call.DebugString name; Call.JXFree name] /\
   clients (snd (H w)) = clients w) /\
  (atoms_distinct E ->
   XClientMessageEvent.message_type event = atoms E ATOM_NET_WM_STATE ->
   ~ 0 <= XClientMessageEvent.l0 event <= 2 ->
   issued H w = [Call.Debug (XClientMessageEvent.l0 event)] /\
   clients (snd (H w)) = clients w).
Proof.
  intros F. cbv zeta. split.
  - intros N. pose proof (HandleClientMessage_unknown E event w np F N) as W.
    cbv zeta in W. split; [|rewrite W; reflexivity].
    erewrite issued_app by (rewrite W; reflexivity). reflexivity.
  - intros D T R.
    assert (W := HandleClientMessage_bad_action E event w np D F T
                   ltac:(lia) ltac:(lia) ltac:(lia)).
    split; [|rewrite W; reflexivity].
    erewrite issued_app by (rewrite W; reflexivity). reflexivity.
Qed.

(** A message of type 999, which is no atom of the table. *)
Lemma unrecognised_message_only_logged_witness :
  let E := Sample.env FOCUS_SLOPPY BA_MOVE 0 0 in
  let np := Sample.client 0 None in
  let w := Sample.world [np] in
  let ev := XClientMessageEvent.mk 10 999 0 0 0 in
  (fst (FindClientByWindow (XClientMessageEvent.window ev) w) = Some np /\
   ~ known_message E (XClientMessageEvent.message_type ev)) /\
  issued (HandleClientMessage E ev) w =
    [Call.JXGetAtomName 999;
     Call.DebugString (JXGetAtomName_result E 999);
     Call.JXFree (JXGetAtomName_result E 999)] /\
  clients (snd (HandleClientMessage E ev w)) = clients w.
Proof.
  cbv zeta.
  assert (F : fst (FindClientByWindow
                     (XClientMessageEvent.window (XClientMessageEvent.mk 10 999 0 0 0))
                     (Sample.world [Sample.client 0 None]))
              = Some (Sample.client 0 None)) by reflexivity.
  assert (N : ~ known_message (Sample.env FOCUS_SLOPPY BA_MOVE 0 0)
                  (XClientMessageEvent.message_type
                     (XClientMessageEvent.mk 10 999 0 0 0))).
  { intros [K|[K|[K|[K|[K|[K|K]]]]]]; discriminate K. }
  split; [split; assumption|].
  exact (proj1 (unrecognised_message_only_logged _ _ _ _ F) N).
Defined.

(** *** Clicks on a content window *)

(** A button event on the content window of a client is always replayed to
    the application: [JXAllowEvents] is called for every button, after the
    raise and the click-focus that buttons 1 to 3 cause, and the pager is
    refreshed last.  The registry and the double-click detector are not
    touched. *)
Theorem content_click_replayed
  (E : Env) (event : XButtonEvent.t) (w : World) (np : ClientNode) :
  fst (FindClientByParent (XButtonEvent.window event) w) = None ->
  XButtonEvent.window event <> rootWindow E ->
  fst (FindClientByWindow (XButtonEvent.window event) w) = Some np ->
  let H := HandleButtonEvent E event in
  issued H w =
    (if plain_button (XButtonEvent.button event)
     then Call.RaiseClient (window np)
          :: (if focus_eqb (focusModel E) FOCUS_CLICK
              then [Call.FocusClient (window np)] else [])
     else [])
    ++ [Call.JXAllowEvents; Call.UpdatePager] /\
  clients (snd (H w)) = clients w /\
  detector (snd (H w)) = detector w.
Proof.
  intros P R F. cbv zeta. apply Z.eqb_neq in R.
  assert (W : snd (HandleButtonEvent E event w) =
              with_trace
                (trace w ++
                 (if plain_button (XButtonEvent.button event)
                  then mkEntry (Call.RaiseClient (window np)) (clients w)
                       :: (if focus_eqb (focusModel E) FOCUS_CLICK
                           then [mkEntry (Call.FocusClient (window np)) (clients w)]
                           else [])
                  else [])
                 ++ [mkEntry Call.JXAllowEvents (clients w);
                     mkEntry Call.UpdatePager (clients w)]) w).
  { unfold HandleButtonEvent. unfold bind at 1. rewrite P, R.
    unfold bind at 1. unfold bind at 1.
    change (snd (FindClientByParent (XButtonEvent.window event) w)) with w.
    rewrite F. unfold plain_button.
    destruct ((XButtonEvent.button event =? Button1)
              || (XButtonEvent.button event =? Button2)
              || (XButtonEvent.button event =? Button3));
      destruct (focus_eqb (focusModel E) FOCUS_CLICK);
      unfold bind, RaiseClient, FocusClient, JXAllowEvents, UpdatePager, log, skip, ret;
      cbn [fst snd trace clients with_trace FindClientByWindow app];
      rewrite <- ?app_assoc; reflexivity. }
  split; [|rewrite W; split; reflexivity].
  erewrite issued_app by (rewrite W; reflexivity).
  destruct (plain_button (XButtonEvent.button event));
    destruct (focus_eqb (focusModel E) FOCUS_CLICK); reflexivity.
Qed.

(** A wheel click (button 4) on the content window of the sample client. *)
Lemma content_click_replayed_witness :
  let E := Sample.env FOCUS_CLICK BA_NONE 0 0 in
  let np := Sample.client 0 None in
  let w := Sample.world [np] in
  let ev := XButtonEvent.mk ButtonPress 10 3 3 4 0 in
  (fst (FindClientByParent (XButtonEvent.window ev) w) = None /\
   XButtonEvent.window ev <> rootWindow E /\
   fst (FindClientByWindow (XButtonEvent.window ev) w) = Some np) /\
  issued (HandleButtonEvent E ev) w = [Call.JXAllowEvents; Call.UpdatePager].
Proof.
  cbv zeta.
  assert (P : fst (FindClientByParent
                     (XButtonEvent.window (XButtonEvent.mk ButtonPress 10 3 3 4 0))
                     (Sample.world [Sample.client 0 None])) = None) by reflexivity.
  assert (R : XButtonEvent.window (XButtonEvent.mk ButtonPress 10 3 3 4 0)
              <> rootWindow (Sample.env FOCUS_CLICK BA_NONE 0 0)) by discriminate.
  assert (F : fst (FindClientByWindow
                     (XButtonEvent.window (XButtonEvent.mk ButtonPress 10 3 3 4 0))
                     (Sample.world [Sample.client 0 None]))
              = Some (Sample.client 0 None)) by reflexivity.
  split; [repeat (split; [assumption|]); assumption|].
  exact (proj1 (content_click_replayed (Sample.env FOCUS_CLICK BA_NONE 0 0)
                  _ _ _ P R F)).
Defined.

(** *** The double-click detector *)

Lemma wrapped_time_difference (l d : Z) :
  0 <= d < 2 ^ 31 ->
  abs (int_of_ulong (ulong_sub ((l + d) mod 2 ^ 32) l)) = d.
Proof.
  intros R. unfold int_of_ulong, ulong_sub.
  rewrite (Z.mod_mod_divide _ (2 ^ 64) (2 ^ 32)) by (exists (2 ^ 32); reflexivity).
  rewrite Zminus_mod_idemp_l.
  replace (l + d - l) with d by lia.
  change (2 ^ 31) with 2147483648 in *. change (2 ^ 32) with 4294967296 in *.
  rewrite Z.mod_small by lia.
  destruct (d <? 2147483648) eqn:L; [|apply Z.ltb_ge in L; lia].
  unfold abs. change (- 2 ^ 31) with (-2147483648).
  destruct (Z.eqb_spec d (-2147483648)); [lia|]. apply Z.abs_eq. lia.
Qed.

(** The double-click test survives the wrap-around of the 32-bit server
    time: when the press comes [d] ms after the recorded one, counted modulo
    [2^32], with [d] below [2^31], an armed detector and the pointer within
    the distance delta, the press toggles the shade exactly when [d] is
    within the time delta, and starts a move otherwise. *)
Theorem double_click_across_time_wrap
  (E : Env) (event : XButtonEvent.t) (np : ClientNode) (w : World) (d : Z) :
  has (border (state np)) BORDER_OUTLINE = true ->
  zone_of E np event = BA_MOVE ->
  XButtonEvent.type event = ButtonPress ->
  doubleClickActive w = true ->
  0 <= d < 2 ^ 31 ->
  XButtonEvent.time event = (lastClickTime w + d) mod 2 ^ 32 ->
  Z.abs (XButtonEvent.x event - lastX w) <= doubleClickDelta E ->
  Z.abs (XButtonEvent.y event - lastY w) <= doubleClickDelta E ->
  Z.abs (XButtonEvent.x event - lastX w) < 2 ^ 31 ->
  Z.abs (XButtonEvent.y event - lastY w) < 2 ^ 31 ->
  issued (DispatchBorderButtonEvent E event np) w =
    [if d <=? doubleClickSpeed E then toggle_call np
     else Call.MoveClient (window np) (XButtonEvent.x event) (XButtonEvent.y event)].
Proof.
  intros O Z P A R T DX DY RX RY.
  rewrite (press_move_issued E event np w O Z P).
  assert (Q : double_click E event w = (d <=? doubleClickSpeed E)).
  { unfold double_click.
    rewrite A, T, (wrapped_time_difference _ _ R),
      (abs_in_range _ RX), (abs_in_range _ RY).
    apply Z.leb_le in DX, DY. rewrite DX, DY, !andb_true_r. reflexivity. }
  rewrite Q. reflexivity.
Qed.

(** The recorded press was 100 ms before the wrap, the new one is 50 ms
    after it. *)
Lemma double_click_across_time_wrap_witness :
  let E := Sample.env FOCUS_SLOPPY BA_MOVE 0 0 in
  let np := Sample.client 0 None in
  let w := mkWorld [np] false 1 (2 ^ 32 - 100) 10 10 true [] in
  let ev := Sample.press 10 10 50 in
  (has (border (state np)) BORDER_OUTLINE = true /\
   zone_of E np ev = BA_MOVE /\
   XButtonEvent.type ev = ButtonPress /\
   doubleClickActive w = true /\
   0 <= 150 < 2 ^ 31 /\
   XButtonEvent.time ev = (lastClickTime w + 150) mod 2 ^ 32 /\
   Z.abs (XButtonEvent.x ev - lastX w) <= doubleClickDelta E /\
   Z.abs (XButtonEvent.y ev - lastY w) <= doubleClickDelta E /\
   Z.abs (XButtonEvent.x ev - lastX w) < 2 ^ 31 /\
   Z.abs (XButtonEvent.y ev - lastY w) < 2 ^ 31) /\
  issued (DispatchBorderButtonEvent E ev np) w = [Call.ShadeClient 10].
Proof.
  cbv zeta.
  assert (O : has (border (state (Sample.client 0 None))) BORDER_OUTLINE = true)
    by reflexivity.
  assert (Z : zone_of (Sample.env FOCUS_SLOPPY BA_MOVE 0 0) (Sample.client 0 None)
                (Sample.press 10 10 50) = BA_MOVE) by reflexivity.
  assert (P : XButtonEvent.type (Sample.press 10 10 50) = ButtonPress) by reflexivity.
  assert (A : doubleClickActive
                (mkWorld [Sample.client 0 None] false 1 (2 ^ 32 - 100) 10 10 true [])
              = true) by reflexivity.
  assert (R : 0 <= 150 < 2 ^ 31) by (split; [discriminate|reflexivity]).
  assert (T : XButtonEvent.time (Sample.press 10 10 50)
              = (lastClickTime
                   (mkWorld [Sample.client 0 None] false 1 (2 ^ 32 - 100) 10 10 true [])
                 + 150) mod 2 ^ 32) by reflexivity.
  assert (DX : Z.abs (XButtonEvent.x (Sample.press 10 10 50)
                      - lastX (mkWorld [Sample.client 0 None] false 1 (2 ^ 32 - 100)
                                 10 10 true []))
               <= doubleClickDelta (Sample.env FOCUS_SLOPPY BA_MOVE 0 0))
    by discriminate.
  assert (DY : Z.abs (XButtonEvent.y (Sample.press 10 10 50)
                      - lastY (mkWorld [Sample.client 0 None] false 1 (2 ^ 32 - 100)
                                 10 10 true []))
               <= doubleClickDelta (Sample.env FOCUS_SLOPPY BA_MOVE 0 0))
    by discriminate.
  assert (RX : Z.abs (XButtonEvent.x (Sample.press 10 10 50)
                      - lastX (mkWorld [Sample.client 0 None] false 1 (2 ^ 32 - 100)
                                 10 10 true [])) < 2 ^ 31) by reflexivity.
  assert (RY : Z.abs (XButtonEvent.y (Sample.press 10 10 50)
                      - lastY (mkWorld [Sample.client 0 None] false 1 (2 ^ 32 - 100)
                                 10 10 true [])) < 2 ^ 31) by reflexivity.
  split; [repeat (split; [assumption|]); assumption|].
  exact (double_click_across_time_wrap _ _ _ _ 150 O Z P A R T DX DY RX RY).
Defined.

(** A double click is used up by the toggle: after a press that toggled the
    shade, the next press in the move zone of an outlined client starts a
    move, however close in time and place it is.  Three quick presses give
    move, toggle, move. *)
Theorem press_after_double_click_moves
  (E : Env) (p1 p2 : XButtonEvent.t) (np1 np2 : ClientNode) (w : World) :
  has (border (state np1)) BORDER_OUTLINE = true ->
  zone_of E np1 p1 = BA_MOVE ->
  XButtonEvent.type p1 = ButtonPress ->
  issued (DispatchBorderButtonEvent E p1 np1) w = [toggle_call np1] ->
  has (border (state np2)) BORDER_OUTLINE = true ->
  zone_of E np2 p2 = BA_MOVE ->
  XButtonEvent.type p2 = ButtonPress ->
  issued (DispatchBorderButtonEvent E p2 np2)
    (snd (DispatchBorderButtonEvent E p1 np1 w)) =
    [Call.MoveClient (window np2) (XButtonEvent.x p2) (XButtonEvent.y p2)].
Proof.
  intros O1 Z1 P1 T O2 Z2 P2.
  rewrite (press_move_issued E p1 np1 w O1 Z1 P1) in T.
  assert (D : double_click E p1 w = true).
  { destruct (double_click E p1 w); [reflexivity|].
    inversion T as [Q]. symmetry in Q. apply toggle_is_not_move in Q. destruct Q. }
  rewrite (press_move_issued E p2 np2 _ O2 Z2 P2).
  rewrite unarmed_no_double_click; [reflexivity|].
  rewrite (press_move_world E p1 np1 w O1 Z1 P1), D. reflexivity.
Qed.

(** The press that toggles the shade of the sample client, and the next. *)
Lemma press_after_double_click_moves_witness :
  let E := Sample.env FOCUS_SLOPPY BA_MOVE 0 0 in
  let np := Sample.client 0 None in
  let w := mkWorld [np] false 1 1000 10 10 true [] in
  let p1 := Sample.press 10 10 1100 in
  let p2 := Sample.press 10 10 1200 in
  (has (border (state np)) BORDER_OUTLINE = true /\
   zone_of E np p1 = BA_MOVE /\ XButtonEvent.type p1 = ButtonPress /\
   issued (DispatchBorderButtonEvent E p1 np) w = [toggle_call np] /\
   zone_of E np p2 = BA_MOVE /\ XButtonEvent.type p2 = ButtonPress) /\
  issued (DispatchBorderButtonEvent E p2 np)
    (snd (DispatchBorderButtonEvent E p1 np w)) = [Call.MoveClient 10 10 10].
Proof.
  cbv zeta.
  assert (O : has (border (state (Sample.client 0 None))) BORDER_OUTLINE = true)
    by reflexivity.
  assert (Z1 : zone_of (Sample.env FOCUS_SLOPPY BA_MOVE 0 0) (Sample.client 0 None)
                 (Sample.press 10 10 1100) = BA_MOVE) by reflexivity.
  assert (P1 : XButtonEvent.type (Sample.press 10 10 1100) = ButtonPress)
    by reflexivity.
  assert (T : issued (DispatchBorderButtonEvent (Sample.env FOCUS_SLOPPY BA_MOVE 0 0)
                        (Sample.press 10 10 1100) (Sample.client 0 None))
                (mkWorld [Sample.client 0 None] false 1 1000 10 10 true [])
              = [toggle_call (Sample.client 0 None)]) by reflexivity.
  assert (Z2 : zone_of (Sample.env FOCUS_SLOPPY BA_MOVE 0 0) (Sample.client 0 None)
                 (Sample.press 10 10 1200) = BA_MOVE) by reflexivity.
  assert (P2 : XButtonEvent.type (Sample.press 10 10 1200) = ButtonPress)
    by reflexivity.
  split; [repeat (split; [assumption|]); assumption|].
  exact (press_after_double_click_moves _ _ _ _ _ _ O Z1 P1 T O Z2 P2).
Defined.

(** The detector is written by presses in the move zone only: a release,
    an event in any other zone and an event on a client without outline
    leave the recorded time and position and the armed flag as they were,
    so that such an event between two presses on the title bar does not
    break the double click. *)
Theorem detector_written_by_title_press_only
  (E : Env) (event : XButtonEvent.t) (np : ClientNode) (w : World) :
  XButtonEvent.type event = ButtonRelease \/
  zone_of E np event <> BA_MOVE \/
  has (border (state np)) BORDER_OUTLINE = false ->
  detector (snd (DispatchBorderButtonEvent E event np w)) = detector w.
Proof.
  intros H. unfold DispatchBorderButtonEvent. cbv zeta.
  destruct (has (border (state np)) BORDER_OUTLINE) eqn:O; cbn [negb];
    [|reflexivity].
  fold (zone_of E np event).
  destruct (zone_of E np event =? BA_RESIZE);
    [destruct (XButtonEvent.type event); reflexivity|].
  destruct (Z.eqb_spec (zone_of E np event) BA_MOVE) as [M|M].
  - destruct (XButtonEvent.type event) eqn:P; [|reflexivity].
    exfalso. destruct H as [H|[H|H]]; [discriminate H|exact (H M)|discriminate H].
  - destruct (zone_of E np event =? BA_CLOSE);
      [destruct (XButtonEvent.type event); reflexivity|].
    destruct (zone_of E np event =? BA_MAXIMIZE);
      [destruct (XButtonEvent.type event); reflexivity|].
    destruct (zone_of E np event =? BA_MINIMIZE);
      [destruct (XButtonEvent.type event); reflexivity|].
    reflexivity.
Qed.

(** A release on the close button with an armed detector. *)
Lemma detector_written_by_title_press_only_witness :
  let E := Sample.env FOCUS_SLOPPY BA_CLOSE 0 0 in
  let np := Sample.client 0 None in
  let w := mkWorld [np] false 1 1000 10 10 true [] in
  let ev := Sample.release 90 10 1100 in
  XButtonEvent.type ev = ButtonRelease /\
  detector (snd (DispatchBorderButtonEvent E ev np w)) = detector w.
Proof.
  cbv zeta.
  assert (R : XButtonEvent.type (Sample.release 90 10 1100) = ButtonRelease)
    by reflexivity.
  split; [exact R|].
  exact (detector_written_by_title_press_only (Sample.env FOCUS_SLOPPY BA_CLOSE 0 0)
           (Sample.release 90 10 1100) (Sample.client 0 None)
           (mkWorld [Sample.client 0 None] false 1 1000 10 10 true [])
           (or_introl R)).
Defined.
